(** * Budget tracker backend: analytics and budget reconciliation

    A shallow embedding of [src/services/analytics.service.ts] and of the
    budget part of [src/services/budget.service.ts], with the calendar
    arithmetic of the JavaScript [Date] object and the MongoDB pipeline
    stages ([$match], [$group], [$sort], [$limit]) that the services use.

    Modelling conventions:
    - a JavaScript number that holds an amount is an exact rational ([Q]);
      the result of a division is a [jsnum], which adds the non-finite
      values a division by zero produces.  The services are embedded in
      this exact arithmetic, which leaves out binary rounding and
      overflow; where a property depends on overflow, the expression is
      embedded a second time in binary64 ([Binary64]);
    - a [Date] is its time value, milliseconds since the epoch; the server
      is taken to run in UTC, so local fields and the fields MongoDB
      extracts ([$year], [$month], [$week]) coincide;
    - a collection is a list of documents, a query is a function of it. *)

From Stdlib Require Import ZArith QArith Qabs Qround Lqa Lia Ascii.
From Stdlib Require SpecFloat.
From stdpp Require Import base list gmap strings pretty sorting.

Local Open Scope Z_scope.

(** ** JavaScript numbers *)

Inductive jsnum : Type :=
  | Fin (q : Q)
  | PosInf
  | NegInf
  | NaN.

(** [a / b] on finite operands. *)
Definition jsdiv (a b : Q) : jsnum :=
  if Qeq_bool b 0 then
    if Qeq_bool a 0 then NaN
    else if Qle_bool 0 a then PosInf else NegInf
  else Fin (a / b).

(** [x * k] for a finite, positive constant [k] (the services use 100). *)
Definition jsscale (x : jsnum) (k : Q) : jsnum :=
  match x with
  | Fin q => Fin (q * k)
  | other => other
  end.

(** [a > b] on finite operands. *)
Definition jsgt (a b : Q) : bool := negb (Qle_bool a b).

(** [x || 0] for an optional number: [undefined] and [0] both give [0]. *)
Definition orZero (x : option Q) : Q := default 0%Q x.

(** Truthiness of an optional number: present and not zero. *)
Definition truthyNum (x : option Q) : bool :=
  match x with
  | Some q => negb (Qeq_bool q 0)
  | None => false
  end.

Definition sumQ (l : list Q) : Q := foldr Qplus 0%Q l.

(** ** Binary64

    The numbers of the interpreter and of the store: IEEE 754 binary64,
    rounded to nearest with ties to even, as [SpecFloat] specifies
    them. *)

Module Binary64.

Definition num : Type := SpecFloat.spec_float.

Definition prec : Z := 53.
Definition emax : Z := 1024.

Definition zero : num := SpecFloat.S754_zero false.
Definition infinity : num := SpecFloat.S754_infinity false.
Definition nan : num := SpecFloat.S754_nan.

(** The double nearest to an integer. *)
Definition ofZ (z : Z) : num := SpecFloat.binary_normalize prec emax z 0 false.

Definition add : num → num → num := SpecFloat.SFadd prec emax.
Definition sub : num → num → num := SpecFloat.SFsub prec emax.
Definition mul : num → num → num := SpecFloat.SFmul prec emax.
Definition div : num → num → num := SpecFloat.SFdiv prec emax.
Definition abs : num → num := SpecFloat.SFabs.

(** [a > b]: false when an operand is NaN. *)
Definition gt (a b : num) : bool := SpecFloat.SFltb b a.

(** [{ $sum: { $abs: '$amount' } }] over the amounts of a group. *)
Definition sumAbs (amounts : list num) : num :=
  foldl (λ acc a, add acc (abs a)) zero amounts.

(** [income > 0 ? ((income - expenses) / income) * 100 : 0]. *)
Definition savingsRate (income expenses : num) : num :=
  if gt income zero
  then mul (div (sub income expenses) income) (ofZ 100)
  else zero.

(** Not NaN, and not below zero. *)
Definition nonneg (x : num) : Prop :=
  match x with
  | SpecFloat.S754_zero _ => True
  | SpecFloat.S754_infinity s | SpecFloat.S754_finite s _ _ => s = false
  | SpecFloat.S754_nan => False
  end.

End Binary64.

(** ** Dates (ECMAScript time values, UTC) *)

Module JSDate.

Definition t := Z.

Definition msPerDay : Z := 86400000.

Definition Day (tv : t) : Z := tv / msPerDay.
Definition TimeWithinDay (tv : t) : Z := tv mod msPerDay.

Definition isLeap (y : Z) : bool :=
  ((y mod 4 =? 0) && negb (y mod 100 =? 0)) || (y mod 400 =? 0).

Definition DayFromYear (y : Z) : Z :=
  365 * (y - 1970) + (y - 1969) / 4 - (y - 1901) / 100 + (y - 1601) / 400.

(** Days before the first of month [mn] (0-based) in a common year. *)
Definition cumDays (mn : Z) : Z :=
  match mn with
  | 0 => 0 | 1 => 31 | 2 => 59 | 3 => 90 | 4 => 120 | 5 => 151
  | 6 => 181 | 7 => 212 | 8 => 243 | 9 => 273 | 10 => 304 | _ => 334
  end.

Definition daysBeforeMonth (y mn : Z) : Z :=
  cumDays mn + (if isLeap y && (2 <=? mn) then 1 else 0).

(** [MakeDay(year, month, date)]: month and date may lie outside their
    range and carry over. *)
Definition MakeDay (year month date : Z) : Z :=
  let ym := year + month / 12 in
  let mn := month mod 12 in
  DayFromYear ym + daysBeforeMonth ym mn + date - 1.

Definition MakeDate (day time : Z) : t := day * msPerDay + time.

(** [new Date(year, month, date)]: local midnight; a two-digit year is
    taken in the twentieth century. *)
Definition mk (year month date : Z) : t :=
  let yr := if (0 <=? year) && (year <=? 99) then 1900 + year else year in
  MakeDate (MakeDay yr month date) 0.

(** Civil date of a day of the 400-year cycle that starts on 1 March of
    a year divisible by 400: [(year of the cycle, month 1..12, day)]. *)
Definition civilOfCycle (doe : Z) : Z * Z * Z :=
  let yoe := (doe - doe / 1460 + doe / 36524 - doe / 146096) / 365 in
  let doy := doe - (365 * yoe + yoe / 4 - yoe / 100) in
  let mp := (5 * doy + 2) / 153 in
  let d := doy - (153 * mp + 2) / 5 + 1 in
  let m := if mp <? 10 then mp + 3 else mp - 9 in
  (yoe + (if m <=? 2 then 1 else 0), m, d).

(** Civil date of a day number: [(year, month 1..12, day 1..31)]. *)
Definition civil (dn : Z) : Z * Z * Z :=
  let z := dn + 719468 in
  let era := z / 146097 in
  let doe := z mod 146097 in
  let c := civilOfCycle doe in
  (c.1.1 + era * 400, c.1.2, c.2).

(** What [civil] has to satisfy on one cycle. *)
Definition cycleOk (doe : Z) : bool :=
  let c := civilOfCycle doe in
  (1 <=? c.1.2) && (c.1.2 <=? 12) && (1 <=? c.2) && (c.2 <=? 31)
  && (MakeDay c.1.1 (c.1.2 - 1) c.2 =? doe - 719468).

Definition getFullYear (tv : t) : Z := (civil (Day tv)).1.1.
Definition getMonth (tv : t) : Z := (civil (Day tv)).1.2 - 1.
Definition getDate (tv : t) : Z := (civil (Day tv)).2.

(** [d.setMonth(m)]: same day of month and time of day, carried over. *)
Definition setMonth (tv : t) (m : Z) : t :=
  MakeDate (MakeDay (getFullYear tv) m (getDate tv)) (TimeWithinDay tv).

(** [0] is Sunday. *)
Definition WeekDay (tv : t) : Z := (Day tv + 4) mod 7.

(** MongoDB date operators. *)
Definition year (tv : t) : Z := getFullYear tv.
Definition month (tv : t) : Z := getMonth tv + 1.
(** [$week]: weeks begin on Sunday, the days before the first Sunday of
    the year are in week 0. *)
Definition week (tv : t) : Z :=
  let yday := Day tv - DayFromYear (getFullYear tv) in
  (yday + 7 - WeekDay tv) / 7.

End JSDate.

(** ** Strings *)

(** [n.toString()] for an integer. *)
Definition toString (n : Z) : string := pretty n.

(** [s.padStart(n, c)] with a one-character filler. *)
Definition padStart (n : nat) (c : Ascii.ascii) (s : string) : string :=
  String.string_of_list_ascii (replicate (n - String.length s) c) +:+ s.

(** A month number in two digits. *)
Definition twoDigits (m : Z) : string :=
  if m <? 10 then "0" +:+ toString m else toString m.

(** ** Documents *)

Definition ObjectId := N.

Inductive TxType : Type := income | expense.

#[global] Instance TxType_eq_dec : EqDecision TxType.
Proof. solve_decision. Defined.

Module Transaction.
Record t : Type := mk {
  userId : ObjectId;
  date : JSDate.t;
  category : string;
  amount : Q;
  type : TxType
}.
End Transaction.

Module Category.
Record t : Type := mk {
  userId : ObjectId;
  name : string;
  icon : string;
  color : string
}.
End Category.

Module CategoryBudget.
Record t : Type := mk {
  category : string;
  budget : Q;
  spent : Q
}.
End CategoryBudget.

Module Budget.
Record t : Type := mk {
  _id : ObjectId;
  userId : ObjectId;
  month : JSDate.t;
  totalBudget : Q;
  categoryBudgets : list CategoryBudget.t;
  currency : string
}.
End Budget.

Record Store : Type := {
  transactions : list Transaction.t;
  categories : list Category.t;
  budgets : list Budget.t
}.

(** ** Aggregation pipeline stages *)

(** [$group]: one bucket per distinct key, holding the documents of that
    key in collection order.  The order of the buckets is whatever the
    engine delivers; a [$sort] stage or a keyed lookup follows where the
    services depend on it. *)
Definition groupStage {A K : Type} `{EqDecision K}
    (key : A → K) (docs : list A) : list (K * list A) :=
  (λ k, (k, filter (λ d, key d = k) docs)) <$> remove_dups (key <$> docs).

(** [{ $sum: { $abs: '$amount' } }] over a bucket. *)
Definition sumAbs (g : list Transaction.t) : Q :=
  sumQ ((λ t, Qabs (Transaction.amount t)) <$> g).

(** [{ $sum: { $cond: [{ $eq: ['$type', ty] }, '$amount', 0] } }]. *)
Definition sumCond (ty : TxType) (g : list Transaction.t) : Q :=
  sumQ ((λ t, if decide (Transaction.type t = ty)
              then Transaction.amount t else 0%Q) <$> g).

(** Optional bounds of a [date] query. *)
Definition gteBound (lo : option JSDate.t) (d : JSDate.t) : Prop :=
  match lo with Some s => s ≤ d | None => True end.
Definition lteBound (hi : option JSDate.t) (d : JSDate.t) : Prop :=
  match hi with Some e => d ≤ e | None => True end.

#[global] Instance gteBound_dec lo d : Decision (gteBound lo d).
Proof. destruct lo; simpl; apply _. Defined.
#[global] Instance lteBound_dec hi d : Decision (lteBound hi d).
Proof. destruct hi; simpl; apply _. Defined.

(** Ascending order on [(year, month)] keys. *)
Definition ymLe (a b : Z * Z) : Prop :=
  a.1 < b.1 ∨ (a.1 = b.1 ∧ a.2 ≤ b.2).

(** Ascending order on an optional key part; an absent part sorts first. *)
Definition optLt (a b : option Z) : Prop :=
  match a, b with
  | None, Some _ => True
  | Some x, Some y => x < y
  | _, None => False
  end.

#[global] Instance optLt_dec a b : Decision (optLt a b).
Proof. destruct a, b; simpl; apply _. Defined.

(** Descending order on summed amounts. *)
Definition QleDec (x y : Q) : Decision (x <= y)%Q :=
  match Qlt_le_dec y x with
  | left H => right (Qlt_not_le _ _ H)
  | right H => left H
  end.
#[global] Existing Instance QleDec.

(** ** Result shapes *)

Module MonthlyData.
Record t : Type := mk {
  month : string;
  income : Q;
  expenses : Q;
  net : Q
}.
End MonthlyData.

Module CategorySpending.
Record t : Type := mk {
  category : string;
  amount : Q;
  percentage : jsnum;
  color : option string;
  icon : option string
}.
End CategorySpending.

Module SpendingTrend.
Record t : Type := mk {
  period : string;
  amount : Q;
  change : jsnum
}.
End SpendingTrend.

(** [ICategoryBudget] of [types/index.ts]: [overspent] is optional. *)
Module CategoryProgress.
Record t : Type := mk {
  category : string;
  budget : Q;
  spent : Q;
  remaining : Q;
  percentage : jsnum;
  overspent : option bool
}.
End CategoryProgress.

(** [BudgetResponse] of [types/index.ts]: the identifier and [overspent]
    are present only where the service puts them. *)
Module BudgetResponse.
Record t : Type := mk {
  id : option ObjectId;
  month : JSDate.t;
  totalBudget : Q;
  totalSpent : Q;
  totalRemaining : Q;
  totalPercentage : jsnum;
  categoryBudgets : list CategoryProgress.t;
  overspent : option bool;
  currency : string
}.
End BudgetResponse.

Module Totals.
Record t : Type := mk {
  income : Q;
  expenses : Q;
  net : Q;
  savingsRate : jsnum
}.
End Totals.

Module FinancialOverview.
Record t : Type := mk {
  monthly : Totals.t;
  yearly : Totals.t;
  topCategories : list (string * Q)
}.
End FinancialOverview.

Inductive Period : Type := week | month | year.

(** The [_id] of a trend bucket: [groupFormat] has a [year] part always
    and a [month] or a [week] part by period. *)
Module TrendId.
Record t : Type := mk {
  year : Z;
  month : option Z;
  week : option Z
}.
#[global] Instance eq_dec : EqDecision t.
Proof. solve_decision. Defined.
End TrendId.

(** [{ '_id.year': 1, '_id.month': 1, '_id.week': 1 }]. *)
Definition trendLe (a b : TrendId.t) : Prop :=
  TrendId.year a < TrendId.year b ∨
  (TrendId.year a = TrendId.year b ∧
   (optLt (TrendId.month a) (TrendId.month b) ∨
    (TrendId.month a = TrendId.month b ∧
     (optLt (TrendId.week a) (TrendId.week b) ∨
      TrendId.week a = TrendId.week b)))).

(** Spending per category in a window, as a [Map] from category name. *)
Definition spendingOf (txs : list Transaction.t) (userId : ObjectId)
    (startOfMonth endOfMonth : JSDate.t) : list (string * Q) :=
  (λ kg, (kg.1, sumAbs kg.2)) <$>
    groupStage Transaction.category
      (filter (λ t, Transaction.userId t = userId
                    ∧ Transaction.type t = expense
                    ∧ startOfMonth ≤ Transaction.date t
                    ∧ Transaction.date t ≤ endOfMonth) txs).

(** [new Map(entries)]: a later entry replaces an earlier one. *)
Definition newMap {V : Type} (entries : list (string * V)) : gmap string V :=
  foldl (λ m kv, <[kv.1 := kv.2]> m) ∅ entries.

(** [arr.reduce((sum, x) => sum + f(x), 0)]. *)
Definition reduceSum {A : Type} (f : A → Q) (arr : list A) : Q :=
  foldl (λ sum x, (sum + f x)%Q) 0%Q arr.

(** ** [AnalyticsService] *)

Module AnalyticsService.

Definition monthLabel (y m : Z) : string :=
  toString y +:+ "-" +:+ padStart 2 "0"%char (toString m).

Definition getMonthlySummary (db : Store) (now : JSDate.t)
    (userId : ObjectId) (months : option Z) : list MonthlyData.t :=
  let months := default 6 months in
  let endDate := now in
  let startDate := JSDate.setMonth now (JSDate.getMonth now - months) in
  let matched :=
    filter (λ t, Transaction.userId t = userId
                 ∧ startDate ≤ Transaction.date t
                 ∧ Transaction.date t ≤ endDate) (transactions db) in
  let grouped :=
    (λ kg, (kg.1, (sumCond income kg.2, sumCond expense kg.2))) <$>
      groupStage (λ t, (JSDate.year (Transaction.date t),
                        JSDate.month (Transaction.date t))) matched in
  let sorted := merge_sort (λ a b, ymLe a.1 b.1) grouped in
  (λ data,
     MonthlyData.mk (monthLabel data.1.1 data.1.2)
                    data.2.1
                    (Qabs data.2.2)
                    (data.2.1 - Qabs data.2.2)%Q) <$> sorted.

(** The aggregation of [getCategorySpending]: [(category, amount)],
    largest amount first. *)
Definition categoryTotals (db : Store) (userId : ObjectId)
    (startDate endDate : option JSDate.t) : list (string * Q) :=
  let matched :=
    filter (λ t, Transaction.userId t = userId
                 ∧ Transaction.type t = expense
                 ∧ gteBound startDate (Transaction.date t)
                 ∧ lteBound endDate (Transaction.date t))
           (transactions db) in
  merge_sort (λ a b, (b.2 <= a.2)%Q)
    ((λ kg, (kg.1, sumAbs kg.2)) <$>
       groupStage Transaction.category matched).

Definition getCategorySpending (db : Store) (userId : ObjectId)
    (startDate endDate : option JSDate.t) : list CategorySpending.t :=
  let spending := categoryTotals db userId startDate endDate in
  let total := reduceSum snd spending in
  let categories :=
    filter (λ c, Category.userId c = userId) (categories db) in
  let categoryMap :=
    newMap ((λ cat, (Category.name cat,
                     (Category.color cat, Category.icon cat)))
            <$> categories) in
  (λ item,
     CategorySpending.mk item.1 item.2
       (if jsgt total 0 then jsscale (jsdiv item.2 total) 100 else Fin 0)
       (fst <$> categoryMap !! item.1)
       (snd <$> categoryMap !! item.1)) <$> spending.

Definition groupFormat (period : Period) (d : JSDate.t) : TrendId.t :=
  match period with
  | week => TrendId.mk (JSDate.year d) None (Some (JSDate.week d))
  | month => TrendId.mk (JSDate.year d) (Some (JSDate.month d)) None
  | year => TrendId.mk (JSDate.year d) None None
  end.

Definition trendLabel (period : Period) (i : TrendId.t) : string :=
  match period with
  | year => toString (TrendId.year i)
  | month =>
      toString (TrendId.year i) +:+ "-" +:+
      padStart 2 "0"%char (toString (default 0 (TrendId.month i)))
  | week =>
      toString (TrendId.year i) +:+ "-W" +:+
      padStart 2 "0"%char (toString (default 0 (TrendId.week i)))
  end.

(** The aggregation of [getSpendingTrends]. *)
Definition trendTotals (db : Store) (now : JSDate.t) (userId : ObjectId)
    (period : Period) : list (TrendId.t * Q) :=
  let since := JSDate.mk (JSDate.getFullYear now) (JSDate.getMonth now - 11) 1 in
  let matched :=
    filter (λ t, Transaction.userId t = userId
                 ∧ Transaction.type t = expense
                 ∧ since ≤ Transaction.date t) (transactions db) in
  merge_sort (λ a b, trendLe a.1 b.1)
    ((λ kg, (kg.1, sumAbs kg.2)) <$>
       groupStage (λ t, groupFormat period (Transaction.date t)) matched).

(** [array[index - 1].amount] is read only for [index > 0], where the
    element exists. *)
Definition getSpendingTrends (db : Store) (now : JSDate.t)
    (userId : ObjectId) (period : Period) : list SpendingTrend.t :=
  let trends := trendTotals db now userId period in
  imap (λ index trend,
          SpendingTrend.mk (trendLabel period trend.1) trend.2
            (match index with
             | S i =>
                 let previous := default 0%Q (snd <$> trends !! i) in
                 jsscale (jsdiv (trend.2 - previous) previous) 100
             | O => Fin 0
             end)) trends.

Definition progressRow (spendingMap : gmap string Q)
    (catBudget : CategoryBudget.t) : CategoryProgress.t :=
  let budget := CategoryBudget.budget catBudget in
  let spent := orZero (spendingMap !! CategoryBudget.category catBudget) in
  CategoryProgress.mk (CategoryBudget.category catBudget) budget spent
    (budget - spent)%Q
    (if jsgt budget 0 then jsscale (jsdiv spent budget) 100 else Fin 0)
    None.

Definition getBudgetProgress (db : Store) (now : JSDate.t)
    (userId : ObjectId) (month : option JSDate.t)
    : option BudgetResponse.t :=
  let targetMonth :=
    default (JSDate.mk (JSDate.getFullYear now) (JSDate.getMonth now) 1)
            month in
  match List.find (λ b, bool_decide (Budget.userId b = userId
                                     ∧ Budget.month b = targetMonth))
                  (budgets db) with
  | None => None
  | Some budget =>
      let startOfMonth :=
        JSDate.mk (JSDate.getFullYear targetMonth)
                  (JSDate.getMonth targetMonth) 1 in
      let endOfMonth :=
        JSDate.mk (JSDate.getFullYear targetMonth)
                  (JSDate.getMonth targetMonth + 1) 0 in
      let actualSpending :=
        spendingOf (transactions db) userId startOfMonth endOfMonth in
      let spendingMap := newMap actualSpending in
      let updatedCategoryBudgets :=
        progressRow spendingMap <$> Budget.categoryBudgets budget in
      let totalSpent :=
        reduceSum CategoryProgress.spent updatedCategoryBudgets in
      let totalRemaining := (Budget.totalBudget budget - totalSpent)%Q in
      let totalPercentage :=
        if jsgt (Budget.totalBudget budget) 0
        then jsscale (jsdiv totalSpent (Budget.totalBudget budget)) 100
        else Fin 0 in
      Some (BudgetResponse.mk None (Budget.month budget)
              (Budget.totalBudget budget) totalSpent totalRemaining
              totalPercentage updatedCategoryBudgets None
              (Budget.currency budget))
  end.

(** [{ $group: { _id: '$type', total: { $sum: { $abs: '$amount' } } } }]
    over a window. *)
Definition totalsByType (txs : list Transaction.t) (userId : ObjectId)
    (lo hi : JSDate.t) : list (TxType * Q) :=
  (λ kg, (kg.1, sumAbs kg.2)) <$>
    groupStage Transaction.type
      (filter (λ t, Transaction.userId t = userId
                    ∧ lo ≤ Transaction.date t
                    ∧ Transaction.date t ≤ hi) txs).

(** [summary.find((s) => s._id === ty)?.total || 0]. *)
Definition totalOf (ty : TxType) (summary : list (TxType * Q)) : Q :=
  orZero (snd <$> List.find (λ s, bool_decide (s.1 = ty)) summary).

Definition totals (income expenses : Q) : Totals.t :=
  Totals.mk income expenses (income - expenses)%Q
    (if jsgt income 0
     then jsscale (jsdiv (income - expenses) income) 100
     else Fin 0).

Definition getFinancialOverview (db : Store) (now : JSDate.t)
    (userId : ObjectId) : FinancialOverview.t :=
  let currentMonth :=
    JSDate.mk (JSDate.getFullYear now) (JSDate.getMonth now) 1 in
  let startOfMonth :=
    JSDate.mk (JSDate.getFullYear currentMonth)
              (JSDate.getMonth currentMonth) 1 in
  let endOfMonth :=
    JSDate.mk (JSDate.getFullYear currentMonth)
              (JSDate.getMonth currentMonth + 1) 0 in
  let monthlySummary :=
    totalsByType (transactions db) userId startOfMonth endOfMonth in
  let yearlySummary :=
    totalsByType (transactions db) userId
      (JSDate.mk (JSDate.getFullYear now) 0 1) endOfMonth in
  let topCategories :=
    take 5 (merge_sort (λ a b, (b.2 <= a.2)%Q)
              (spendingOf (transactions db) userId startOfMonth endOfMonth)) in
  let monthlyIncome := totalOf income monthlySummary in
  let monthlyExpenses := totalOf expense monthlySummary in
  let yearlyIncome := totalOf income yearlySummary in
  let yearlyExpenses := totalOf expense yearlySummary in
  FinancialOverview.mk (totals monthlyIncome monthlyExpenses)
                       (totals yearlyIncome yearlyExpenses)
                       topCategories.

End AnalyticsService.

(** ** [BudgetService] *)

(** A service call returns a value or throws an [Error] with a message. *)
Inductive outcome (A : Type) : Type :=
  | Ok (a : A)
  | Throw (msg : string).
Arguments Ok {A} a.
Arguments Throw {A} msg.

(** [Partial<IBudget>]: the request body, with the fields of the budget
    schema; the timestamps are left out. *)
Module PartialBudget.
Record t : Type := mk {
  userId : option ObjectId;
  month : option JSDate.t;
  totalBudget : option Q;
  categoryBudgets : option (list CategoryBudget.t);
  currency : option string
}.
End PartialBudget.

(** [Math.ceil]. *)
Definition jsceil (x : jsnum) : jsnum :=
  match x with
  | Fin q => Fin (inject_Z (Qceiling q))
  | other => other
  end.

(** [.skip(n)]: the store rejects a negative count. *)
Definition skipStage {A : Type} (n : Z) (docs : list A) : outcome (list A) :=
  if n <? 0 then Throw "Skip value must be non-negative"
  else Ok (drop (Z.to_nat n) docs).

(** [.limit(n)]: [0] means no limit, a negative count is taken as its
    magnitude. *)
Definition limitStage {A : Type} (n : Z) (docs : list A) : list A :=
  if n =? 0 then docs else take (Z.abs_nat n) docs.

Module BudgetService.

Definition currencies : list string :=
  ["USD"; "EUR"; "GBP"; "JPY"; "CAD"; "AUD"].

(** Validators of the budget schema. *)
Definition validCategoryBudget (cb : CategoryBudget.t) : bool :=
  negb (String.eqb (CategoryBudget.category cb) "")
  && Qle_bool 0 (CategoryBudget.budget cb)
  && Qle_bool 0 (CategoryBudget.spent cb).

Definition validTotal (x : Q) : bool := Qle_bool 0 x.
Definition validCurrency (c : string) : bool := bool_decide (c ∈ currencies).

Definition newestFirst (a b : Budget.t) : Prop :=
  Budget.month b ≤ Budget.month a.

#[global] Instance newestFirst_dec a b : Decision (newestFirst a b).
Proof. unfold newestFirst; apply _. Defined.

Module Page.
Record t : Type := mk {
  budgets : list Budget.t;
  total : Z;
  page : Z;
  limit : Z;
  pages : jsnum
}.
End Page.

Definition getBudgets (db : Store) (userId : ObjectId) (page limit : Z)
    : outcome Page.t :=
  let skip := (page - 1) * limit in
  let found := filter (λ b, Budget.userId b = userId) (budgets db) in
  match skipStage skip (merge_sort newestFirst found) with
  | Throw msg => Throw msg
  | Ok rest =>
      let total := Z.of_nat (length found) in
      Ok (Page.mk (limitStage limit rest) total page limit
            (jsceil (jsdiv (inject_Z total) (inject_Z limit))))
  end.

Definition findOwned (db : Store) (budgetId userId : ObjectId)
    : option Budget.t :=
  List.find (λ b, bool_decide (Budget._id b = budgetId
                               ∧ Budget.userId b = userId)) (budgets db).

Definition getBudgetById (db : Store) (budgetId userId : ObjectId)
    : outcome Budget.t :=
  match findOwned db budgetId userId with
  | None => Throw "Budget not found"
  | Some budget => Ok budget
  end.

Definition currentRow (spendingMap : gmap string Q)
    (catBudget : CategoryBudget.t) : CategoryProgress.t :=
  let spent := orZero (spendingMap !! CategoryBudget.category catBudget) in
  let budget := CategoryBudget.budget catBudget in
  CategoryProgress.mk (CategoryBudget.category catBudget) budget spent
    (budget - spent)%Q
    (if jsgt budget 0 then jsscale (jsdiv spent budget) 100 else Fin 0)
    (Some (jsgt spent budget)).

(** [Budget.findOne({ userId, month: { $lte: currentMonth } })
    .sort({ month: -1 })]. *)
Definition latestBudget (db : Store) (now : JSDate.t) (userId : ObjectId)
    : option Budget.t :=
  let currentMonth :=
    JSDate.mk (JSDate.getFullYear now) (JSDate.getMonth now) 1 in
  head (merge_sort newestFirst
          (filter (λ b, Budget.userId b = userId
                        ∧ Budget.month b ≤ currentMonth) (budgets db))).

Definition getCurrentBudget (db : Store) (now : JSDate.t)
    (userId : ObjectId) : option BudgetResponse.t :=
  match latestBudget db now userId with
  | None => None
  | Some budget =>
      let startOfMonth :=
        JSDate.mk (JSDate.getFullYear (Budget.month budget))
                  (JSDate.getMonth (Budget.month budget)) 1 in
      let endOfMonth :=
        JSDate.mk (JSDate.getFullYear (Budget.month budget))
                  (JSDate.getMonth (Budget.month budget) + 1) 0 in
      let actualSpending :=
        spendingOf (transactions db) userId startOfMonth endOfMonth in
      let spendingMap := newMap actualSpending in
      let updatedCategoryBudgets :=
        currentRow spendingMap <$> Budget.categoryBudgets budget in
      let totalSpent :=
        reduceSum CategoryProgress.spent updatedCategoryBudgets in
      let totalRemaining := (Budget.totalBudget budget - totalSpent)%Q in
      let totalPercentage :=
        if jsgt (Budget.totalBudget budget) 0
        then jsscale (jsdiv totalSpent (Budget.totalBudget budget)) 100
        else Fin 0 in
      Some (BudgetResponse.mk (Some (Budget._id budget))
              (Budget.month budget) (Budget.totalBudget budget)
              totalSpent totalRemaining totalPercentage
              updatedCategoryBudgets
              (Some (jsgt totalSpent (Budget.totalBudget budget)))
              (Budget.currency budget))
  end.

(** [a !== b] where [b] may be [undefined]. *)
Definition strictNe (a : Q) (b : option Q) : bool :=
  match b with
  | Some q => negb (Qeq_bool a q)
  | None => true
  end.

(** [Budget.create({ ...budgetData, userId })]: the schema's required
    fields and bounds; the category list defaults to empty, and the
    asking user replaces a [userId] of the request.  [newId] is the
    identifier the store assigns. *)
Definition create (newId userId : ObjectId) (data : PartialBudget.t)
    : option Budget.t :=
  match PartialBudget.month data, PartialBudget.totalBudget data,
        PartialBudget.currency data with
  | Some m, Some total, Some cur =>
      let cbs := default [] (PartialBudget.categoryBudgets data) in
      if validTotal total && forallb validCategoryBudget cbs
         && validCurrency cur
      then Some (Budget.mk newId userId m total cbs cur)
      else None
  | _, _, _ => None
  end.

Definition createBudget (db : Store) (newId : ObjectId)
    (budgetData : PartialBudget.t) (userId : ObjectId)
    : outcome Budget.t * Store :=
  let existingBudget :=
    List.find (λ b, bool_decide (Budget.userId b = userId
                                 ∧ Some (Budget.month b)
                                   = PartialBudget.month budgetData))
              (budgets db) in
  match existingBudget with
  | Some _ => (Throw "Budget already exists for this month", db)
  | None =>
      let totalCategoryBudget :=
        orZero (reduceSum CategoryBudget.budget
                  <$> PartialBudget.categoryBudgets budgetData) in
      if strictNe totalCategoryBudget (PartialBudget.totalBudget budgetData)
      then (Throw "Total budget must equal the sum of category budgets", db)
      else
        match create newId userId budgetData with
        | None => (Throw "Budget validation failed", db)
        | Some budget =>
            (Ok budget,
             {| transactions := transactions db;
                categories := categories db;
                budgets := budgets db ++ [budget] |})
        end
  end.

(** The update validators run on the fields the update sets. *)
Definition validUpdate (u : PartialBudget.t) : bool :=
  from_option validTotal true (PartialBudget.totalBudget u)
  && from_option (forallb validCategoryBudget) true
       (PartialBudget.categoryBudgets u)
  && from_option validCurrency true (PartialBudget.currency u).

(** [$set] of the fields present in the update, [userId] included: the
    update is the request body as it came. *)
Definition applyUpdate (u : PartialBudget.t) (b : Budget.t) : Budget.t :=
  Budget.mk (Budget._id b)
    (default (Budget.userId b) (PartialBudget.userId u))
    (default (Budget.month b) (PartialBudget.month u))
    (default (Budget.totalBudget b) (PartialBudget.totalBudget u))
    (default (Budget.categoryBudgets b) (PartialBudget.categoryBudgets u))
    (default (Budget.currency b) (PartialBudget.currency u)).

(** The unique index on [{ userId: 1, month: 1 }]: the store rejects a
    write after which [b] would share its user and its month with
    another document. *)
Definition violatesIndex (b : Budget.t) (docs : list Budget.t) : bool :=
  existsb (λ d, bool_decide (Budget._id d ≠ Budget._id b
                             ∧ Budget.userId d = Budget.userId b
                             ∧ Budget.month d = Budget.month b)) docs.

(** [findByIdAndUpdate]: the first document with the identifier. *)
Fixpoint updateById (budgetId : ObjectId) (u : PartialBudget.t)
    (docs : list Budget.t) : list Budget.t :=
  match docs with
  | [] => []
  | b :: rest =>
      if bool_decide (Budget._id b = budgetId)
      then applyUpdate u b :: rest
      else b :: updateById budgetId u rest
  end.

Definition updateBudget (db : Store) (budgetId : ObjectId)
    (updateData : PartialBudget.t) (userId : ObjectId)
    : outcome (option Budget.t) * Store :=
  match findOwned db budgetId userId with
  | None => (Throw "Budget not found", db)
  | Some existingBudget =>
      let duplicateBudget :=
        match PartialBudget.month updateData with
        | Some m =>
            List.find (λ b, bool_decide (Budget.userId b = userId
                                         ∧ Budget.month b = m
                                         ∧ Budget._id b ≠ budgetId))
                      (budgets db)
        | None => None
        end in
      match duplicateBudget with
      | Some _ => (Throw "Budget already exists for this month", db)
      | None =>
          let mismatch :=
            match PartialBudget.categoryBudgets updateData with
            | Some cbs =>
                truthyNum (PartialBudget.totalBudget updateData)
                && strictNe (reduceSum CategoryBudget.budget cbs)
                            (PartialBudget.totalBudget updateData)
            | None => false
            end in
          if mismatch
          then (Throw "Total budget must equal the sum of category budgets",
                db)
          else if negb (validUpdate updateData)
          then (Throw "Validation failed", db)
          else
            let docs := updateById budgetId updateData (budgets db) in
            let budget :=
              List.find (λ b, bool_decide (Budget._id b = budgetId)) docs in
            if from_option (λ b, violatesIndex b (budgets db)) false budget
            then (Throw "E11000 duplicate key error", db)
            else
              (Ok budget,
               {| transactions := transactions db;
                  categories := categories db;
                  budgets := docs |})
      end
  end.

(** [budget.deleteOne()] removes the document that was found. *)
Fixpoint deleteById (budgetId : ObjectId) (docs : list Budget.t)
    : list Budget.t :=
  match docs with
  | [] => []
  | b :: rest =>
      if bool_decide (Budget._id b = budgetId)
      then rest
      else b :: deleteById budgetId rest
  end.

Definition deleteBudget (db : Store) (budgetId userId : ObjectId)
    : outcome bool * Store :=
  match findOwned db budgetId userId with
  | None => (Throw "Budget not found", db)
  | Some budget =>
      (Ok true,
       {| transactions := transactions db;
          categories := categories db;
          budgets := deleteById (Budget._id budget) (budgets db) |})
  end.

End BudgetService.

(** [getBudgetOverview]: the current budget, the three newest budgets and
    the income and expense totals of the last six months by month. *)
Module BudgetOverview.
Record t : Type := mk {
  currentBudget : option BudgetResponse.t;
  recentBudgets : list Budget.t;
  incomeTrends : gmap string Q;
  expenseTrends : gmap string Q
}.
End BudgetOverview.

(** The aggregation of [getBudgetOverview]: buckets by year, month and
    type, in ascending order of year and month. *)
Definition monthlyTrends (db : Store) (now : JSDate.t) (userId : ObjectId)
    : list (Z * Z * TxType * Q) :=
  let currentMonth :=
    JSDate.mk (JSDate.getFullYear now) (JSDate.getMonth now) 1 in
  let matched :=
    filter (λ t, Transaction.userId t = userId
                 ∧ JSDate.mk (JSDate.getFullYear currentMonth)
                             (JSDate.getMonth currentMonth - 5) 1
                   ≤ Transaction.date t
                 ∧ Transaction.date t
                   ≤ JSDate.mk (JSDate.getFullYear currentMonth)
                               (JSDate.getMonth currentMonth + 1) 0)
           (transactions db) in
  merge_sort (λ a b, ymLe a.1.1 b.1.1)
    ((λ kg, (kg.1, sumAbs kg.2)) <$>
       groupStage (λ t, (JSDate.year (Transaction.date t),
                         JSDate.month (Transaction.date t),
                         Transaction.type t)) matched).

(** The [forEach] of [getBudgetOverview]: each bucket is stored under the
    label of its month, in the record of its type. *)
Definition trendRecords (trends : list (Z * Z * TxType * Q))
    : gmap string Q * gmap string Q :=
  foldl (λ acc trend,
           let monthKey :=
             AnalyticsService.monthLabel trend.1.1.1 trend.1.1.2 in
           match trend.1.2 with
           | income => (<[monthKey := trend.2]> acc.1, acc.2)
           | expense => (acc.1, <[monthKey := trend.2]> acc.2)
           end)
        (∅, ∅) trends.

(** The record of one type. *)
Definition recordOf (ty : TxType) (r : gmap string Q * gmap string Q)
    : gmap string Q :=
  match ty with income => r.1 | expense => r.2 end.

Definition getBudgetOverview (db : Store) (now : JSDate.t)
    (userId : ObjectId) : BudgetOverview.t :=
  let currentBudget := BudgetService.getCurrentBudget db now userId in
  let lastThreeBudgets :=
    limitStage 3
      (merge_sort BudgetService.newestFirst
         (filter (λ b, Budget.userId b = userId) (budgets db))) in
  let records := trendRecords (monthlyTrends db now userId) in
  BudgetOverview.mk currentBudget lastThreeBudgets records.1 records.2.

(** ** [TransactionService] *)

Module TransactionService.

Module Summary.
Record t : Type := mk {
  totalIncome : Q;
  totalExpenses : Q;
  count : Z
}.
End Summary.

(** One group over all transactions of the user; no group, and the
    default, when there is none. *)
Definition getTransactionSummary (db : Store) (userId : ObjectId)
    : Summary.t :=
  let matched :=
    filter (λ t, Transaction.userId t = userId) (transactions db) in
  let summary :=
    (λ kg, Summary.mk (sumCond income kg.2) (sumCond expense kg.2)
                      (Z.of_nat (length kg.2)))
    <$> groupStage (λ _ : Transaction.t, ()) matched in
  default (Summary.mk 0 0 0) (head summary).

End TransactionService.

(** The documents of one user. *)
Definition ownedBy (userId : ObjectId) (db : Store) : Store :=
  {| transactions :=
       filter (λ t, Transaction.userId t = userId) (transactions db);
     categories := filter (λ c, Category.userId c = userId) (categories db);
     budgets := filter (λ b, Budget.userId b = userId) (budgets db) |}.

(** No two budgets of the store share a user and a month (the unique
    index of the budget schema). *)
Definition uniqueMonths (bs : list Budget.t) : Prop :=
  ∀ i j b b', bs !! i = Some b → bs !! j = Some b' →
              Budget.userId b = Budget.userId b' →
              Budget.month b = Budget.month b' → i = j.

(** Equality of JavaScript numbers up to the representation of the
    rational. *)
Definition jseq (x y : jsnum) : Prop :=
  match x, y with
  | Fin p, Fin q => (p == q)%Q
  | PosInf, PosInf | NegInf, NegInf | NaN, NaN => True
  | _, _ => False
  end.

(** Adding one transaction to the ledger, anywhere in the collection. *)
Definition withTransactions (db : Store) (txs : list Transaction.t) : Store :=
  {| transactions := txs; categories := categories db; budgets := budgets db |}.

(** The invariant the budget writes check. *)
Definition balanced (b : Budget.t) : Prop :=
  (Budget.totalBudget b
   == sumQ (CategoryBudget.budget <$> Budget.categoryBudgets b))%Q.

(** ** Sample ledgers *)

Module Sample.

(** 15 March 2024, noon. *)
Definition now : JSDate.t := JSDate.mk 2024 2 15 + 43200000.

Definition user : ObjectId := 1%N.

Definition ledger (txs : list Transaction.t) (bs : list Budget.t) : Store :=
  {| transactions := txs; categories := []; budgets := bs |}.

(** One income stored with a negative sign. *)
Definition negativeIncome : Store :=
  ledger [Transaction.mk user (JSDate.mk 2024 2 3) "Salary" (-50)%Q income] [].

(** Two expenses of one month stored with opposite signs. *)
Definition mixedSigns : Store :=
  ledger [Transaction.mk user (JSDate.mk 2024 2 3) "Food" (-50)%Q expense;
          Transaction.mk user (JSDate.mk 2024 2 5) "Food" 30%Q expense] [].

(** A budget of 300 with 200 allocated to Food, and 250 spent on Food. *)
Definition foodBudget : Budget.t :=
  Budget.mk 7%N user (JSDate.mk 2024 2 1) 300%Q
    [CategoryBudget.mk "Food" 200%Q 0%Q] "USD".

Definition overspentFood : Store :=
  ledger [Transaction.mk user (JSDate.mk 2024 2 10) "Food" 250%Q expense]
         [foodBudget].

(** Expenses in two categories, an income, and one stored category. *)
Definition twoCategories : Store :=
  {| transactions :=
       [Transaction.mk user (JSDate.mk 2024 2 3) "Food" 100%Q expense;
        Transaction.mk user (JSDate.mk 2024 2 5) "Salary" 300%Q income;
        Transaction.mk user (JSDate.mk 2024 1 5) "Rent" 150%Q expense];
     categories := [Category.mk user "Food" "utensils" "#ff0000"];
     budgets := [] |}.


(** Expenses of 100 in February and 150 in March 2024. *)
Definition twoMonths : Store :=
  ledger [Transaction.mk user (JSDate.mk 2024 1 10) "Food" 100%Q expense;
          Transaction.mk user (JSDate.mk 2024 2 10) "Food" 150%Q expense] [].



(** One expense of 100 and one income of 300 in March 2024. *)
Definition oneMonth : Store :=
  ledger [Transaction.mk user (JSDate.mk 2024 2 3) "Food" 100%Q expense;
          Transaction.mk user (JSDate.mk 2024 2 5) "Salary" 300%Q income] [].

(** 15 March 2024, midnight: a date inside the month of [foodBudget]. *)
Definition midMarch : JSDate.t := JSDate.mk 2024 2 15.

(** A budget whose allocations add up to its total. *)
Definition balancedBudget : Budget.t :=
  Budget.mk 9%N user (JSDate.mk 2024 2 1) 200%Q
    [CategoryBudget.mk "Food" 200%Q 0%Q] "USD".

Definition balancedStore : Store := ledger [] [balancedBudget].

(** An update of the total alone, and one of both fields. *)
Definition raiseTotal : PartialBudget.t :=
  PartialBudget.mk None None (Some 500%Q) None None.

Definition raiseBoth : PartialBudget.t :=
  PartialBudget.mk None None (Some 500%Q)
    (Some [CategoryBudget.mk "Food" 300%Q 0%Q;
           CategoryBudget.mk "Rent" 200%Q 0%Q]) None.

(** An update that carries nothing but another user. *)
Definition handOver : PartialBudget.t :=
  PartialBudget.mk (Some 2%N) None None None None.


(** An expense of 100 in March 2024 and one of 75 dated 10 January 2031,
    after [now]. *)
Definition futureDated : Store :=
  ledger [Transaction.mk user (JSDate.mk 2024 2 10) "Food" 100%Q expense;
          Transaction.mk user (JSDate.mk 2031 0 10) "Food" 75%Q expense] [].

(** Expenses of 100 in February and 150 in March 2024, the later one
    stored first. *)
Definition laterFirst : Store :=
  ledger [Transaction.mk user (JSDate.mk 2024 2 10) "Food" 150%Q expense;
          Transaction.mk user (JSDate.mk 2024 1 10) "Food" 100%Q expense] [].

(** Two incomes of [2 ^ 1023] each, and an expense of 100, as doubles. *)
Definition largeIncomes : list Binary64.num :=
  [Binary64.ofZ (2 ^ 1023); Binary64.ofZ (2 ^ 1023)].

Definition smallExpenses : list Binary64.num := [Binary64.ofZ 100].

(** An expense on 31 March 2024 at 10:00. *)
Definition lastDayExpense : Transaction.t :=
  Transaction.mk user (JSDate.mk 2024 3 0 + 36000000) "Food" 75%Q expense.

End Sample.

(** * Properties *)

(** ** Sums *)

Section Sums.

Lemma sumQ_app (l k : list Q) : (sumQ (l ++ k) == sumQ l + sumQ k)%Q.
Proof.
  induction l as [|x l IH]; simpl.
  - ring.
  - rewrite IH. ring.
Qed.

Lemma sumQ_perm (l k : list Q) : l ≡ₚ k → (sumQ l == sumQ k)%Q.
Proof.
  induction 1 as [|x l k _ IH|x y l|l k m _ IH1 _ IH2]; simpl.
  - reflexivity.
  - rewrite IH. reflexivity.
  - ring.
  - rewrite IH1. exact IH2.
Qed.

Lemma reduceSum_from {A : Type} (f : A → Q) (arr : list A) (a : Q) :
  (foldl (λ sum x, sum + f x) a arr == a + sumQ (f <$> arr))%Q.
Proof.
  revert a. induction arr as [|x arr IH]; intros a; csimpl.
  - ring.
  - rewrite IH. unfold sumQ. simpl. ring.
Qed.

Lemma reduceSum_sumQ {A : Type} (f : A → Q) (arr : list A) :
  (reduceSum f arr == sumQ (f <$> arr))%Q.
Proof. unfold reduceSum. rewrite reduceSum_from. ring. Qed.

Lemma sumQ_nonneg (l : list Q) :
  Forall (λ q, (0 <= q)%Q) l → (0 <= sumQ l)%Q.
Proof.
  induction 1 as [|x l Hx _ IH]; simpl.
  - apply Qle_refl.
  - lra.
Qed.

Lemma sumAbs_nonneg (g : list Transaction.t) : (0 <= sumAbs g)%Q.
Proof.
  unfold sumAbs. apply sumQ_nonneg, Forall_fmap, Forall_forall.
  intros t _. simpl. apply Qabs_nonneg.
Qed.

Lemma sumAbs_cons (t : Transaction.t) (g : list Transaction.t) :
  sumAbs (t :: g) = (Qabs (Transaction.amount t) + sumAbs g)%Q.
Proof. reflexivity. Qed.

Lemma Qabs_pos (q : Q) : ¬ (q == 0)%Q → (0 < Qabs q)%Q.
Proof.
  intros Hq. destruct (Qlt_le_dec 0 (Qabs q)) as [|Hle]; [done|].
  exfalso. apply Hq. revert Hle. apply Qabs_case; intros; lra.
Qed.

Lemma sumAbs_pos (g : list Transaction.t) :
  g ≠ [] → Forall (λ t, ¬ (Transaction.amount t == 0)%Q) g →
  (0 < sumAbs g)%Q.
Proof.
  destruct g as [|t g]; [done|]. intros _ Hall.
  rewrite sumAbs_cons.
  pose proof (sumAbs_nonneg g).
  pose proof (Qabs_pos _ (Forall_inv Hall)). lra.
Qed.

End Sums.

(** ** Pipeline stages *)

Section Pipeline.

Context {A K : Type} `{EqDecision K}.
Implicit Types (key : A → K) (docs : list A).

Lemma elem_of_groupStage key docs k g :
  (k, g) ∈ groupStage key docs ↔
  g = filter (λ d, key d = k) docs ∧ ∃ d, d ∈ docs ∧ key d = k.
Proof.
  unfold groupStage. rewrite list_elem_of_fmap. split.
  - intros (k' & [= -> ->] & Hk).
    apply elem_of_remove_dups, list_elem_of_fmap in Hk as (d & -> & Hd).
    eauto.
  - intros (-> & d & Hd & <-). exists (key d). split; [done|].
    apply elem_of_remove_dups, list_elem_of_fmap. eauto.
Qed.

Lemma groupStage_keys key docs :
  (groupStage key docs).*1 = remove_dups (key <$> docs).
Proof.
  unfold groupStage. rewrite <- list_fmap_compose.
  apply list_fmap_id.
Qed.

Lemma groupStage_NoDup key docs : NoDup (groupStage key docs).*1.
Proof. rewrite groupStage_keys. apply NoDup_remove_dups. Qed.

Lemma groupStage_nil key docs : groupStage key docs = [] ↔ docs = [].
Proof.
  split.
  - destruct docs as [|d docs]; [done|]. intros Hnil.
    assert ((key d, filter (λ x, key x = key d) (d :: docs))
            ∈ groupStage key (d :: docs)) as Hin.
    { apply elem_of_groupStage. split; [done|]. exists d.
      split; [left|done]. }
    rewrite Hnil in Hin. by apply elem_of_nil in Hin.
  - intros ->. reflexivity.
Qed.

Lemma groupStage_bucket_nonempty key docs k g :
  (k, g) ∈ groupStage key docs → g ≠ [].
Proof.
  rewrite elem_of_groupStage. intros (-> & d & Hd & Hk) Hnil.
  assert (d ∈ filter (λ x, key x = k) docs) as Hin
    by (apply list_elem_of_filter; done).
  rewrite Hnil in Hin. by apply elem_of_nil in Hin.
Qed.

End Pipeline.

Section NewMap.

Context {V : Type}.

Lemma newMap_list_to_map (entries : list (string * V)) :
  newMap entries = list_to_map (reverse entries).
Proof.
  unfold newMap. rewrite <- (reverse_involutive entries) at 1.
  generalize (reverse entries). intros l.
  induction l as [|kv l IH]; [done|].
  rewrite reverse_cons, foldl_app. simpl. by rewrite IH.
Qed.

Lemma newMap_lookup_Some (entries : list (string * V)) k v :
  NoDup entries.*1 →
  newMap entries !! k = Some v ↔ (k, v) ∈ entries.
Proof.
  intros Hnd. rewrite newMap_list_to_map.
  rewrite <- elem_of_list_to_map.
  - by rewrite elem_of_reverse.
  - by rewrite fmap_reverse, reverse_Permutation.
Qed.

Lemma newMap_lookup_None (entries : list (string * V)) k :
  newMap entries !! k = None ↔ k ∉ entries.*1.
Proof.
  rewrite newMap_list_to_map, <- not_elem_of_list_to_map.
  by rewrite fmap_reverse, elem_of_reverse.
Qed.

End NewMap.

(** ** Calendar arithmetic *)

Section Calendar.

Import JSDate.

Local Ltac zdm := Z.div_mod_to_equations; lia.

Lemma DayFromYear_succ (y : Z) :
  DayFromYear (y + 1) = DayFromYear y + 365 + (if isLeap y then 1 else 0).
Proof.
  unfold DayFromYear, isLeap.
  destruct (Z.eqb_spec (y mod 4) 0), (Z.eqb_spec (y mod 100) 0),
    (Z.eqb_spec (y mod 400) 0); simpl; zdm.
Qed.

Lemma month_split (m : Z) :
  (m mod 12 < 11 ∧ (m + 1) / 12 = m / 12 ∧ (m + 1) mod 12 = m mod 12 + 1)
  ∨ (m mod 12 = 11 ∧ (m + 1) / 12 = m / 12 + 1 ∧ (m + 1) mod 12 = 0).
Proof. zdm. Qed.

(** A month has between 28 and 31 days. *)
Lemma MakeDay_next_month (y m : Z) :
  28 ≤ MakeDay y (m + 1) 1 - MakeDay y m 1 ≤ 31.
Proof.
  unfold MakeDay.
  destruct (month_split m) as [(Hr & -> & ->)|(Hr & -> & ->)].
  - assert (0 ≤ m mod 12) by zdm.
    unfold daysBeforeMonth.
    generalize (isLeap (y + m / 12)), (DayFromYear (y + m / 12)).
    intros leap dfy.
    assert (m mod 12 = 0 ∨ m mod 12 = 1 ∨ m mod 12 = 2 ∨ m mod 12 = 3
            ∨ m mod 12 = 4 ∨ m mod 12 = 5 ∨ m mod 12 = 6 ∨ m mod 12 = 7
            ∨ m mod 12 = 8 ∨ m mod 12 = 9 ∨ m mod 12 = 10) as Hc by lia.
    destruct leap;
      repeat (destruct Hc as [Hc|Hc]; [rewrite Hc; simpl; lia|]);
      rewrite Hc; simpl; lia.
  - rewrite Hr, Z.add_assoc, DayFromYear_succ.
    unfold daysBeforeMonth.
    repeat match goal with
           | |- context [isLeap ?x] => destruct (isLeap x)
           end; simpl; lia.
Qed.

Lemma mk_day_after (y m d : Z) : mk y m (d + 1) = mk y m d + msPerDay.
Proof. unfold mk, MakeDate, MakeDay, msPerDay. lia. Qed.

Lemma mk_midnight (y m d : Z) : TimeWithinDay (mk y m d) = 0.
Proof.
  unfold TimeWithinDay, mk, MakeDate.
  rewrite Z.add_0_r. apply Z.mod_mul. done.
Qed.

(** The upper bound of a month window, [new Date(y, m + 1, 0)], is the
    midnight that opens the last day of the month that starts at
    [new Date(y, m, 1)]. *)
Lemma mk_last_day (y m : Z) :
  mk y m 1 + 27 * msPerDay ≤ mk y (m + 1) 0
  ∧ mk y (m + 1) 0 + msPerDay = mk y (m + 1) 1.
Proof.
  pose proof (MakeDay_next_month
    (if (0 <=? y) && (y <=? 99) then 1900 + y else y) m) as Hs.
  unfold mk, MakeDate, msPerDay in *. unfold MakeDay in *. lia.
Qed.

End Calendar.

Section CivilDate.

Import JSDate.

Local Ltac zdm := Z.div_mod_to_equations; lia.

Lemma cycle_bounds (doe : Z) :
  0 ≤ doe < 146097 →
  let yoe := (doe - doe / 1460 + doe / 36524 - doe / 146096) / 365 in
  let doy := doe - (365 * yoe + yoe / 4 - yoe / 100) in
  0 ≤ yoe ≤ 399 ∧ 0 ≤ doy ≤ 365
  ∧ (doy = 365 → yoe mod 4 = 3 ∧ (yoe mod 100 ≠ 99 ∨ yoe = 399)).
Proof. intros H yoe doy. subst doy yoe. zdm. Qed.

Lemma cumDays_march (mp : Z) :
  0 ≤ mp ≤ 11 →
  let m := if mp <? 10 then mp + 3 else mp - 9 in
  1 ≤ m ≤ 12
  ∧ (m - 1) / 12 = 0
  ∧ cumDays ((m - 1) mod 12)
    = (153 * mp + 2) / 5 + (if mp <? 10 then 59 else -306)
  ∧ (2 <=? (m - 1) mod 12) = (mp <? 10)
  ∧ (m <=? 2) = negb (mp <? 10).
Proof.
  intros Hmp.
  assert (mp = 0 ∨ mp = 1 ∨ mp = 2 ∨ mp = 3 ∨ mp = 4 ∨ mp = 5 ∨ mp = 6
          ∨ mp = 7 ∨ mp = 8 ∨ mp = 9 ∨ mp = 10 ∨ mp = 11) as Hc by lia.
  repeat (destruct Hc as [->|Hc]; [vm_compute; intuition congruence|]).
  subst mp. vm_compute. intuition congruence.
Qed.

Lemma cycleOk_all (doe : Z) : 0 ≤ doe < 146097 → cycleOk doe = true.
Proof.
  intros Hd. pose proof (cycle_bounds doe Hd) as Hb. cbv zeta in Hb.
  unfold cycleOk, civilOfCycle. cbv zeta.
  set (yoe := (doe - doe / 1460 + doe / 36524 - doe / 146096) / 365) in *.
  assert (doe = 365 * yoe + yoe / 4 - yoe / 100
                + (doe - (365 * yoe + yoe / 4 - yoe / 100))) as Hdoe by lia.
  set (doy := doe - (365 * yoe + yoe / 4 - yoe / 100)) in *.
  clearbody doy yoe.
  set (mp := (5 * doy + 2) / 153).
  assert (0 ≤ mp ≤ 11) as Hmp by (subst mp; zdm).
  assert (153 * mp ≤ 5 * doy + 2 < 153 * mp + 153) as Hdoy by (subst mp; zdm).
  clearbody mp.
  pose proof (cumDays_march mp Hmp) as (Hm & Hq & Hcum & Hge & Hle).
  cbv zeta in *. cbn [fst snd].
  set (m := if mp <? 10 then mp + 3 else mp - 9) in *.
  unfold MakeDay, daysBeforeMonth. rewrite Hq, Hcum, Hge, Hle.
  clearbody m.
  unfold DayFromYear, isLeap.
  destruct (Z.ltb_spec mp 10); cbn [negb];
    repeat (apply andb_true_intro; split);
    try (apply Z.leb_le; zdm);
    apply Z.eqb_eq;
    repeat match goal with
           | |- context [Z.eqb ?a ?b] => destruct (Z.eqb_spec a b)
           end;
    cbn [andb orb negb]; zdm.
Qed.

Lemma DayFromYear_cycle (y e : Z) :
  DayFromYear (y + e * 400) = DayFromYear y + e * 146097.
Proof. unfold DayFromYear. zdm. Qed.

Lemma isLeap_cycle (y e : Z) : isLeap (y + e * 400) = isLeap y.
Proof.
  unfold isLeap.
  replace ((y + e * 400) mod 4) with (y mod 4) by zdm.
  replace ((y + e * 400) mod 100) with (y mod 100) by zdm.
  replace ((y + e * 400) mod 400) with (y mod 400) by zdm.
  reflexivity.
Qed.

Lemma MakeDay_cycle (y e m d : Z) :
  MakeDay (y + e * 400) m d = MakeDay y m d + e * 146097.
Proof.
  unfold MakeDay, daysBeforeMonth.
  replace (y + e * 400 + m / 12) with (y + m / 12 + e * 400) by lia.
  rewrite DayFromYear_cycle, isLeap_cycle. lia.
Qed.

(** [civil] inverts [MakeDay], and its month and day are in range. *)
Lemma civil_spec (dn : Z) :
  1 ≤ (civil dn).1.2 ≤ 12 ∧ 1 ≤ (civil dn).2 ≤ 31
  ∧ MakeDay (civil dn).1.1 ((civil dn).1.2 - 1) (civil dn).2 = dn.
Proof.
  unfold civil. cbv zeta.
  assert (0 ≤ (dn + 719468) mod 146097 < 146097) as Hr by zdm.
  pose proof (cycleOk_all _ Hr) as Hok. unfold cycleOk in Hok.
  cbv zeta in Hok.
  set (c := civilOfCycle _) in *. cbn [fst snd].
  repeat (apply andb_prop in Hok as [Hok ?]).
  rewrite MakeDay_cycle.
  repeat match goal with
         | H : (_ <=? _) = true |- _ => apply Z.leb_le in H
         | H : (_ =? _) = true |- _ => apply Z.eqb_eq in H
         end.
  repeat split; try lia.
  match goal with H : MakeDay _ _ _ = _ |- _ => rewrite H end.
  zdm.
Qed.

End CivilDate.

(** ** Spending per category *)

Section Spending.

Implicit Types (txs : list Transaction.t) (userId : ObjectId).

Lemma spendingOf_NoDup txs userId lo hi :
  NoDup (spendingOf txs userId lo hi).*1.
Proof.
  unfold spendingOf. rewrite <- list_fmap_compose.
  apply (groupStage_NoDup Transaction.category).
Qed.

(** The spending map holds, for a category, the summed magnitudes of
    the user's expenses of that category in the window, and nothing for
    a category without such an expense. *)
Lemma spendingOf_lookup txs userId lo hi (c : string) :
  orZero (newMap (spendingOf txs userId lo hi) !! c)
  = sumAbs (filter (λ t, Transaction.category t = c)
              (filter (λ t, Transaction.userId t = userId
                            ∧ Transaction.type t = expense
                            ∧ lo ≤ Transaction.date t
                            ∧ Transaction.date t ≤ hi) txs)).
Proof.
  set (matched := filter _ txs).
  destruct (newMap (spendingOf txs userId lo hi) !! c) as [v|] eqn:Hl.
  - apply newMap_lookup_Some in Hl; [|apply spendingOf_NoDup].
    unfold spendingOf in Hl. fold matched in Hl.
    apply list_elem_of_fmap in Hl as ([k g] & [= -> ->] & Hin).
    apply elem_of_groupStage in Hin as [-> _]. reflexivity.
  - apply newMap_lookup_None in Hl.
    destruct (filter _ matched) as [|t rest] eqn:Hf; [reflexivity|].
    exfalso. apply Hl.
    assert (t ∈ filter (λ t, Transaction.category t = c) matched) as Ht
      by (rewrite Hf; left).
    apply list_elem_of_filter in Ht as [Hc Ht].
    unfold spendingOf. fold matched. rewrite <- list_fmap_compose.
    change (c ∈ (groupStage Transaction.category matched).*1).
    rewrite groupStage_keys, elem_of_remove_dups, list_elem_of_fmap.
    eauto.
Qed.

End Spending.

(** ** Claims *)

(** C1: the monthly summary does not take [abs(amount)] per transaction.
    It sums the stored amounts and takes the magnitude of the expense sum
    only; an income stored as -50 is reported as -50 where the financial
    overview reports 50, and expenses stored as -50 and 30 are reported
    as 20 where the overview reports 80. *)
Theorem C1_monthly_summary_sums_signed_amounts :
  MonthlyData.income
    <$> AnalyticsService.getMonthlySummary Sample.negativeIncome Sample.now
          Sample.user None = [(-50)%Q]
  ∧ Totals.income (FinancialOverview.monthly
      (AnalyticsService.getFinancialOverview Sample.negativeIncome Sample.now
         Sample.user)) = 50%Q
  ∧ MonthlyData.expenses
      <$> AnalyticsService.getMonthlySummary Sample.mixedSigns Sample.now
            Sample.user None = [20%Q]
  ∧ Totals.expenses (FinancialOverview.monthly
      (AnalyticsService.getFinancialOverview Sample.mixedSigns Sample.now
         Sample.user)) = 80%Q.
Proof. repeat split; vm_compute; reflexivity. Qed.

(** C2: [getBudgetProgress] reports no [overspent] flag, neither on a
    category row nor on the totals, while [getCurrentBudget] reports both.
    For the budget of 300 with 200 on Food and 250 spent on Food the
    other figures are as claimed: spent 250, remaining -50, total spent
    250, total remaining 50, total percentage 250/3. *)
Theorem C2_budget_progress_has_no_overspent :
  (∀ db now userId month,
     match AnalyticsService.getBudgetProgress db now userId month with
     | Some r =>
         BudgetResponse.overspent r = None
         ∧ Forall (λ row, CategoryProgress.overspent row = None)
             (BudgetResponse.categoryBudgets r)
     | None => True
     end)
  ∧ (∃ r row,
       AnalyticsService.getBudgetProgress Sample.overspentFood Sample.now
         Sample.user None = Some r
       ∧ BudgetResponse.categoryBudgets r = [row]
       ∧ CategoryProgress.category row = "Food"
       ∧ CategoryProgress.spent row = 250%Q
       ∧ CategoryProgress.remaining row = (-50)%Q
       ∧ CategoryProgress.overspent row = None
       ∧ BudgetResponse.totalSpent r = 250%Q
       ∧ BudgetResponse.totalRemaining r = 50%Q
       ∧ jseq (BudgetResponse.totalPercentage r) (Fin (250 / 3))
       ∧ BudgetResponse.overspent r = None)
  ∧ (∃ r row,
       BudgetService.getCurrentBudget Sample.overspentFood Sample.now
         Sample.user = Some r
       ∧ BudgetResponse.categoryBudgets r = [row]
       ∧ CategoryProgress.overspent row = Some true
       ∧ BudgetResponse.overspent r = Some false).
Proof.
  split; [|split].
  - intros db now userId month.
    unfold AnalyticsService.getBudgetProgress.
    destruct (List.find _ _); [|done]. simpl. split; [done|].
    apply Forall_fmap, Forall_forall. done.
  - eexists _, _. split; [vm_compute; reflexivity|].
    repeat split; vm_compute; reflexivity.
  - eexists _, _. split; [vm_compute; reflexivity|].
    repeat split; vm_compute; reflexivity.
Qed.

(** ** Category spending *)

Section CategorySpending.

Lemma elem_of_merge_sort {A : Type} (R : relation A)
    `{∀ x y, Decision (R x y)} (x : A) (l : list A) :
  x ∈ merge_sort R l ↔ x ∈ l.
Proof. by rewrite merge_sort_Permutation. Qed.

Lemma sumQ_pos_elem (l : list Q) (x : Q) :
  Forall (λ q, (0 <= q)%Q) l → x ∈ l → (0 < x)%Q → (0 < sumQ l)%Q.
Proof.
  intros Hall Hin Hx. induction Hall as [|y l Hy Hall IH]; simpl.
  - by apply elem_of_nil in Hin.
  - pose proof (sumQ_nonneg l Hall).
    apply elem_of_cons in Hin as [<-|Hin]; [lra|].
    specialize (IH Hin). lra.
Qed.


Lemma jsgt_zero (a : Q) : jsgt a 0 = true ↔ (0 < a)%Q.
Proof.
  unfold jsgt. rewrite negb_true_iff, <- not_true_iff_false, Qle_bool_iff.
  split; [apply Qnot_le_lt|apply Qlt_not_le].
Qed.

Lemma jsgt_zero_false (a : Q) : jsgt a 0 = false ↔ (a <= 0)%Q.
Proof. unfold jsgt. rewrite negb_false_iff. apply Qle_bool_iff. Qed.

(** A guarded ratio [d > 0 ? (n / d) * 100 : 0]. *)
Lemma ratio_pos (n d : Q) :
  (0 < d)%Q → jsscale (jsdiv n d) 100 = Fin (n / d * 100).
Proof.
  intros Hd. unfold jsdiv.
  destruct (Qeq_bool d 0) eqn:Hz; [|reflexivity].
  apply Qeq_bool_iff in Hz. lra.
Qed.

Context (db : Store) (userId : ObjectId) (startDate endDate : option JSDate.t).

Let matched : list Transaction.t :=
  filter (λ t, Transaction.userId t = userId
               ∧ Transaction.type t = expense
               ∧ gteBound startDate (Transaction.date t)
               ∧ lteBound endDate (Transaction.date t))
         (transactions db).

Lemma elem_of_categoryTotals (c : string) (a : Q) :
  (c, a) ∈ AnalyticsService.categoryTotals db userId startDate endDate ↔
  a = sumAbs (filter (λ t, Transaction.category t = c) matched)
  ∧ ∃ t, t ∈ matched ∧ Transaction.category t = c.
Proof.
  unfold AnalyticsService.categoryTotals. fold matched.
  rewrite elem_of_merge_sort, list_elem_of_fmap. split.
  - intros ([k g] & [= -> ->] & Hin).
    apply elem_of_groupStage in Hin as [-> Hex]. done.
  - intros (-> & Hex). eexists (c, _). split; [reflexivity|].
    apply elem_of_groupStage. done.
Qed.



Lemma categoryTotals_positive :
  Forall (λ t, ¬ (Transaction.amount t == 0)%Q) (transactions db) →
  Forall (λ q, (0 < q)%Q)
    (AnalyticsService.categoryTotals db userId startDate endDate).*2.
Proof.
  intros Hnz. apply Forall_fmap, Forall_forall. intros [c a] Hin.
  apply elem_of_categoryTotals in Hin as [-> (t & Ht & Hc)]. simpl.
  apply sumAbs_pos.
  - intros Hnil.
    assert (t ∈ filter (λ t, Transaction.category t = c) matched) as Hin
      by (apply list_elem_of_filter; done).
    rewrite Hnil in Hin. by apply elem_of_nil in Hin.
  - apply Forall_forall. intros t' Ht'.
    apply list_elem_of_filter in Ht' as [_ Ht'].
    apply list_elem_of_filter in Ht' as [_ Ht'].
    rewrite Forall_forall in Hnz. by apply Hnz.
Qed.

Lemma getCategorySpending_amounts :
  CategorySpending.amount
    <$> AnalyticsService.getCategorySpending db userId startDate endDate
  = (AnalyticsService.categoryTotals db userId startDate endDate).*2.
Proof.
  unfold AnalyticsService.getCategorySpending. cbv zeta.
  rewrite <- list_fmap_compose. reflexivity.
Qed.

End CategorySpending.




(** ** Spending trends *)

Section SpendingTrends.

Context (db : Store) (now : JSDate.t) (userId : ObjectId) (period : Period).

Let since : JSDate.t :=
  JSDate.mk (JSDate.getFullYear now) (JSDate.getMonth now - 11) 1.

Let matched : list Transaction.t :=
  filter (λ t, Transaction.userId t = userId
               ∧ Transaction.type t = expense
               ∧ since ≤ Transaction.date t) (transactions db).

Lemma elem_of_trendTotals (k : TrendId.t) (a : Q) :
  (k, a) ∈ AnalyticsService.trendTotals db now userId period ↔
  a = sumAbs (filter (λ t, AnalyticsService.groupFormat period
                             (Transaction.date t) = k) matched)
  ∧ ∃ t, t ∈ matched
         ∧ AnalyticsService.groupFormat period (Transaction.date t) = k.
Proof.
  unfold AnalyticsService.trendTotals. cbv zeta. fold since. fold matched.
  rewrite elem_of_merge_sort, list_elem_of_fmap. split.
  - intros ([k' g] & [= -> ->] & Hin).
    apply elem_of_groupStage in Hin as [-> Hex]. done.
  - intros (-> & Hex). eexists (k, _). split; [reflexivity|].
    apply elem_of_groupStage. done.
Qed.

Lemma getSpendingTrends_lookup (i : nat) :
  AnalyticsService.getSpendingTrends db now userId period !! i
  = (λ trend,
       SpendingTrend.mk (AnalyticsService.trendLabel period trend.1) trend.2
         (match i with
          | S j =>
              let previous :=
                default 0%Q
                  (snd <$> AnalyticsService.trendTotals db now userId period
                           !! j) in
              jsscale (jsdiv (trend.2 - previous) previous) 100
          | O => Fin 0
          end))
    <$> AnalyticsService.trendTotals db now userId period !! i.
Proof.
  unfold AnalyticsService.getSpendingTrends. cbv zeta.
  apply list_lookup_imap.
Qed.

Lemma getSpendingTrends_amounts :
  SpendingTrend.amount
    <$> AnalyticsService.getSpendingTrends db now userId period
  = (AnalyticsService.trendTotals db now userId period).*2.
Proof.
  apply list_eq. intros i.
  rewrite !list_lookup_fmap, getSpendingTrends_lookup.
  by destruct (_ !! i).
Qed.

End SpendingTrends.

(** ** The order of trend points *)

Section TrendOrder.

Lemma optLt_trans (x y z : option Z) : optLt x y → optLt y z → optLt x z.
Proof. destruct x, y, z; simpl; try done. lia. Qed.

Lemma trendLe_trans (a b c : TrendId.t) :
  trendLe a b → trendLe b c → trendLe a c.
Proof.
  destruct a as [ya ma wa], b as [yb mb wb], c as [yc mc wc].
  unfold trendLe. simpl.
  intros [H1|[-> H1]] [H2|[-> H2]]; [left; lia|by left|by left|].
  right. split; [done|].
  destruct H1 as [H1|[-> H1]], H2 as [H2|[-> H2]];
    [left; by eapply optLt_trans|by left|by left|].
  right. split; [done|].
  destruct H1 as [H1| ->], H2 as [H2| ->];
    [left; by eapply optLt_trans|by left|by left|by right].
Qed.

Lemma optLt_trichotomy (x y : option Z) : optLt x y ∨ x = y ∨ optLt y x.
Proof.
  destruct x as [x|], y as [y|]; simpl; [|naive_solver..].
  destruct (Z.lt_trichotomy x y) as [?|[->|?]]; naive_solver.
Qed.

Lemma trendLe_total (a b : TrendId.t) : trendLe a b ∨ trendLe b a.
Proof.
  destruct a as [ya ma wa], b as [yb mb wb]. unfold trendLe. simpl.
  destruct (Z.lt_trichotomy ya yb) as [?|[->|?]];
    [left; by left| |right; by left].
  destruct (optLt_trichotomy ma mb) as [?|[->|?]];
    [left; right; split; [done|by left]|
    |right; right; split; [done|by left]].
  destruct (optLt_trichotomy wa wb) as [?|[->|?]].
  - left. right. split; [done|]. right. split; [done|]. by left.
  - left. right. split; [done|]. right. split; [done|]. by right.
  - right. right. split; [done|]. right. split; [done|]. by left.
Qed.

Lemma trendTotals_sorted (db : Store) (now : JSDate.t) (userId : ObjectId)
    (period : Period) :
  StronglySorted (λ a b : TrendId.t * Q, trendLe a.1 b.1)
    (AnalyticsService.trendTotals db now userId period).
Proof.
  apply StronglySorted_merge_sort.
  - intros a b c. apply trendLe_trans.
  - intros a b. apply trendLe_total.
Qed.

Lemma trendTotals_keys_NoDup (db : Store) (now : JSDate.t)
    (userId : ObjectId) (period : Period) :
  NoDup (AnalyticsService.trendTotals db now userId period).*1.
Proof.
  unfold AnalyticsService.trendTotals. cbv zeta.
  rewrite merge_sort_Permutation, <- list_fmap_compose.
  apply (groupStage_NoDup
           (λ t, AnalyticsService.groupFormat period (Transaction.date t))).
Qed.

Lemma StronglySorted_lookup_lt {A : Type} (R : relation A) (l : list A)
    (i j : nat) (x y : A) :
  StronglySorted R l → l !! i = Some x → l !! j = Some y → (i < j)%nat →
  R x y.
Proof.
  intros Hs. revert i j.
  induction Hs as [|z l Hs IH Hall]; intros i j Hi Hj Hlt; [done|].
  destruct j as [|j]; [lia|]. simpl in Hj.
  destruct i as [|i]; simpl in Hi.
  - injection Hi as <-. rewrite Forall_forall in Hall.
    apply Hall. by apply list_elem_of_lookup_2 in Hj.
  - apply (IH i j); [done|done|lia].
Qed.

(** Two different buckets of one period in sorted order are in strictly
    ascending order of year, then of month or week. *)
Lemma trendLe_strict (period : Period) (d d' : JSDate.t) :
  let k := AnalyticsService.groupFormat period d in
  let k' := AnalyticsService.groupFormat period d' in
  trendLe k k' → k ≠ k' →
  TrendId.year k < TrendId.year k'
  ∨ (TrendId.year k = TrendId.year k'
     ∧ match period with
       | year => False
       | month =>
           ∃ m m', TrendId.month k = Some m ∧ TrendId.month k' = Some m'
                   ∧ m < m'
       | week =>
           ∃ w w', TrendId.week k = Some w ∧ TrendId.week k' = Some w'
                   ∧ w < w'
       end).
Proof.
  cbv zeta. unfold AnalyticsService.groupFormat.
  generalize (JSDate.year d) (JSDate.year d') (JSDate.month d)
    (JSDate.month d') (JSDate.week d) (JSDate.week d').
  intros y y' m m' w w'.
  destruct period; unfold trendLe, optLt;
    cbn [TrendId.year TrendId.month TrendId.week]; intros Hle Hne.
  - destruct Hle as [Hlt|[-> [[]|[_ [Hlt|[= ->]]]]]];
      [by left| |by destruct Hne].
    right. split; [done|]. by exists w, w'.
  - destruct Hle as [Hlt|[-> [Hlt|[[= ->] _]]]];
      [by left| |by destruct Hne].
    right. split; [done|]. by exists m, m'.
  - destruct Hle as [Hlt|[-> _]]; [by left|by destruct Hne].
Qed.

End TrendOrder.

(** C4 as stated fails: the window has a start and no end.  An expense
    dated in 2031, seven years after [now], makes a point of its own, and
    no expense dated up to [now] belongs to that point. *)
Lemma C4_counterexample :
  ¬ (∀ k a,
       (k, a) ∈ AnalyticsService.trendTotals Sample.futureDated Sample.now
                  Sample.user year →
       ∃ t, t ∈ transactions Sample.futureDated
            ∧ Transaction.date t ≤ Sample.now
            ∧ AnalyticsService.groupFormat year (Transaction.date t) = k).
Proof.
  intros Hwindow.
  assert (AnalyticsService.trendTotals Sample.futureDated Sample.now
            Sample.user year
          = [(TrendId.mk 2024 None None, 100%Q);
             (TrendId.mk 2031 None None, 75%Q)]) as Htotals
    by (vm_compute; reflexivity).
  destruct (Hwindow (TrendId.mk 2031 None None) 75%Q)
    as (t & Ht & Hdate & Hk).
  { rewrite Htotals. right. left. }
  apply elem_of_cons in Ht as [->|Ht].
  { vm_compute in Hk. discriminate Hk. }
  apply list_elem_of_singleton in Ht as ->.
  vm_compute in Hdate. by apply Hdate.
Qed.

(** C4, amended: [getSpendingTrends] sums the magnitudes of the user's
    expenses dated on or after the first day of the month eleven months
    before the current one, with no upper bound on the date, whatever the
    period: one point per bucket of the period that holds such an
    expense, labelled by the bucket, in strictly ascending order of year
    and then of month or week.  The first point has change 0 and every
    later point has change [(current - previous) / previous * 100]
    against the point just before it.  Expenses of 100 and then 150 in
    two consecutive months, stored with the later one first, give the
    points of the two months in order with changes 0 and 50. *)
Theorem C4_spending_trends (db : Store) (now : JSDate.t) (userId : ObjectId)
    (period : Period) :
  let points := AnalyticsService.getSpendingTrends db now userId period in
  let since :=
    JSDate.mk (JSDate.getFullYear now) (JSDate.getMonth now - 11) 1 in
  let matched :=
    filter (λ t, Transaction.userId t = userId
                 ∧ Transaction.type t = expense
                 ∧ since ≤ Transaction.date t) (transactions db) in
  let buckets := AnalyticsService.trendTotals db now userId period in
  (∀ k a, (k, a) ∈ buckets ↔
          a = sumAbs (filter (λ t, AnalyticsService.groupFormat period
                                     (Transaction.date t) = k) matched)
          ∧ ∃ t, t ∈ matched
                 ∧ AnalyticsService.groupFormat period (Transaction.date t) = k)
  ∧ (∀ i j k k', buckets.*1 !! i = Some k → buckets.*1 !! j = Some k' →
       (i < j)%nat →
       TrendId.year k < TrendId.year k'
       ∨ (TrendId.year k = TrendId.year k'
          ∧ match period with
            | year => False
            | month =>
                ∃ m m', TrendId.month k = Some m
                        ∧ TrendId.month k' = Some m' ∧ m < m'
            | week =>
                ∃ w w', TrendId.week k = Some w
                        ∧ TrendId.week k' = Some w' ∧ w < w'
            end))
  ∧ SpendingTrend.period <$> points
    = AnalyticsService.trendLabel period <$> buckets.*1
  ∧ SpendingTrend.amount <$> points = buckets.*2
  ∧ (∀ p, points !! 0%nat = Some p → SpendingTrend.change p = Fin 0)
  ∧ (∀ i q p, points !! i = Some q → points !! S i = Some p →
       SpendingTrend.change p
       = jsscale (jsdiv (SpendingTrend.amount p - SpendingTrend.amount q)
                        (SpendingTrend.amount q)) 100)
  ∧ (SpendingTrend.period
       <$> AnalyticsService.getSpendingTrends Sample.laterFirst Sample.now
             Sample.user month
     = ["2024-02"; "2024-03"]
     ∧ Forall2 jseq
         (SpendingTrend.change
            <$> AnalyticsService.getSpendingTrends Sample.laterFirst
                  Sample.now Sample.user month)
         [Fin 0; Fin 50]).
Proof.
  intros points since matched buckets. subst buckets.
  split; [|split; [|split; [|split; [|split; [|split]]]]].
  - intros k a. apply elem_of_trendTotals.
  - intros i j k k' Hi Hj Hlt.
    apply list_lookup_fmap_Some in Hi as ([k1 a] & -> & Hi).
    apply list_lookup_fmap_Some in Hj as ([k2 a'] & -> & Hj).
    cbn [fst].
    pose proof (StronglySorted_lookup_lt _ _ i j _ _
                  (trendTotals_sorted db now userId period) Hi Hj Hlt)
      as Hle.
    cbn [fst] in Hle.
    assert (k1 ≠ k2) as Hne.
    { intros ->.
      pose proof (trendTotals_keys_NoDup db now userId period) as Hnd.
      assert (i = j); [|lia].
      apply (NoDup_lookup _ i j k2 Hnd).
      - by rewrite list_lookup_fmap, Hi.
      - by rewrite list_lookup_fmap, Hj. }
    apply list_elem_of_lookup_2, elem_of_trendTotals in Hi
      as [_ (t & _ & <-)].
    apply list_elem_of_lookup_2, elem_of_trendTotals in Hj
      as [_ (t' & _ & <-)].
    by apply trendLe_strict.
  - apply list_eq. intros i. unfold points.
    rewrite !list_lookup_fmap, getSpendingTrends_lookup.
    by destruct (_ !! i).
  - apply getSpendingTrends_amounts.
  - intros p. unfold points. rewrite getSpendingTrends_lookup.
    destruct (_ !! 0%nat); [|done]. by intros [= <-].
  - intros i q p. unfold points. rewrite !getSpendingTrends_lookup.
    destruct (AnalyticsService.trendTotals db now userId period !! i)
      as [prev|]; [|done].
    destruct (AnalyticsService.trendTotals db now userId period !! S i)
      as [cur|]; [|done].
    by intros [= <-] [= <-].
  - split; [vm_compute; reflexivity|].
    vm_compute. repeat constructor.
Qed.

(** ** The current budget *)

Section CurrentBudget.

Context (db : Store) (now : JSDate.t) (userId : ObjectId).

Let currentMonth : JSDate.t :=
  JSDate.mk (JSDate.getFullYear now) (JSDate.getMonth now) 1.

#[local] Instance newestFirst_trans : Transitive BudgetService.newestFirst.
Proof. intros a b c. unfold BudgetService.newestFirst. lia. Qed.

#[local] Instance newestFirst_total : Total BudgetService.newestFirst.
Proof. intros a b. unfold BudgetService.newestFirst. lia. Qed.

Lemma latestBudget_None :
  BudgetService.latestBudget db now userId = None ↔
  ∀ b, b ∈ budgets db →
       ¬ (Budget.userId b = userId ∧ Budget.month b ≤ currentMonth).
Proof.
  unfold BudgetService.latestBudget. cbv zeta. fold currentMonth.
  rewrite head_None. split.
  - intros Hnil b Hb Hm.
    assert (b ∈ merge_sort BudgetService.newestFirst
                  (filter (λ b, Budget.userId b = userId
                                ∧ Budget.month b ≤ currentMonth)
                          (budgets db))) as Hin
      by (apply elem_of_merge_sort, list_elem_of_filter; done).
    rewrite Hnil in Hin. by apply elem_of_nil in Hin.
  - intros Hno.
    destruct (merge_sort _ _) as [|b rest] eqn:Hs; [done|]. exfalso.
    assert (b ∈ merge_sort BudgetService.newestFirst
                  (filter (λ b, Budget.userId b = userId
                                ∧ Budget.month b ≤ currentMonth)
                          (budgets db))) as Hin
      by (rewrite Hs; left).
    apply elem_of_merge_sort, list_elem_of_filter in Hin as [Hm Hb].
    by apply (Hno b).
Qed.

Lemma latestBudget_Some (b : Budget.t) :
  BudgetService.latestBudget db now userId = Some b →
  b ∈ budgets db ∧ Budget.userId b = userId
  ∧ Budget.month b ≤ currentMonth
  ∧ ∀ b', b' ∈ budgets db → Budget.userId b' = userId →
          Budget.month b' ≤ currentMonth →
          Budget.month b' ≤ Budget.month b.
Proof.
  unfold BudgetService.latestBudget. cbv zeta. fold currentMonth.
  set (found := filter _ (budgets db)).
  pose proof (StronglySorted_merge_sort BudgetService.newestFirst found)
    as Hsorted.
  destruct (merge_sort _ found) as [|b0 rest] eqn:Hs; [done|].
  intros [= ->].
  assert (b ∈ found) as Hin
    by (apply (elem_of_merge_sort BudgetService.newestFirst);
        rewrite Hs; left).
  apply list_elem_of_filter in Hin as [[Hu Hm] Hb].
  repeat split; try done.
  intros b' Hb' Hu' Hm'.
  assert (b' ∈ b :: rest) as Hin'.
  { rewrite <- Hs. apply elem_of_merge_sort, list_elem_of_filter. done. }
  apply elem_of_cons in Hin' as [->|Hin']; [lia|].
  apply StronglySorted_inv in Hsorted as [_ Hall].
  rewrite Forall_forall in Hall. by apply Hall.
Qed.

End CurrentBudget.



(** ** The financial overview *)

Section Overview.

Lemma totalOf_totalsByType (ty : TxType) (txs : list Transaction.t)
    (userId : ObjectId) (lo hi : JSDate.t) :
  AnalyticsService.totalOf ty
    (AnalyticsService.totalsByType txs userId lo hi)
  = sumAbs (filter (λ t, Transaction.type t = ty)
              (filter (λ t, Transaction.userId t = userId
                            ∧ lo ≤ Transaction.date t
                            ∧ Transaction.date t ≤ hi) txs)).
Proof.
  unfold AnalyticsService.totalOf, AnalyticsService.totalsByType.
  set (matched := filter _ txs).
  destruct (List.find _ _) as [[k a]|] eqn:Hf; simpl.
  - apply find_some in Hf as [Hin Hk].
    apply bool_decide_eq_true in Hk. simpl in Hk. subst k.
    apply list_elem_of_In, list_elem_of_fmap in Hin
      as ([k g] & [= -> ->] & Hin).
    apply elem_of_groupStage in Hin as [-> _]. reflexivity.
  - destruct (filter _ matched) as [|t rest] eqn:Hm; [reflexivity|].
    exfalso.
    assert (t ∈ filter (λ t, Transaction.type t = ty) matched) as Ht
      by (rewrite Hm; left).
    apply list_elem_of_filter in Ht as [Hty Ht].
    assert (In (ty, sumAbs (filter (λ t, Transaction.type t = ty) matched))
              ((λ kg : TxType * list Transaction.t, (kg.1, sumAbs kg.2))
               <$> groupStage Transaction.type matched)) as Hin.
    { apply list_elem_of_In, list_elem_of_fmap.
      eexists (ty, _). split; [reflexivity|].
      apply elem_of_groupStage. eauto. }
    apply (find_none _ _ Hf) in Hin. simpl in Hin.
    by apply bool_decide_eq_false in Hin.
Qed.

Lemma totals_savingsRate (inc exp : Q) :
  (0 <= inc)%Q →
  ((0 < inc)%Q →
   Totals.savingsRate (AnalyticsService.totals inc exp)
   = Fin ((inc - exp) / inc * 100))
  ∧ ((inc == 0)%Q →
     Totals.savingsRate (AnalyticsService.totals inc exp) = Fin 0).
Proof.
  intros Hnn. unfold AnalyticsService.totals. simpl.
  destruct (jsgt inc 0) eqn:Hg.
  - apply jsgt_zero in Hg. rewrite ratio_pos by done.
    split; [done|]. intros Hz. lra.
  - apply jsgt_zero_false in Hg.
    split; [|done]. intros Hp. lra.
Qed.

End Overview.

(** ** Binary64 arithmetic *)

Section Binary64Facts.

Lemma shr_1_nonneg (mrs : SpecFloat.shr_record) :
  0 ≤ SpecFloat.shr_m mrs → 0 ≤ SpecFloat.shr_m (SpecFloat.shr_1 mrs).
Proof. destruct mrs as [[|[p|p|]|p] r s]; simpl; lia. Qed.

Lemma iter_shr_1_nonneg (p : positive) (mrs : SpecFloat.shr_record) :
  0 ≤ SpecFloat.shr_m mrs →
  0 ≤ SpecFloat.shr_m (SpecFloat.iter_pos SpecFloat.shr_1 p mrs).
Proof.
  revert mrs. induction p as [p IH|p IH|]; intros mrs Hm; simpl.
  - apply IH, IH, shr_1_nonneg, Hm.
  - apply IH, IH, Hm.
  - apply shr_1_nonneg, Hm.
Qed.

Lemma shr_fexp_nonneg (m e : Z) (l : SpecFloat.location) :
  0 ≤ m →
  0 ≤ SpecFloat.shr_m
        (SpecFloat.shr_fexp Binary64.prec Binary64.emax m e l).1.
Proof.
  intros Hm. unfold SpecFloat.shr_fexp, SpecFloat.shr.
  assert (0 ≤ SpecFloat.shr_m (SpecFloat.shr_record_of_loc m l)) as Hrec
    by (destruct l as [|[]]; exact Hm).
  destruct (_ - e) as [|p|p]; simpl; [exact Hrec| |exact Hrec].
  apply iter_shr_1_nonneg, Hrec.
Qed.

Lemma round_nearest_even_nonneg (m : Z) (l : SpecFloat.location) :
  0 ≤ m → 0 ≤ SpecFloat.round_nearest_even m l.
Proof.
  intros Hm. destruct l as [|[]]; simpl; try lia.
  destruct (Z.even m); lia.
Qed.

(** Rounding a magnitude gives a zero, a finite number or an infinity of
    the given sign. *)
Lemma binary_round_aux_sign (sx : bool) (mx ex : Z)
    (lx : SpecFloat.location) :
  0 ≤ mx →
  match SpecFloat.binary_round_aux Binary64.prec Binary64.emax sx mx ex lx
  with
  | SpecFloat.S754_zero s | SpecFloat.S754_infinity s
  | SpecFloat.S754_finite s _ _ => s = sx
  | SpecFloat.S754_nan => False
  end.
Proof.
  intros Hm. unfold SpecFloat.binary_round_aux.
  pose proof (shr_fexp_nonneg mx ex lx Hm) as H1.
  destruct (SpecFloat.shr_fexp _ _ mx ex lx) as [mrs' e']. simpl in H1.
  pose proof (shr_fexp_nonneg
                (SpecFloat.round_nearest_even (SpecFloat.shr_m mrs')
                   (SpecFloat.loc_of_shr_record mrs'))
                e' SpecFloat.loc_Exact
                (round_nearest_even_nonneg _ _ H1)) as H2.
  destruct (SpecFloat.shr_fexp _ _ _ e' _) as [mrs'' e'']. simpl in H2.
  destruct (SpecFloat.shr_m mrs'') as [|m|m]; [reflexivity| |lia].
  destruct (e'' <=? _); reflexivity.
Qed.

Lemma binary_round_sign (sx : bool) (mx : positive) (ex : Z) :
  match SpecFloat.binary_round Binary64.prec Binary64.emax sx mx ex with
  | SpecFloat.S754_zero s | SpecFloat.S754_infinity s
  | SpecFloat.S754_finite s _ _ => s = sx
  | SpecFloat.S754_nan => False
  end.
Proof.
  unfold SpecFloat.binary_round.
  destruct (SpecFloat.shl_align _ _ _) as [mz ez].
  apply binary_round_aux_sign. lia.
Qed.

Lemma binary_normalize_not_nan (m e : Z) (szero : bool) :
  SpecFloat.binary_normalize Binary64.prec Binary64.emax m e szero
  ≠ Binary64.nan.
Proof.
  unfold SpecFloat.binary_normalize. destruct m as [|p|p]; [done|..].
  - pose proof (binary_round_sign false p e) as H.
    intros Heq. rewrite Heq in H. exact H.
  - pose proof (binary_round_sign true p e) as H.
    intros Heq. rewrite Heq in H. exact H.
Qed.

Lemma add_nonneg (x y : Binary64.num) :
  Binary64.nonneg x → Binary64.nonneg y →
  Binary64.nonneg (Binary64.add x y).
Proof.
  destruct x as [sx|sx| |sx mx ex], y as [sy|sy| |sy my ey]; simpl;
    try done; try (intros -> ->; done); try (intros _ ->; done);
    try (intros -> _; done).
  - intros _ _. by destruct sx, sy.
  - intros -> ->. unfold SpecFloat.binary_normalize. simpl.
    pose proof (binary_round_sign false
                  ((SpecFloat.shl_align mx ex (Z.min ex ey)).1
                   + (SpecFloat.shl_align my ey (Z.min ex ey)).1)%positive
                  (Z.min ex ey)) as H.
    destruct (SpecFloat.binary_round _ _ _ _ _); done.
Qed.

Lemma abs_nonneg (x : Binary64.num) :
  x ≠ Binary64.nan → Binary64.nonneg (Binary64.abs x).
Proof. by destruct x. Qed.

Lemma sumAbs_nonneg64 (amounts : list Binary64.num) :
  Forall (λ a, a ≠ Binary64.nan) amounts →
  Binary64.nonneg (Binary64.sumAbs amounts).
Proof.
  unfold Binary64.sumAbs.
  assert (Binary64.nonneg Binary64.zero) as Hz by done.
  revert Hz. generalize Binary64.zero.
  induction amounts as [|a amounts IH]; intros acc Hacc Hall; [done|].
  apply Forall_cons in Hall as [Ha Hall]. simpl.
  apply IH; [|done]. apply add_nonneg; [done|by apply abs_nonneg].
Qed.

Lemma sub_finite_not_nan (sx : bool) (mx : positive) (ex : Z)
    (y : Binary64.num) :
  y ≠ Binary64.nan →
  Binary64.sub (SpecFloat.S754_finite sx mx ex) y ≠ Binary64.nan.
Proof.
  destruct y as [sy|sy| |sy my ey]; simpl; try done.
  intros _. apply binary_normalize_not_nan.
Qed.

Lemma div_core_nonneg (m1 : positive) (e1 : Z) (m2 : positive) (e2 : Z) :
  0 ≤ (SpecFloat.SFdiv_core_binary Binary64.prec Binary64.emax
         (Z.pos m1) e1 (Z.pos m2) e2).1.1.
Proof.
  unfold SpecFloat.SFdiv_core_binary. cbv zeta.
  set (s := _ - _ - _).
  set (m' := match s with
             | 0 => Z.pos m1
             | Z.pos _ => Z.shiftl (Z.pos m1) s
             | Z.neg _ => 0
             end).
  assert (0 ≤ m') as Hm'.
  { unfold m'. destruct s; [lia| |lia]. by apply Z.shiftl_nonneg. }
  pose proof (Z.div_pos m' (Z.pos m2) Hm' ltac:(lia)) as Hq.
  unfold Z.div in Hq.
  destruct (Z.div_eucl m' (Z.pos m2)) as [q r]. exact Hq.
Qed.

Lemma div_by_finite_not_nan (x : Binary64.num) (sy : bool) (my : positive)
    (ey : Z) :
  x ≠ Binary64.nan →
  Binary64.div x (SpecFloat.S754_finite sy my ey) ≠ Binary64.nan.
Proof.
  destruct x as [sx|sx| |sx mx ex]; simpl; try done.
  intros _.
  pose proof (div_core_nonneg mx ex my ey) as Hq.
  destruct (SpecFloat.SFdiv_core_binary _ _ _ _ _ _) as [[mz ez] lz].
  simpl in Hq.
  pose proof (binary_round_aux_sign (xorb sx sy) mz ez lz Hq) as H.
  intros Heq. rewrite Heq in H. exact H.
Qed.

Lemma mul_by_finite_not_nan (x : Binary64.num) (sy : bool) (my : positive)
    (ey : Z) :
  x ≠ Binary64.nan →
  Binary64.mul x (SpecFloat.S754_finite sy my ey) ≠ Binary64.nan.
Proof.
  destruct x as [sx|sx| |sx mx ex]; simpl; try done.
  intros _.
  pose proof (binary_round_aux_sign (xorb sx sy) (Z.pos (mx * my))
                (ex + ey) SpecFloat.loc_Exact ltac:(lia)) as H.
  intros Heq. rewrite Heq in H. exact H.
Qed.

(** With an income above zero, the savings rate is NaN exactly when the
    income is infinite. *)
Lemma savingsRate_nan (income expenses : Binary64.num) :
  expenses ≠ Binary64.nan →
  Binary64.gt income Binary64.zero = true →
  Binary64.savingsRate income expenses = Binary64.nan ↔
  income = Binary64.infinity.
Proof.
  intros Hexp Hgt. unfold Binary64.savingsRate. rewrite Hgt.
  assert (∃ m e, Binary64.ofZ 100 = SpecFloat.S754_finite false m e)
    as (m100 & e100 & ->) by (eexists _, _; vm_compute; reflexivity).
  destruct income as [s|s| |s m e]; try discriminate Hgt.
  - destruct s; [discriminate Hgt|]. split; [done|]. intros _.
    destruct expenses as [sy|[]| |sy my ey]; done.
  - destruct s; [discriminate Hgt|]. split; [|done]. intros Hnan.
    exfalso. revert Hnan.
    apply mul_by_finite_not_nan, div_by_finite_not_nan,
      sub_finite_not_nan, Hexp.
Qed.

End Binary64Facts.

(** C6 as stated fails in the arithmetic of the program: the guard
    keeps the divisor away from 0, not away from infinity.  Two incomes
    of [2 ^ 1023], each a finite double, add up to [Infinity]; the guard
    [income > 0] passes, and [(income - expenses) / income * 100] is
    NaN. *)
Lemma C6_counterexample :
  let income := Binary64.sumAbs Sample.largeIncomes in
  let expenses := Binary64.sumAbs Sample.smallExpenses in
  Forall (λ a, a ≠ Binary64.nan ∧ a ≠ Binary64.infinity)
    (Sample.largeIncomes ++ Sample.smallExpenses)
  ∧ Binary64.gt income Binary64.zero = true
  ∧ Binary64.savingsRate income expenses = Binary64.nan.
Proof.
  split; [|split]; [|vm_compute; reflexivity..].
  repeat constructor; vm_compute; discriminate.
Qed.

(** C6, amended: in the result of [getFinancialOverview], for the monthly
    and for the yearly figures alike, the income is not negative, and in
    exact arithmetic the savings rate is [(income - expenses) / income *
    100] when the income is positive and 0 when the income is 0: the
    division is never by 0.  In binary64, for totals of amounts none of
    which is NaN, the rate is 0 when the income is not above 0, and
    otherwise it is NaN exactly when the income total is [Infinity]. *)
Theorem C6_savings_rate (db : Store) (now : JSDate.t) (userId : ObjectId) :
  let overview := AnalyticsService.getFinancialOverview db now userId in
  Forall (λ T,
            (0 <= Totals.income T)%Q
            ∧ ((0 < Totals.income T)%Q →
               Totals.savingsRate T
               = Fin ((Totals.income T - Totals.expenses T)
                      / Totals.income T * 100))
            ∧ ((Totals.income T == 0)%Q → Totals.savingsRate T = Fin 0))
         [FinancialOverview.monthly overview;
          FinancialOverview.yearly overview]
  ∧ ∀ incomes expenses : list Binary64.num,
      Forall (λ a, a ≠ Binary64.nan) incomes →
      Forall (λ a, a ≠ Binary64.nan) expenses →
      let income := Binary64.sumAbs incomes in
      let spent := Binary64.sumAbs expenses in
      (Binary64.gt income Binary64.zero = false →
       Binary64.savingsRate income spent = Binary64.zero)
      ∧ (Binary64.gt income Binary64.zero = true →
         Binary64.savingsRate income spent = Binary64.nan ↔
         income = Binary64.infinity).
Proof.
  intros overview. split.
  - unfold overview, AnalyticsService.getFinancialOverview.
    cbv zeta. cbn [FinancialOverview.monthly FinancialOverview.yearly].
    repeat apply Forall_cons_2; [| |apply Forall_nil_2].
    + split.
      * cbn [AnalyticsService.totals Totals.income].
        rewrite totalOf_totalsByType. apply sumAbs_nonneg.
      * apply totals_savingsRate.
        rewrite totalOf_totalsByType. apply sumAbs_nonneg.
    + split.
      * cbn [AnalyticsService.totals Totals.income].
        rewrite totalOf_totalsByType. apply sumAbs_nonneg.
      * apply totals_savingsRate.
        rewrite totalOf_totalsByType. apply sumAbs_nonneg.
  - intros incomes expenses Hin Hexp income spent. split.
    + intros Hgt. unfold Binary64.savingsRate. by rewrite Hgt.
    + intros Hgt. apply savingsRate_nan; [|exact Hgt].
      pose proof (sumAbs_nonneg64 expenses Hexp) as Hnn.
      fold spent in Hnn. intros Heq. rewrite Heq in Hnn. exact Hnn.
Qed.

Lemma C6_savings_rate_witness :
  Totals.savingsRate
    (FinancialOverview.monthly
       (AnalyticsService.getFinancialOverview Sample.oneMonth Sample.now
          Sample.user))
  = Fin ((300 - 100) / 300 * 100)
  ∧ Totals.savingsRate
      (FinancialOverview.monthly
         (AnalyticsService.getFinancialOverview Sample.mixedSigns Sample.now
            Sample.user))
    = Fin 0
  ∧ Binary64.savingsRate (Binary64.sumAbs [])
      (Binary64.sumAbs Sample.smallExpenses) = Binary64.zero.
Proof.
  split; [|split].
  - pose proof (C6_savings_rate Sample.oneMonth Sample.now Sample.user)
      as [H _].
    apply Forall_inv in H as (_ & H & _).
    etrans; [apply H; vm_compute; reflexivity|].
    vm_compute. reflexivity.
  - pose proof (C6_savings_rate Sample.mixedSigns Sample.now Sample.user)
      as [H _].
    apply Forall_inv in H as (_ & _ & H).
    apply H. vm_compute. reflexivity.
  - pose proof (C6_savings_rate Sample.oneMonth Sample.now Sample.user)
      as [_ H].
    apply (H [] Sample.smallExpenses).
    + constructor.
    + repeat constructor; vm_compute; discriminate.
    + vm_compute. reflexivity.
Defined.

(** ** The monthly summary *)

Section MonthLabel.

Lemma padStart_month (m : Z) :
  1 ≤ m ≤ 12 → padStart 2 "0"%char (toString m) = twoDigits m.
Proof.
  intros Hm.
  assert (m = 1 ∨ m = 2 ∨ m = 3 ∨ m = 4 ∨ m = 5 ∨ m = 6 ∨ m = 7 ∨ m = 8
          ∨ m = 9 ∨ m = 10 ∨ m = 11 ∨ m = 12) as Hc by lia.
  repeat (destruct Hc as [->|Hc]; [reflexivity|]). by subst m.
Qed.

Lemma length_append (s1 s2 : string) :
  String.length (s1 +:+ s2) = (String.length s1 + String.length s2)%nat.
Proof. induction s1 as [|c s1 IH]; simpl; [done|]. by rewrite IH. Qed.

Lemma twoDigits_length (m : Z) :
  1 ≤ m ≤ 12 → String.length (twoDigits m) = 2%nat.
Proof.
  intros Hm.
  assert (m = 1 ∨ m = 2 ∨ m = 3 ∨ m = 4 ∨ m = 5 ∨ m = 6 ∨ m = 7 ∨ m = 8
          ∨ m = 9 ∨ m = 10 ∨ m = 11 ∨ m = 12) as Hc by lia.
  repeat (destruct Hc as [->|Hc]; [reflexivity|]). by subst m.
Qed.

Lemma toString_year (y : Z) :
  1000 ≤ y ≤ 9999 → String.length (toString y) = 4%nat.
Proof.
  intros Hy. destruct y as [|p|p]; [lia| |lia].
  unfold toString, pretty, pretty_Z, pretty, pretty_positive, pretty, pretty_N.
  destruct (decide (N.pos p = 0)%N) as [|_]; [done|].
  assert (1000 ≤ N.pos p ≤ 9999)%N as Hp by lia.
  generalize dependent (N.pos p). intros x Hx.
  rewrite 4!pretty_N_go_step
    by (zify; Z.div_mod_to_equations; lia).
  replace ((((x `div` 10) `div` 10) `div` 10) `div` 10)%N with 0%N
    by (zify; Z.div_mod_to_equations; lia).
  reflexivity.
Qed.

Lemma month_range (d : JSDate.t) : 1 ≤ JSDate.month d ≤ 12.
Proof.
  unfold JSDate.month, JSDate.getMonth.
  pose proof (civil_spec (JSDate.Day d)) as (Hm & _). lia.
Qed.

End MonthLabel.

Section MonthlySummary.

Context (db : Store) (now : JSDate.t) (userId : ObjectId) (months : option Z).

Let startDate : JSDate.t :=
  JSDate.setMonth now (JSDate.getMonth now - default 6 months).

Let matched : list Transaction.t :=
  filter (λ t, Transaction.userId t = userId
               ∧ startDate ≤ Transaction.date t
               ∧ Transaction.date t ≤ now) (transactions db).

Let key (t : Transaction.t) : Z * Z :=
  (JSDate.year (Transaction.date t), JSDate.month (Transaction.date t)).

Let sorted : list (Z * Z * (Q * Q)) :=
  merge_sort (λ a b, ymLe a.1 b.1)
    ((λ kg, (kg.1, (sumCond income kg.2, sumCond expense kg.2)))
     <$> groupStage key matched).

#[local] Instance ymLe_trans : Transitive ymLe.
Proof. intros a b c. unfold ymLe. lia. Qed.

#[local] Instance ymLe_total : Total ymLe.
Proof. intros a b. unfold ymLe. lia. Qed.

Lemma getMonthlySummary_sorted :
  AnalyticsService.getMonthlySummary db now userId months
  = (λ data,
       MonthlyData.mk (AnalyticsService.monthLabel data.1.1 data.1.2)
         data.2.1 (Qabs data.2.2) (data.2.1 - Qabs data.2.2)%Q)
    <$> sorted.
Proof. reflexivity. Qed.

Lemma sorted_keys_perm : sorted.*1 ≡ₚ remove_dups (key <$> matched).
Proof.
  unfold sorted. rewrite merge_sort_Permutation.
  rewrite <- list_fmap_compose.
  change (((groupStage key matched).*1) ≡ₚ remove_dups (key <$> matched)).
  by rewrite groupStage_keys.
Qed.

Lemma sorted_keys_ascending : StronglySorted ymLe sorted.*1.
Proof.
  eapply StronglySorted_fmap; [|apply StronglySorted_merge_sort].
  - intros x y Hxy. exact Hxy.
  - intros a b c. apply ymLe_trans.
  - intros a b. apply ymLe_total.
Qed.

Lemma elem_of_sorted (k : Z * Z) (s : Q * Q) :
  (k, s) ∈ sorted →
  s = (sumCond income (filter (λ t, key t = k) matched),
       sumCond expense (filter (λ t, key t = k) matched))
  ∧ ∃ t, t ∈ matched ∧ key t = k.
Proof.
  unfold sorted. rewrite elem_of_merge_sort, list_elem_of_fmap.
  intros ([k' g] & [= -> ->] & Hin).
  apply elem_of_groupStage in Hin as [-> Hex]. done.
Qed.

End MonthlySummary.

(** C7: the rows of [getMonthlySummary] are the calendar months, in
    strictly ascending order of (year, month), in which the user has a
    transaction dated between the start date and now, and no other
    month.  A row is labelled with the year, a dash and the month number
    in two digits, seven characters for a four-digit year; its expenses
    are the magnitude of the expense sum, so not negative, and its net is
    its income minus its expenses.  One expense of 100 and one income of
    300 in one month give the single row (300, 100, 200). *)
Theorem C7_monthly_summary (db : Store) (now : JSDate.t) (userId : ObjectId)
    (months : option Z) :
  let rows := AnalyticsService.getMonthlySummary db now userId months in
  let startDate :=
    JSDate.setMonth now (JSDate.getMonth now - default 6 months) in
  let matched :=
    filter (λ t, Transaction.userId t = userId
                 ∧ startDate ≤ Transaction.date t
                 ∧ Transaction.date t ≤ now) (transactions db) in
  let key := λ t : Transaction.t,
    (JSDate.year (Transaction.date t), JSDate.month (Transaction.date t)) in
  (∃ keys : list (Z * Z),
     StronglySorted ymLe keys ∧ NoDup keys
     ∧ (∀ k, k ∈ keys ↔ ∃ t, t ∈ matched ∧ key t = k)
     ∧ Forall2
         (λ k row,
            MonthlyData.month row
            = toString k.1 +:+ "-" +:+ twoDigits k.2
            ∧ 1 ≤ k.2 ≤ 12
            ∧ (1000 ≤ k.1 ≤ 9999 →
               String.length (MonthlyData.month row) = 7%nat)
            ∧ MonthlyData.income row
              = sumCond income (filter (λ t, key t = k) matched)
            ∧ MonthlyData.expenses row
              = Qabs (sumCond expense (filter (λ t, key t = k) matched))
            ∧ (0 <= MonthlyData.expenses row)%Q
            ∧ MonthlyData.net row
              = (MonthlyData.income row - MonthlyData.expenses row)%Q)
         keys rows)
  ∧ AnalyticsService.getMonthlySummary Sample.oneMonth Sample.now
      Sample.user None
    = [MonthlyData.mk "2024-03" 300%Q 100%Q 200%Q].
Proof.
  intros rows startDate matched key. split; [|vm_compute; reflexivity].
  set (sorted :=
         merge_sort (λ a b : Z * Z * (Q * Q), ymLe a.1 b.1)
           ((λ kg : Z * Z * list Transaction.t,
               (kg.1, (sumCond income kg.2, sumCond expense kg.2)))
            <$> groupStage key matched)).
  exists sorted.*1.
  pose proof (sorted_keys_perm db now userId months) as Hperm.
  fold startDate matched key sorted in Hperm.
  split; [apply sorted_keys_ascending|].
  split; [rewrite Hperm; apply NoDup_remove_dups|].
  split.
  { intros k. rewrite Hperm, elem_of_remove_dups, list_elem_of_fmap.
    split; intros (t & Ht1 & Ht2); eauto. }
  unfold rows. rewrite getMonthlySummary_sorted.
  fold startDate matched key sorted.
  apply Forall2_fmap, Forall_Forall2_diag, Forall_forall.
  intros [k s] Hin.
  apply elem_of_sorted in Hin as [-> (t & Ht & Hk)].
  assert (1 ≤ k.2 ≤ 12) as Hm.
  { rewrite <- Hk. simpl. apply month_range. }
  cbn [fst snd MonthlyData.month MonthlyData.income MonthlyData.expenses
       MonthlyData.net].
  assert (AnalyticsService.monthLabel k.1 k.2
          = toString k.1 +:+ "-" +:+ twoDigits k.2) as Hlabel.
  { unfold AnalyticsService.monthLabel. by rewrite padStart_month. }
  split; [exact Hlabel|]. split; [exact Hm|].
  split.
  { intros Hy. rewrite Hlabel.
    rewrite !length_append, toString_year, twoDigits_length by done.
    reflexivity. }
  split; [reflexivity|]. split; [reflexivity|].
  split; [apply Qabs_nonneg|reflexivity].
Qed.

Lemma C7_monthly_summary_witness :
  ∃ row,
    AnalyticsService.getMonthlySummary Sample.oneMonth Sample.now
      Sample.user None = [row]
    ∧ String.length (MonthlyData.month row) = 7%nat.
Proof.
  pose proof (C7_monthly_summary Sample.oneMonth Sample.now Sample.user None)
    as [(keys & _ & _ & Hkeys & Hrows) Heq].
  rewrite Heq in Hrows. eexists. split; [exact Heq|].
  apply Forall2_cons_inv_r in Hrows as (k & keys' & Hrow & _ & ->).
  destruct Hrow as (_ & _ & Hlen & _). apply Hlen.
  destruct (Hkeys k) as [Hk _].
  destruct (Hk (list_elem_of_here _ _)) as (t & Ht & <-).
  apply list_elem_of_filter in Ht as [_ Ht].
  unfold Sample.oneMonth, Sample.ledger in Ht.
  cbn [transactions] in Ht.
  repeat (apply elem_of_cons in Ht as [->|Ht]; [vm_compute; split; discriminate|]).
  exfalso. exact (proj1 (elem_of_nil _) Ht).
Defined.

(** ** Budget lookup *)

Section BudgetLookup.

Lemma find_None_iff {A : Type} (P : A → Prop) `{∀ x, Decision (P x)}
    (l : list A) :
  List.find (λ x, bool_decide (P x)) l = None ↔ ∀ x, x ∈ l → ¬ P x.
Proof.
  induction l as [|a l IH]; simpl.
  - split; [|done]. intros _ x Hx. by apply elem_of_nil in Hx.
  - destruct (bool_decide_reflect (P a)) as [Hp|Hn].
    + split; [done|]. intros Hall. exfalso. apply (Hall a); [left|done].
    + rewrite IH. split.
      * intros Hall x Hx. apply elem_of_cons in Hx as [->|Hx]; [done|].
        by apply Hall.
      * intros Hall x Hx. apply Hall. by right.
Qed.

Lemma find_Some_elem {A : Type} (P : A → Prop) `{∀ x, Decision (P x)}
    (l : list A) (a : A) :
  List.find (λ x, bool_decide (P x)) l = Some a → a ∈ l ∧ P a.
Proof.
  intros Hf. apply find_some in Hf as [Hin Hp].
  split; [by apply list_elem_of_In|by apply bool_decide_eq_true in Hp].
Qed.

End BudgetLookup.

(** C8 as stated fails: the month argument is not resolved to the first
    day of its month for the lookup.  With a budget stored for 1 March
    2024, asking for 15 March 2024 gives null although a budget exists
    for the first day of that month. *)
Lemma C8_counterexample :
  ¬ (AnalyticsService.getBudgetProgress Sample.overspentFood Sample.now
       Sample.user (Some Sample.midMarch) = None ↔
     ∀ b, b ∈ budgets Sample.overspentFood →
          ¬ (Budget.userId b = Sample.user
             ∧ Budget.month b
               = JSDate.mk (JSDate.getFullYear Sample.midMarch)
                           (JSDate.getMonth Sample.midMarch) 1)).
Proof.
  intros [Hnone _].
  assert (AnalyticsService.getBudgetProgress Sample.overspentFood Sample.now
            Sample.user (Some Sample.midMarch) = None) as Hnull
    by (vm_compute; reflexivity).
  apply (Hnone Hnull Sample.foodBudget).
  - left.
  - split; vm_compute; reflexivity.
Qed.

(** C8, amended: [getBudgetProgress] looks up the budget of the user
    whose stored month equals the month argument as given, or the first
    day of the current month when no argument is given, and returns null
    exactly when there is no such budget; a result it returns is for a
    budget of the user stored under exactly that month. *)
Theorem C8_budget_progress_lookup (db : Store) (now : JSDate.t)
    (userId : ObjectId) (month : option JSDate.t) :
  let targetMonth :=
    default (JSDate.mk (JSDate.getFullYear now) (JSDate.getMonth now) 1)
            month in
  (AnalyticsService.getBudgetProgress db now userId month = None ↔
   ∀ b, b ∈ budgets db →
        ¬ (Budget.userId b = userId ∧ Budget.month b = targetMonth))
  ∧ (∀ r, AnalyticsService.getBudgetProgress db now userId month = Some r →
       BudgetResponse.month r = targetMonth
       ∧ ∃ b, b ∈ budgets db ∧ Budget.userId b = userId
              ∧ Budget.month b = targetMonth
              ∧ BudgetResponse.totalBudget r = Budget.totalBudget b
              ∧ BudgetResponse.currency r = Budget.currency b).
Proof.
  intros targetMonth. subst targetMonth.
  unfold AnalyticsService.getBudgetProgress. cbv zeta.
  split.
  - pose proof (find_None_iff
        (λ b, Budget.userId b = userId
              ∧ Budget.month b
                = default (JSDate.mk (JSDate.getFullYear now)
                                     (JSDate.getMonth now) 1) month)
        (budgets db)) as Hiff.
    cbv beta in Hiff. rewrite <- Hiff.
    destruct (List.find _ (budgets db)); split; congruence.
  - intros r.
    destruct (List.find _ (budgets db)) as [b|] eqn:Hf; [|congruence].
    apply find_Some_elem in Hf as (Hin & Hu & Hm).
    intros [= <-]. cbn [BudgetResponse.month BudgetResponse.totalBudget
                        BudgetResponse.currency].
    split; [exact Hm|]. exists b.
    split; [exact Hin|]. split; [exact Hu|]. split; [exact Hm|].
    split; reflexivity.
Qed.

(** ** Budget writes *)

Section BudgetWrites.

Lemma strictNe_false (a : Q) (b : option Q) :
  BudgetService.strictNe a b = false → ∃ q, b = Some q ∧ (a == q)%Q.
Proof.
  destruct b as [q|]; simpl; [|done].
  rewrite negb_false_iff, Qeq_bool_iff. eauto.
Qed.

Lemma create_fields (newId userId : ObjectId) (data : PartialBudget.t)
    (b : Budget.t) :
  BudgetService.create newId userId data = Some b →
  Budget._id b = newId ∧ Budget.userId b = userId
  ∧ PartialBudget.month data = Some (Budget.month b)
  ∧ PartialBudget.totalBudget data = Some (Budget.totalBudget b)
  ∧ Budget.categoryBudgets b
    = default [] (PartialBudget.categoryBudgets data)
  ∧ PartialBudget.currency data = Some (Budget.currency b).
Proof.
  unfold BudgetService.create.
  destruct data as [owner [m|] [total|] cbs [cur|]]; simpl; try done.
  destruct (_ && _); [|done]. by intros [= <-].
Qed.

Lemma elem_of_updateById (budgetId : ObjectId) (u : PartialBudget.t)
    (docs : list Budget.t) (b : Budget.t) :
  b ∈ BudgetService.updateById budgetId u docs →
  b ∈ docs
  ∨ ∃ old, old ∈ docs ∧ Budget._id old = budgetId
           ∧ b = BudgetService.applyUpdate u old.
Proof.
  induction docs as [|d docs IH]; simpl; [by left|].
  destruct (bool_decide_reflect (Budget._id d = budgetId)) as [Hid|Hne].
  - intros [->|Hin]%elem_of_cons.
    + right. exists d. split; [left|done].
    + left. by right.
  - intros [->|Hin]%elem_of_cons.
    + left. left.
    + destruct (IH Hin) as [Hold|(old & Hold & Hid & ->)].
      * left. by right.
      * right. exists old. split; [by right|done].
Qed.

Lemma find_updateById (budgetId : ObjectId) (u : PartialBudget.t)
    (docs : list Budget.t) :
  (∃ d, d ∈ docs ∧ Budget._id d = budgetId) →
  ∃ old, old ∈ docs ∧ Budget._id old = budgetId
         ∧ List.find (λ b, bool_decide (Budget._id b = budgetId))
             (BudgetService.updateById budgetId u docs)
           = Some (BudgetService.applyUpdate u old).
Proof.
  induction docs as [|d docs IH]; simpl.
  - intros (d & Hd & _). by apply elem_of_nil in Hd.
  - intros (d' & Hd' & Hid').
    destruct (bool_decide_reflect (Budget._id d = budgetId)) as [Hid|Hne].
    + exists d. split; [left|]. split; [done|]. simpl.
      by rewrite bool_decide_eq_true_2.
    + simpl. rewrite bool_decide_eq_false_2 by done.
      apply elem_of_cons in Hd' as [->|Hd']; [done|].
      destruct IH as (old & Hold & Hid & Hf); [eauto|].
      exists old. split; [by right|done].
Qed.

Lemma applyUpdate_balanced (u : PartialBudget.t) (old : Budget.t)
    (cbs : list CategoryBudget.t) (total : Q) :
  PartialBudget.categoryBudgets u = Some cbs →
  PartialBudget.totalBudget u = Some total →
  (reduceSum CategoryBudget.budget cbs == total)%Q →
  balanced (BudgetService.applyUpdate u old).
Proof.
  intros Hc Ht Hsum. unfold balanced, BudgetService.applyUpdate. simpl.
  rewrite Hc, Ht. simpl. rewrite <- Hsum. apply reduceSum_sumQ.
Qed.

End BudgetWrites.

(** C9 as stated fails: [updateBudget] checks the sum only when the
    update carries both the category budgets and the total.  Raising the
    total alone of a budget of 200 with 200 on Food to 500 is accepted,
    and the stored budget then has total 500 against allocations of
    200. *)
Lemma C9_counterexample :
  Forall balanced (budgets Sample.balancedStore)
  ∧ ∃ b db',
      BudgetService.updateBudget Sample.balancedStore 9%N Sample.raiseTotal
        Sample.user = (Ok (Some b), db')
      ∧ b ∈ budgets db' ∧ ¬ balanced b.
Proof.
  split.
  - repeat constructor.
  - eexists _, _. split; [vm_compute; reflexivity|]. split.
    + left.
    + vm_compute. discriminate.
Qed.

(** C9, amended: [createBudget] accepts a budget only when its category
    budgets add up to its total, and then appends it to the stored
    budgets; [updateBudget], for an update that carries both the category
    budgets and a total other than 0, accepts it only when they add up,
    and the stored budget is then balanced; a write that throws leaves
    the store as it was.  Under these writes a store of balanced budgets
    stays a store of balanced budgets. *)
Theorem C9_budget_writes_balanced (db : Store) :
  (∀ newId data userId,
     match BudgetService.createBudget db newId data userId with
     | (Ok b, db') =>
         balanced b
         ∧ budgets db' = budgets db ++ [b]
         ∧ (Forall balanced (budgets db) → Forall balanced (budgets db'))
     | (Throw _, db') => db' = db
     end)
  ∧ (∀ budgetId u userId,
       match BudgetService.updateBudget db budgetId u userId with
       | (Ok r, db') =>
           ∀ cbs total,
             PartialBudget.categoryBudgets u = Some cbs →
             PartialBudget.totalBudget u = Some total →
             ¬ (total == 0)%Q →
             (∃ b, r = Some b ∧ b ∈ budgets db' ∧ Budget._id b = budgetId
                   ∧ balanced b)
             ∧ (Forall balanced (budgets db) → Forall balanced (budgets db'))
       | (Throw _, db') => db' = db
       end).
Proof.
  split.
  - intros newId data userId. unfold BudgetService.createBudget.
    destruct (List.find _ (budgets db)); [reflexivity|].
    destruct (BudgetService.strictNe _ _) eqn:Hne; [reflexivity|].
    destruct (BudgetService.create newId userId data) as [b|] eqn:Hc;
      [|reflexivity].
    apply strictNe_false in Hne as (q & Hq & Hsum).
    apply create_fields in Hc as (_ & _ & _ & Ht & Hcbs & _).
    assert (balanced b) as Hb.
    { unfold balanced. rewrite Hcbs.
      rewrite Hq in Ht. injection Ht as <-. rewrite <- Hsum.
      destruct (PartialBudget.categoryBudgets data) as [cbs|]; simpl.
      - apply reduceSum_sumQ.
      - reflexivity. }
    split; [exact Hb|]. split; [reflexivity|].
    intros Hall. simpl. apply Forall_app. split; [exact Hall|].
    by apply Forall_singleton.
  - intros budgetId u userId. unfold BudgetService.updateBudget.
    destruct (BudgetService.findOwned db budgetId userId) as [existing|]
      eqn:Hfind; [|reflexivity].
    destruct (match PartialBudget.month u with
              | Some m => List.find _ (budgets db)
              | None => None
              end); [reflexivity|].
    destruct (match PartialBudget.categoryBudgets u with
              | Some cbs => _
              | None => false
              end) eqn:Hmis; [reflexivity|].
    destruct (BudgetService.validUpdate u); simpl; [|reflexivity].
    destruct (from_option _ false _); [reflexivity|].
    intros cbs total Hc Ht Hnz.
    rewrite Hc, Ht in Hmis. simpl in Hmis.
    assert (Qeq_bool total 0 = false) as Hz.
    { apply not_true_iff_false. by rewrite Qeq_bool_iff. }
    rewrite Hz in Hmis. simpl in Hmis.
    rewrite negb_false_iff, Qeq_bool_iff in Hmis.
    apply find_Some_elem in Hfind as (Hin & Hid & _).
    destruct (find_updateById budgetId u (budgets db))
      as (old & Hold & Hoid & Hf); [eauto|].
    split.
    + exists (BudgetService.applyUpdate u old).
      split; [by rewrite Hf|].
      split; [by apply find_Some_elem in Hf as [? _]|].
      split; [exact Hoid|].
      by apply (applyUpdate_balanced u old cbs total).
    + intros Hall. apply Forall_forall. intros b Hb.
      apply elem_of_updateById in Hb as [Hb|(old' & _ & _ & ->)].
      * rewrite Forall_forall in Hall. by apply Hall.
      * by apply (applyUpdate_balanced u old' cbs total).
Qed.

Lemma C9_budget_writes_balanced_witness :
  ∃ b db',
    BudgetService.updateBudget Sample.balancedStore 9%N Sample.raiseBoth
      Sample.user = (Ok (Some b), db')
    ∧ balanced b ∧ Forall balanced (budgets db').
Proof.
  pose proof (C9_budget_writes_balanced Sample.balancedStore) as [_ Hupd].
  specialize (Hupd 9%N Sample.raiseBoth Sample.user).
  destruct (BudgetService.updateBudget Sample.balancedStore 9%N
              Sample.raiseBoth Sample.user) as [[r|msg] db'] eqn:Hres.
  - destruct (Hupd _ _ eq_refl eq_refl) as [(b & -> & _ & _ & Hb) Hall].
    + vm_compute. discriminate.
    + exists b, db'. split; [reflexivity|]. split; [exact Hb|].
      apply Hall. repeat constructor.
  - exfalso. vm_compute in Hres. discriminate.
Defined.

(** ** The end of a month window *)

Section MonthWindow.

Lemma filter_skip {A : Type} (P : A → Prop) `{∀ x, Decision (P x)}
    (l1 l2 : list A) (t : A) :
  ¬ P t → filter P (l1 ++ t :: l2) = filter P (l1 ++ l2).
Proof.
  intros Hn. rewrite !filter_app, filter_cons.
  by destruct (decide (P t)).
Qed.

Lemma spendingOf_skip (l1 l2 : list Transaction.t) (t : Transaction.t)
    (userId : ObjectId) (lo hi : JSDate.t) :
  hi < Transaction.date t →
  spendingOf (l1 ++ t :: l2) userId lo hi = spendingOf (l1 ++ l2) userId lo hi.
Proof.
  intros Hlate. unfold spendingOf. rewrite filter_skip; [reflexivity|].
  intros (_ & _ & _ & Hle). lia.
Qed.

Lemma totalsByType_skip (l1 l2 : list Transaction.t) (t : Transaction.t)
    (userId : ObjectId) (lo hi : JSDate.t) :
  hi < Transaction.date t →
  AnalyticsService.totalsByType (l1 ++ t :: l2) userId lo hi
  = AnalyticsService.totalsByType (l1 ++ l2) userId lo hi.
Proof.
  intros Hlate. unfold AnalyticsService.totalsByType.
  rewrite filter_skip; [reflexivity|].
  intros (_ & _ & Hle). lia.
Qed.

Lemma getBudgetProgress_skip (db : Store) (now : JSDate.t)
    (userId : ObjectId) (month : option JSDate.t)
    (l1 l2 : list Transaction.t) (t : Transaction.t) :
  (let targetMonth :=
     default (JSDate.mk (JSDate.getFullYear now) (JSDate.getMonth now) 1)
             month in
   JSDate.mk (JSDate.getFullYear targetMonth)
             (JSDate.getMonth targetMonth + 1) 0 < Transaction.date t) →
  AnalyticsService.getBudgetProgress
    (withTransactions db (l1 ++ t :: l2)) now userId month
  = AnalyticsService.getBudgetProgress
      (withTransactions db (l1 ++ l2)) now userId month.
Proof.
  cbv zeta. intros Hlate. unfold AnalyticsService.getBudgetProgress.
  cbv zeta. cbn [transactions budgets withTransactions].
  by rewrite spendingOf_skip.
Qed.

Lemma getCurrentBudget_skip (db : Store) (now : JSDate.t)
    (userId : ObjectId) (b : Budget.t)
    (l1 l2 : list Transaction.t) (t : Transaction.t) :
  BudgetService.latestBudget db now userId = Some b →
  JSDate.mk (JSDate.getFullYear (Budget.month b))
            (JSDate.getMonth (Budget.month b) + 1) 0 < Transaction.date t →
  BudgetService.getCurrentBudget
    (withTransactions db (l1 ++ t :: l2)) now userId
  = BudgetService.getCurrentBudget
      (withTransactions db (l1 ++ l2)) now userId.
Proof.
  intros Hb Hlate. unfold BudgetService.getCurrentBudget.
  change (BudgetService.latestBudget (withTransactions db _) now userId)
    with (BudgetService.latestBudget db now userId).
  rewrite Hb. cbn [transactions withTransactions].
  by rewrite spendingOf_skip.
Qed.

Lemma getFinancialOverview_skip (db : Store) (now : JSDate.t)
    (userId : ObjectId) (l1 l2 : list Transaction.t) (t : Transaction.t) :
  (let currentMonth :=
     JSDate.mk (JSDate.getFullYear now) (JSDate.getMonth now) 1 in
   JSDate.mk (JSDate.getFullYear currentMonth)
             (JSDate.getMonth currentMonth + 1) 0 < Transaction.date t) →
  AnalyticsService.getFinancialOverview
    (withTransactions db (l1 ++ t :: l2)) now userId
  = AnalyticsService.getFinancialOverview
      (withTransactions db (l1 ++ l2)) now userId.
Proof.
  cbv zeta. intros Hlate. unfold AnalyticsService.getFinancialOverview.
  cbv zeta. cbn [transactions withTransactions].
  by rewrite !totalsByType_skip, spendingOf_skip.
Qed.

End MonthWindow.

(** C10: the upper bound of a month window, [new Date(year, month + 1, 0)],
    is the midnight that opens the last day of the month: it has time of
    day 0, lies at least 27 days after the first day of the month, and
    the next month starts one day later.  A transaction dated after that
    midnight and before the next month, whatever its user, type and
    category, leaves the result of [getBudgetProgress] for that month,
    of [getCurrentBudget] for the month of the budget it reports, and of
    [getFinancialOverview] (monthly figures, year-to-date figures and
    top categories) for the current month unchanged. *)
Theorem C10_last_day_excluded :
  (∀ y m tod,
     0 < tod < JSDate.msPerDay →
     JSDate.TimeWithinDay (JSDate.mk y (m + 1) 0) = 0
     ∧ JSDate.mk y m 1 ≤ JSDate.mk y (m + 1) 0 + tod
     ∧ JSDate.mk y (m + 1) 0 + tod < JSDate.mk y (m + 1) 1
     ∧ ¬ (JSDate.mk y (m + 1) 0 + tod ≤ JSDate.mk y (m + 1) 0))
  ∧ (∀ db now userId month l1 l2 t tod,
       let targetMonth :=
         default (JSDate.mk (JSDate.getFullYear now) (JSDate.getMonth now) 1)
                 month in
       0 < tod < JSDate.msPerDay →
       Transaction.date t
       = JSDate.mk (JSDate.getFullYear targetMonth)
                   (JSDate.getMonth targetMonth + 1) 0 + tod →
       AnalyticsService.getBudgetProgress
         (withTransactions db (l1 ++ t :: l2)) now userId month
       = AnalyticsService.getBudgetProgress
           (withTransactions db (l1 ++ l2)) now userId month)
  ∧ (∀ db now userId b l1 l2 t tod,
       0 < tod < JSDate.msPerDay →
       BudgetService.latestBudget db now userId = Some b →
       Transaction.date t
       = JSDate.mk (JSDate.getFullYear (Budget.month b))
                   (JSDate.getMonth (Budget.month b) + 1) 0 + tod →
       BudgetService.getCurrentBudget
         (withTransactions db (l1 ++ t :: l2)) now userId
       = BudgetService.getCurrentBudget
           (withTransactions db (l1 ++ l2)) now userId)
  ∧ (∀ db now userId l1 l2 t tod,
       let currentMonth :=
         JSDate.mk (JSDate.getFullYear now) (JSDate.getMonth now) 1 in
       0 < tod < JSDate.msPerDay →
       Transaction.date t
       = JSDate.mk (JSDate.getFullYear currentMonth)
                   (JSDate.getMonth currentMonth + 1) 0 + tod →
       AnalyticsService.getFinancialOverview
         (withTransactions db (l1 ++ t :: l2)) now userId
       = AnalyticsService.getFinancialOverview
           (withTransactions db (l1 ++ l2)) now userId).
Proof.
  split; [|split; [|split]].
  - intros y m tod Htod.
    pose proof (mk_last_day y m) as [Hlo Hnext].
    split; [apply mk_midnight|].
    generalize dependent (JSDate.mk y (m + 1) 0).
    generalize (JSDate.mk y m 1), (JSDate.mk y (m + 1) 1).
    unfold JSDate.msPerDay in *. intros. lia.
  - intros db now userId month l1 l2 t tod targetMonth Htod Hdate.
    apply getBudgetProgress_skip. cbv zeta. fold targetMonth.
    rewrite Hdate. lia.
  - intros db now userId b l1 l2 t tod Htod Hb Hdate.
    apply (getCurrentBudget_skip db now userId b); [exact Hb|].
    rewrite Hdate. lia.
  - intros db now userId l1 l2 t tod currentMonth Htod Hdate.
    apply getFinancialOverview_skip. cbv zeta. fold currentMonth.
    rewrite Hdate. lia.
Qed.

Lemma C10_last_day_excluded_witness :
  JSDate.getDate (Transaction.date Sample.lastDayExpense) = 31
  ∧ JSDate.getMonth (Transaction.date Sample.lastDayExpense) = 2
  ∧ AnalyticsService.getBudgetProgress
      (withTransactions Sample.overspentFood
         ([] ++ Sample.lastDayExpense
             :: transactions Sample.overspentFood))
      Sample.now Sample.user None
    = AnalyticsService.getBudgetProgress
        (withTransactions Sample.overspentFood
           ([] ++ transactions Sample.overspentFood))
        Sample.now Sample.user None.
Proof.
  split; [vm_compute; reflexivity|]. split; [vm_compute; reflexivity|].
  destruct C10_last_day_excluded as (_ & Hprogress & _).
  apply (Hprogress _ _ _ _ _ _ _ 36000000).
  - vm_compute. split; reflexivity.
  - vm_compute. reflexivity.
Defined.

(** ** Dates and their fields *)

Section DateFields.

Import JSDate.

Local Ltac zdm := Z.div_mod_to_equations; lia.

(** [MakeDay] counts months on one line: year [y], month [m] is month
    [12 * y + m] of year 0. *)
Lemma MakeDay_linear (y m d : Z) : MakeDay y m d = MakeDay 0 (12 * y + m) d.
Proof.
  unfold MakeDay.
  replace ((12 * y + m) / 12) with (y + m / 12) by zdm.
  replace ((12 * y + m) mod 12) with (m mod 12) by zdm.
  reflexivity.
Qed.

Lemma month_start_le (k : Z) (n : nat) :
  MakeDay 0 k 1 + 28 * Z.of_nat n ≤ MakeDay 0 (k + Z.of_nat n) 1.
Proof.
  induction n as [|n IH].
  - replace (k + Z.of_nat 0) with k by lia. lia.
  - pose proof (MakeDay_next_month 0 (k + Z.of_nat n)) as Hstep.
    replace (k + Z.of_nat (S n)) with (k + Z.of_nat n + 1) by lia. lia.
Qed.

(** Later months start later, by at least 28 days a month. *)
Lemma month_start_mono (k k' : Z) :
  k ≤ k' → MakeDay 0 k 1 + 28 * (k' - k) ≤ MakeDay 0 k' 1.
Proof.
  intros Hk. pose proof (month_start_le k (Z.to_nat (k' - k))) as H.
  replace (k + Z.of_nat (Z.to_nat (k' - k))) with k' in H by lia. lia.
Qed.

(** A day belongs to one month only. *)
Lemma month_unique (k k' dn : Z) :
  MakeDay 0 k 1 ≤ dn < MakeDay 0 (k + 1) 1 →
  MakeDay 0 k' 1 ≤ dn < MakeDay 0 (k' + 1) 1 →
  k = k'.
Proof.
  intros Hk Hk'.
  destruct (Z.lt_trichotomy k k') as [Hlt|[Heq|Hgt]]; [|exact Heq|].
  - pose proof (month_start_mono (k + 1) k'). lia.
  - pose proof (month_start_mono (k' + 1) k). lia.
Qed.

Local Ltac closed_bools :=
  repeat match goal with
         | |- context [?a <=? ?b] =>
             let v := eval vm_compute in (a <=? b) in
             change (a <=? b) with v
         | |- context [?a =? ?b] =>
             let v := eval vm_compute in (a =? b) in
             change (a =? b) with v
         end.

Local Ltac month_case y :=
  unfold daysBeforeMonth; cbn [cumDays]; closed_bools;
  rewrite ?andb_true_r, ?andb_false_r, ?Z.add_0_r;
  try rewrite DayFromYear_succ;
  destruct (isLeap y); cbn iota; zdm.

(** The length of the month that [civilOfCycle] finds, from its
    March-based month number. *)
Lemma month_length_march (y mp : Z) :
  0 ≤ mp ≤ 11 →
  let m := if mp <? 10 then mp + 3 else mp - 9 in
  MakeDay y m 1 - MakeDay y (m - 1) 1
  = if mp =? 11 then 28 + (if isLeap y then 1 else 0)
    else (153 * (mp + 1) + 2) / 5 - (153 * mp + 2) / 5.
Proof.
  intros Hmp.
  assert (mp = 0 ∨ mp = 1 ∨ mp = 2 ∨ mp = 3 ∨ mp = 4 ∨ mp = 5 ∨ mp = 6
          ∨ mp = 7 ∨ mp = 8 ∨ mp = 9 ∨ mp = 10 ∨ mp = 11) as Hc by lia.
  assert (∀ c : Z,
            mp = c →
            ∀ q r q' r' : Z,
              ((if c <? 10 then c + 3 else c - 9) / 12 = q) →
              ((if c <? 10 then c + 3 else c - 9) mod 12 = r) →
              (((if c <? 10 then c + 3 else c - 9) - 1) / 12 = q') →
              (((if c <? 10 then c + 3 else c - 9) - 1) mod 12 = r') →
              DayFromYear (y + q) + daysBeforeMonth (y + q) r
              - (DayFromYear (y + q') + daysBeforeMonth (y + q') r')
              = (if c =? 11 then 28 + (if isLeap y then 1 else 0)
                 else (153 * (c + 1) + 2) / 5 - (153 * c + 2) / 5) →
              MakeDay y (if mp <? 10 then mp + 3 else mp - 9) 1
              - MakeDay y ((if mp <? 10 then mp + 3 else mp - 9) - 1) 1
              = (if mp =? 11 then 28 + (if isLeap y then 1 else 0)
                 else (153 * (mp + 1) + 2) / 5 - (153 * mp + 2) / 5)) as Hgen.
  { intros c -> q r q' r' <- <- <- <- Heq. unfold MakeDay. lia. }
  cbv zeta.
  repeat (destruct Hc as [Hc|Hc];
          [eapply (Hgen _ Hc); [vm_compute; reflexivity ..|];
           month_case y|]).
  eapply (Hgen _ Hc); [vm_compute; reflexivity ..|]. month_case y.
Qed.

Lemma leap_end_of_cycle_year (yoe : Z) :
  0 ≤ yoe ≤ 399 →
  yoe mod 4 = 3 ∧ (yoe mod 100 ≠ 99 ∨ yoe = 399) →
  isLeap (yoe + 1) = true.
Proof.
  intros Hy Hl. unfold isLeap.
  destruct (Z.eqb_spec ((yoe + 1) mod 4) 0),
    (Z.eqb_spec ((yoe + 1) mod 100) 0),
    (Z.eqb_spec ((yoe + 1) mod 400) 0); simpl; try reflexivity;
    exfalso; zdm.
Qed.

(** The day that [civil] finds is a day of the month it finds. *)
Lemma civil_day_le_length (dn : Z) :
  (civil dn).2
  ≤ MakeDay (civil dn).1.1 (civil dn).1.2 1
    - MakeDay (civil dn).1.1 ((civil dn).1.2 - 1) 1.
Proof.
  unfold civil. cbv zeta. cbn [fst snd].
  assert (0 ≤ (dn + 719468) mod 146097 < 146097) as Hr by zdm.
  set (doe := (dn + 719468) mod 146097) in *.
  set (era := (dn + 719468) / 146097). clearbody doe era.
  pose proof (cycle_bounds doe Hr) as Hb. cbv zeta in Hb.
  unfold civilOfCycle. cbv zeta. cbn [fst snd].
  set (yoe := (doe - doe / 1460 + doe / 36524 - doe / 146096) / 365) in *.
  set (doy := doe - (365 * yoe + yoe / 4 - yoe / 100)) in *.
  clearbody doy yoe.
  set (mp := (5 * doy + 2) / 153).
  assert (0 ≤ mp ≤ 11) as Hmp by (subst mp; zdm).
  assert (153 * mp ≤ 5 * doy + 2 < 153 * mp + 153) as Hdoy by (subst mp; zdm).
  clearbody mp.
  rewrite !MakeDay_cycle.
  pose proof (month_length_march
                (yoe + (if (if mp <? 10 then mp + 3 else mp - 9) <=? 2
                        then 1 else 0)) mp Hmp) as Hlen.
  cbv zeta in Hlen.
  replace (MakeDay _ (if mp <? 10 then mp + 3 else mp - 9) 1 + era * 146097
           - (MakeDay _ ((if mp <? 10 then mp + 3 else mp - 9) - 1) 1
              + era * 146097))
    with (MakeDay (yoe + (if (if mp <? 10 then mp + 3 else mp - 9) <=? 2
                          then 1 else 0))
            (if mp <? 10 then mp + 3 else mp - 9) 1
          - MakeDay (yoe + (if (if mp <? 10 then mp + 3 else mp - 9) <=? 2
                            then 1 else 0))
              ((if mp <? 10 then mp + 3 else mp - 9) - 1) 1) by lia.
  rewrite Hlen. clear Hlen.
  destruct (Z.eqb_spec mp 11) as [->|Hne].
  - change (11 <? 10) with false. cbn iota.
    change (11 - 9 <=? 2) with true. cbn iota.
    destruct (Z.eq_dec doy 365) as [Heq|Hneq].
    + rewrite leap_end_of_cycle_year by tauto. zdm.
    + destruct (isLeap (yoe + 1)); zdm.
  - zdm.
Qed.

Lemma civil_in_month (dn : Z) :
  MakeDay (civil dn).1.1 ((civil dn).1.2 - 1) 1 ≤ dn
  ∧ dn < MakeDay (civil dn).1.1 (civil dn).1.2 1.
Proof.
  pose proof (civil_spec dn) as (_ & Hd & Heq).
  pose proof (civil_day_le_length dn) as Hlen.
  revert Hd Heq Hlen.
  generalize (civil dn).1.1, (civil dn).1.2, (civil dn).2.
  intros Y M D Hd Heq Hlen. unfold MakeDay in *. lia.
Qed.

(** The fields of [new Date(y, m, d)], for a month in range and a day
    that every month has. *)
Lemma civil_MakeDay (y m d : Z) :
  0 ≤ m ≤ 11 → 1 ≤ d ≤ 28 → civil (MakeDay y m d) = (y, m + 1, d).
Proof.
  intros Hm Hd.
  pose proof (civil_spec (MakeDay y m d)) as (HM & _ & Heq).
  pose proof (civil_in_month (MakeDay y m d)) as [Hlo Hhi].
  destruct (civil (MakeDay y m d)) as [[Y M] D]. cbn [fst snd] in *.
  assert (12 * Y + (M - 1) = 12 * y + m) as Hk.
  { apply (month_unique _ _ (MakeDay y m d)).
    - rewrite <- !MakeDay_linear.
      replace (12 * Y + (M - 1) + 1) with (12 * Y + M) by lia.
      rewrite <- MakeDay_linear. lia.
    - rewrite <- MakeDay_linear.
      replace (12 * y + m + 1) with (12 * y + (m + 1)) by lia.
      rewrite <- MakeDay_linear.
      pose proof (MakeDay_next_month y m). unfold MakeDay in *. lia. }
  assert (Y = y ∧ M = m + 1) as [-> ->] by lia.
  f_equal. replace (m + 1 - 1) with m in Heq by lia.
  unfold MakeDay in Heq. lia.
Qed.

End DateFields.

Section MonthOfDate.

Import JSDate.

Local Ltac zdm := Z.div_mod_to_equations; lia.

Lemma Day_mk (y m d : Z) :
  ¬ (0 ≤ y ≤ 99) → Day (mk y m d) = MakeDay y m d.
Proof.
  intros Hy. unfold mk, MakeDate, Day.
  destruct (Z.leb_spec 0 y), (Z.leb_spec y 99); cbn [andb]; try lia;
    rewrite Z.add_0_r; apply Z.div_mul; done.
Qed.

Lemma mk_fields (y m : Z) :
  ¬ (0 ≤ y ≤ 99) → 0 ≤ m ≤ 11 →
  getFullYear (mk y m 1) = y ∧ getMonth (mk y m 1) = m.
Proof.
  intros Hy Hm. unfold getFullYear, getMonth.
  rewrite Day_mk, civil_MakeDay by lia. cbn [fst snd]. lia.
Qed.

Lemma getMonth_range (tv : t) : 0 ≤ getMonth tv ≤ 11.
Proof.
  unfold getMonth. pose proof (civil_spec (Day tv)) as (Hm & _). lia.
Qed.

Lemma mk_as_day (y m d : Z) :
  ¬ (0 ≤ y ≤ 99) → mk y m d = MakeDay y m d * msPerDay.
Proof.
  intros Hy. unfold mk, MakeDate.
  destruct (Z.leb_spec 0 y), (Z.leb_spec y 99); cbn [andb]; lia.
Qed.

(** An instant lies between the first day of a month and the first day
    of the next exactly when it has the year and the month of that
    month. *)
Lemma month_window_iff (y m : Z) (tv : t) :
  ¬ (0 ≤ y ≤ 99) → 0 ≤ m ≤ 11 →
  (mk y m 1 ≤ tv ∧ tv < mk y (m + 1) 1) ↔ (getFullYear tv = y ∧ getMonth tv = m).
Proof.
  intros Hy Hm. rewrite !mk_as_day by done.
  pose proof (civil_spec (Day tv)) as (HM & _ & _).
  pose proof (civil_in_month (Day tv)) as [Hlo Hhi].
  unfold getFullYear, getMonth.
  set (Y := (civil (Day tv)).1.1) in *. set (M := (civil (Day tv)).1.2) in *.
  clearbody Y M.
  assert (MakeDay y m 1 * msPerDay ≤ tv ∧ tv < MakeDay y (m + 1) 1 * msPerDay
          ↔ MakeDay y m 1 ≤ Day tv ∧ Day tv < MakeDay y (m + 1) 1) as ->.
  { unfold Day, msPerDay.
    generalize (MakeDay y m 1), (MakeDay y (m + 1) 1). intros a b. zdm. }
  split.
  - intros [Hge Hlt].
    assert (12 * Y + (M - 1) = 12 * y + m) as Hk.
    { apply (month_unique _ _ (Day tv)).
      - rewrite <- !MakeDay_linear.
        replace (12 * Y + (M - 1) + 1) with (12 * Y + M) by lia.
        rewrite <- MakeDay_linear. lia.
      - rewrite <- MakeDay_linear.
        replace (12 * y + m + 1) with (12 * y + (m + 1)) by lia.
        rewrite <- MakeDay_linear. lia. }
    lia.
  - intros [-> HMm]. replace (M - 1) with m in Hlo by lia.
    replace M with (m + 1) in Hhi by lia. lia.
Qed.

(** The first day of the current month, recomputed from itself, is the
    same instant, and [now] lies in the month it opens. *)
Lemma currentMonth_fixed (now : t) :
  100 ≤ getFullYear now →
  let currentMonth := mk (getFullYear now) (getMonth now) 1 in
  getFullYear currentMonth = getFullYear now
  ∧ getMonth currentMonth = getMonth now
  ∧ currentMonth ≤ now
  ∧ now < mk (getFullYear now) (getMonth now + 1) 1.
Proof.
  intros Hy currentMonth. pose proof (getMonth_range now) as Hm.
  destruct (mk_fields (getFullYear now) (getMonth now)) as [HY HM];
    [lia|exact Hm|].
  split; [exact HY|]. split; [exact HM|].
  apply month_window_iff; [lia|exact Hm|]. split; reflexivity.
Qed.

End MonthOfDate.

(** ** Sums over buckets *)

Section GroupSums.

Lemma sumQ_fmap_ext {A : Type} (g h : A → Q) (l : list A) :
  (∀ x, x ∈ l → (g x == h x)%Q) → (sumQ (g <$> l) == sumQ (h <$> l))%Q.
Proof.
  induction l as [|a l IH]; intros Hext; csimpl; [reflexivity|].
  unfold sumQ in *. simpl. rewrite (Hext a) by left.
  rewrite IH; [reflexivity|]. intros x Hx. apply Hext. by right.
Qed.

Lemma sumQ_fmap_plus {A : Type} (g h : A → Q) (l : list A) :
  (sumQ ((λ x, g x + h x) <$> l) == sumQ (g <$> l) + sumQ (h <$> l))%Q.
Proof.
  induction l as [|a l IH]; csimpl; unfold sumQ in *; simpl.
  - ring.
  - rewrite IH. ring.
Qed.

Lemma sumQ_indicator {K : Type} `{EqDecision K} (k0 : K) (v : Q)
    (ks : list K) :
  NoDup ks →
  (sumQ ((λ k, if decide (k0 = k) then v else 0) <$> ks)
   == if decide (k0 ∈ ks) then v else 0)%Q.
Proof.
  induction 1 as [|k ks Hk Hnd IH]; csimpl.
  - reflexivity.
  - unfold sumQ in *. simpl. rewrite IH.
    destruct (decide (k0 = k)) as [->|Hne].
    + destruct (decide (k ∈ ks)); [done|].
      destruct (decide (k ∈ k :: ks)) as [|Hn]; [ring|].
      exfalso. apply Hn. left.
    + destruct (decide (k0 ∈ ks)) as [Hin|Hnin];
        destruct (decide (k0 ∈ k :: ks)) as [Hin'|Hnin']; try ring.
      * exfalso. apply Hnin'. by right.
      * exfalso. apply elem_of_cons in Hin' as [?|?]; done.
Qed.

Lemma group_sum {A K : Type} `{EqDecision K} (f : A → Q) (key : A → K)
    (l : list A) (ks : list K) :
  NoDup ks → (∀ d, d ∈ l → key d ∈ ks) →
  (sumQ ((λ k, sumQ (f <$> filter (λ d, key d = k) l)) <$> ks)
   == sumQ (f <$> l))%Q.
Proof.
  intros Hnd. induction l as [|d l IH]; intros Hcover.
  - rewrite (sumQ_fmap_ext _ (λ _, 0%Q)) by (intros; reflexivity).
    clear. induction ks as [|k ks IHk]; [reflexivity|].
    rewrite fmap_cons. change (0 + sumQ ((λ _, 0%Q) <$> ks) == 0)%Q.
    rewrite IHk. reflexivity.
  - rewrite (sumQ_fmap_ext _
               (λ k, (if decide (key d = k) then f d else 0)
                     + sumQ (f <$> filter (λ d, key d = k) l))%Q).
    + rewrite sumQ_fmap_plus, sumQ_indicator by done.
      rewrite decide_True by (apply Hcover; left).
      rewrite IH by (intros d' Hd'; apply Hcover; by right).
      csimpl. unfold sumQ. simpl. reflexivity.
    + intros k _. rewrite filter_cons.
      destruct (decide (key d = k)); csimpl; unfold sumQ; simpl; ring.
Qed.

(** The bucket sums of a [$group] add up to the sum over its input. *)
Lemma groupStage_sumAbs {K : Type} `{EqDecision K}
    (key : Transaction.t → K) (l : list Transaction.t) :
  (sumQ ((λ kg, sumAbs kg.2) <$> groupStage key l) == sumAbs l)%Q.
Proof.
  unfold groupStage. rewrite <- list_fmap_compose.
  etrans; [|apply (group_sum (λ t, Qabs (Transaction.amount t)) key l
                     (remove_dups (key <$> l)))].
  - reflexivity.
  - apply NoDup_remove_dups.
  - intros d Hd. apply elem_of_remove_dups, list_elem_of_fmap. eauto.
Qed.

Lemma sumAbs_filter_le (P R : Transaction.t → Prop)
    `{∀ t, Decision (P t)} `{∀ t, Decision (R t)}
    (l : list Transaction.t) :
  (∀ t, P t → R t) → (sumAbs (filter P l) <= sumAbs (filter R l))%Q.
Proof.
  intros Himp. induction l as [|t l IH]; [apply Qle_refl|].
  rewrite !filter_cons.
  pose proof (Qabs_nonneg (Transaction.amount t)).
  destruct (decide (P t)) as [Hp|Hn].
  - rewrite decide_True by auto. rewrite !sumAbs_cons. lra.
  - destruct (decide (R t)); [rewrite sumAbs_cons|]; lra.
Qed.

Lemma sumQ_take_le (n : nat) (l : list Q) :
  Forall (λ q, (0 <= q)%Q) l → (sumQ (take n l) <= sumQ l)%Q.
Proof.
  intros Hall. revert n. induction Hall as [|x l Hx Hall IH]; intros n.
  - rewrite take_nil. apply Qle_refl.
  - destruct n as [|n]; simpl.
    + pose proof (sumQ_nonneg l Hall). lra.
    + specialize (IH n). unfold sumQ in *. lra.
Qed.

End GroupSums.

(** ** Further properties of the services *)

(** X1: from the year 100 on, the monthly figures of
    [getFinancialOverview] are the summed magnitudes of the user's
    transactions of the type that carry the year and the month of [now]
    and are not dated after the midnight that opens the last day of that
    month. *)
Theorem X1_overview_month_is_calendar_month (db : Store) (now : JSDate.t)
    (userId : ObjectId) :
  100 ≤ JSDate.getFullYear now →
  let monthly :=
    FinancialOverview.monthly
      (AnalyticsService.getFinancialOverview db now userId) in
  let counted := λ ty,
    filter (λ t, Transaction.userId t = userId
                 ∧ Transaction.type t = ty
                 ∧ JSDate.getFullYear (Transaction.date t)
                   = JSDate.getFullYear now
                 ∧ JSDate.getMonth (Transaction.date t) = JSDate.getMonth now
                 ∧ Transaction.date t
                   ≤ JSDate.mk (JSDate.getFullYear now)
                               (JSDate.getMonth now + 1) 0)
           (transactions db) in
  Totals.income monthly = sumAbs (counted income)
  ∧ Totals.expenses monthly = sumAbs (counted expense).
Proof.
  intros Hy monthly counted.
  pose proof (currentMonth_fixed now Hy) as (HY & HM & _ & _).
  cbv zeta in HY, HM.
  pose proof (getMonth_range now) as Hm.
  assert (∀ ty,
    AnalyticsService.totalOf ty
      (AnalyticsService.totalsByType (transactions db) userId
         (JSDate.mk (JSDate.getFullYear now) (JSDate.getMonth now) 1)
         (JSDate.mk (JSDate.getFullYear now) (JSDate.getMonth now + 1) 0))
    = sumAbs (counted ty)) as Hty.
  { intros ty. rewrite totalOf_totalsByType, list_filter_filter.
    unfold counted. f_equal. apply list_filter_iff. intros t.
    pose proof (month_window_iff (JSDate.getFullYear now)
                  (JSDate.getMonth now) (Transaction.date t)) as Hiff.
    pose proof (mk_last_day (JSDate.getFullYear now) (JSDate.getMonth now))
      as [_ Hnext].
    unfold JSDate.msPerDay in Hnext.
    split.
    - intros (Hty & Hu & Hlo & Hhi).
      destruct Hiff as [Hiff _]; [lia|exact Hm|].
      destruct Hiff as [H1 H2]; [split; [exact Hlo|lia]|].
      auto.
    - intros (Hu & Hty & H1 & H2 & Hhi).
      destruct Hiff as [_ Hiff]; [lia|exact Hm|].
      destruct Hiff as [Hlo _]; [auto|]. auto. }
  unfold monthly, AnalyticsService.getFinancialOverview. cbv zeta.
  cbn [FinancialOverview.monthly AnalyticsService.totals Totals.income
       Totals.expenses].
  rewrite HY, HM. split; apply Hty.
Qed.

Lemma X1_overview_month_is_calendar_month_witness :
  Totals.income
    (FinancialOverview.monthly
       (AnalyticsService.getFinancialOverview Sample.oneMonth Sample.now
          Sample.user)) = 300%Q.
Proof.
  destruct (X1_overview_month_is_calendar_month Sample.oneMonth Sample.now
              Sample.user) as [Hinc _].
  - vm_compute. discriminate.
  - rewrite Hinc. vm_compute. reflexivity.
Defined.

(** X2: from the year 100 on, the year-to-date income and expenses of
    [getFinancialOverview] are at least the monthly ones. *)
Theorem X2_overview_year_to_date_includes_month (db : Store)
    (now : JSDate.t) (userId : ObjectId) :
  100 ≤ JSDate.getFullYear now →
  let overview := AnalyticsService.getFinancialOverview db now userId in
  (Totals.income (FinancialOverview.monthly overview)
   <= Totals.income (FinancialOverview.yearly overview))%Q
  ∧ (Totals.expenses (FinancialOverview.monthly overview)
     <= Totals.expenses (FinancialOverview.yearly overview))%Q.
Proof.
  intros Hy overview.
  pose proof (currentMonth_fixed now Hy) as (HY & HM & _ & _).
  cbv zeta in HY, HM.
  pose proof (getMonth_range now) as Hm.
  assert (JSDate.mk (JSDate.getFullYear now) 0 1
          ≤ JSDate.mk (JSDate.getFullYear now) (JSDate.getMonth now) 1)
    as Hjan.
  { rewrite !mk_as_day by lia.
    rewrite (MakeDay_linear _ 0), (MakeDay_linear _ (JSDate.getMonth now)).
    pose proof (month_start_mono (12 * JSDate.getFullYear now + 0)
                  (12 * JSDate.getFullYear now + JSDate.getMonth now)).
    unfold JSDate.msPerDay. lia. }
  unfold overview, AnalyticsService.getFinancialOverview. cbv zeta.
  cbn [FinancialOverview.monthly FinancialOverview.yearly
       AnalyticsService.totals Totals.income Totals.expenses].
  rewrite HY, HM, !totalOf_totalsByType, !list_filter_filter.
  split; apply sumAbs_filter_le; intros t (Hty & Hu & Hlo & Hhi);
    (split; [exact Hty|]); (split; [exact Hu|]); split; lia.
Qed.

Lemma X2_overview_year_to_date_includes_month_witness :
  (Totals.expenses
     (FinancialOverview.monthly
        (AnalyticsService.getFinancialOverview Sample.twoMonths Sample.now
           Sample.user))
   <= Totals.expenses
        (FinancialOverview.yearly
           (AnalyticsService.getFinancialOverview Sample.twoMonths Sample.now
              Sample.user)))%Q.
Proof.
  apply (X2_overview_year_to_date_includes_month Sample.twoMonths Sample.now
           Sample.user).
  vm_compute. discriminate.
Defined.

(** X3: the top categories of [getFinancialOverview] are at most five,
    of pairwise different names, in descending order of amount, each
    with the summed magnitude of the user's expenses of that category in
    the month window; together they do not exceed the monthly
    expenses. *)
Theorem X3_overview_top_categories (db : Store) (now : JSDate.t)
    (userId : ObjectId) :
  let overview := AnalyticsService.getFinancialOverview db now userId in
  let top := FinancialOverview.topCategories overview in
  let currentMonth :=
    JSDate.mk (JSDate.getFullYear now) (JSDate.getMonth now) 1 in
  let window :=
    filter (λ t, Transaction.userId t = userId
                 ∧ Transaction.type t = expense
                 ∧ JSDate.mk (JSDate.getFullYear currentMonth)
                             (JSDate.getMonth currentMonth) 1
                   ≤ Transaction.date t
                 ∧ Transaction.date t
                   ≤ JSDate.mk (JSDate.getFullYear currentMonth)
                               (JSDate.getMonth currentMonth + 1) 0)
           (transactions db) in
  (length top ≤ 5)%nat
  ∧ NoDup top.*1
  ∧ StronglySorted (λ a b, (b.2 <= a.2)%Q) top
  ∧ (∀ c a, (c, a) ∈ top →
       a = sumAbs (filter (λ t, Transaction.category t = c) window)
       ∧ ∃ t, t ∈ window ∧ Transaction.category t = c)
  ∧ (sumQ top.*2
     <= Totals.expenses (FinancialOverview.monthly overview))%Q.
Proof.
  intros overview top currentMonth window.
  set (lo := JSDate.mk (JSDate.getFullYear currentMonth)
                       (JSDate.getMonth currentMonth) 1) in *.
  set (hi := JSDate.mk (JSDate.getFullYear currentMonth)
                       (JSDate.getMonth currentMonth + 1) 0) in *.
  set (spending := spendingOf (transactions db) userId lo hi).
  set (sorted := merge_sort (λ a b : string * Q, (b.2 <= a.2)%Q) spending).
  assert (top = take 5 sorted) as Htop by reflexivity.
  assert (sorted ≡ₚ spending) as Hperm by apply merge_sort_Permutation.
  assert (StronglySorted (λ a b : string * Q, (b.2 <= a.2)%Q) sorted)
    as Hsorted.
  { apply StronglySorted_merge_sort.
    - intros a b c Hab Hbc. eapply Qle_trans; eassumption.
    - intros a b. destruct (Qlt_le_dec a.2 b.2) as [Hlt|Hle].
      + right. by apply Qlt_le_weak.
      + left. done. }
  assert (∀ c a, (c, a) ∈ spending →
            a = sumAbs (filter (λ t, Transaction.category t = c) window)
            ∧ ∃ t, t ∈ window ∧ Transaction.category t = c) as Hrows.
  { intros c a Hin. unfold spending, spendingOf in Hin. fold window in Hin.
    apply list_elem_of_fmap in Hin as ([k g] & [= -> ->] & Hin).
    apply elem_of_groupStage in Hin as [-> Hex]. done. }
  split; [rewrite Htop, length_take; lia|].
  split.
  { rewrite Htop, fmap_take.
    eapply sublist_NoDup; [|apply sublist_take].
    rewrite Hperm. apply spendingOf_NoDup. }
  split.
  { rewrite Htop. clear -Hsorted. revert Hsorted. generalize 5%nat.
    induction sorted as [|x l IH]; intros n Hs.
    - rewrite take_nil. constructor.
    - destruct n as [|n]; [constructor|]. simpl.
      apply StronglySorted_inv in Hs as [Hs Hall].
      constructor; [by apply IH|].
      apply Forall_forall. intros y Hy.
      rewrite Forall_forall in Hall. apply Hall.
      apply elem_of_take in Hy as (i & Hy & _).
      by apply list_elem_of_lookup_2 in Hy. }
  split.
  { intros c a Hin. apply Hrows. rewrite <- Hperm.
    rewrite Htop in Hin.
    apply elem_of_take in Hin as (i & Hin & _).
    by apply list_elem_of_lookup_2 in Hin. }
  assert (Totals.expenses (FinancialOverview.monthly overview)
          = sumAbs (filter (λ t, Transaction.type t = expense)
                      (filter (λ t, Transaction.userId t = userId
                                    ∧ lo ≤ Transaction.date t
                                    ∧ Transaction.date t ≤ hi)
                              (transactions db)))) as ->.
  { unfold overview, AnalyticsService.getFinancialOverview. cbv zeta.
    cbn [FinancialOverview.monthly AnalyticsService.totals Totals.expenses].
    apply totalOf_totalsByType. }
  assert (filter (λ t, Transaction.type t = expense)
            (filter (λ t, Transaction.userId t = userId
                          ∧ lo ≤ Transaction.date t
                          ∧ Transaction.date t ≤ hi) (transactions db))
          = window) as ->.
  { rewrite list_filter_filter. apply list_filter_iff. intros t. tauto. }
  assert (sumQ spending.*2 == sumAbs window)%Q as Hsum.
  { unfold spending, spendingOf. fold window.
    rewrite <- list_fmap_compose. apply groupStage_sumAbs. }
  rewrite <- Hsum, <- (sumQ_perm _ _ (fmap_Permutation snd _ _ Hperm)).
  rewrite Htop, fmap_take. apply sumQ_take_le.
  rewrite (fmap_Permutation snd _ _ Hperm).
  apply Forall_fmap, Forall_forall. intros [c a] Hin.
  apply Hrows in Hin as [-> _]. apply sumAbs_nonneg.
Qed.

Section SpendingTotal.

Lemma categoryTotals_perm (db : Store) (userId : ObjectId)
    (startDate endDate : option JSDate.t) :
  AnalyticsService.categoryTotals db userId startDate endDate
  ≡ₚ (λ kg, (kg.1, sumAbs kg.2))
     <$> groupStage Transaction.category
           (filter (λ t, Transaction.userId t = userId
                         ∧ Transaction.type t = expense
                         ∧ gteBound startDate (Transaction.date t)
                         ∧ lteBound endDate (Transaction.date t))
                   (transactions db)).
Proof. apply merge_sort_Permutation. Qed.

Lemma getCategorySpending_total (db : Store) (userId : ObjectId)
    (startDate endDate : option JSDate.t) :
  (sumQ (CategorySpending.amount
           <$> AnalyticsService.getCategorySpending db userId
                 startDate endDate)
   == sumAbs (filter (λ t, Transaction.userId t = userId
                           ∧ Transaction.type t = expense
                           ∧ gteBound startDate (Transaction.date t)
                           ∧ lteBound endDate (Transaction.date t))
                     (transactions db)))%Q.
Proof.
  rewrite getCategorySpending_amounts.
  rewrite (sumQ_perm _ _ (fmap_Permutation snd _ _
                            (categoryTotals_perm db userId startDate endDate))).
  rewrite <- list_fmap_compose. apply groupStage_sumAbs.
Qed.

End SpendingTotal.

(** X4: the rows of [getCategorySpending] have pairwise different
    category names, and their amounts add up to the summed magnitude of
    all the user's expenses in the range. *)
Theorem X4_category_spending_partitions_expenses (db : Store)
    (userId : ObjectId) (startDate endDate : option JSDate.t) :
  let rows := AnalyticsService.getCategorySpending db userId startDate endDate in
  NoDup (CategorySpending.category <$> rows)
  ∧ (sumQ (CategorySpending.amount <$> rows)
     == sumAbs (filter (λ t, Transaction.userId t = userId
                             ∧ Transaction.type t = expense
                             ∧ gteBound startDate (Transaction.date t)
                             ∧ lteBound endDate (Transaction.date t))
                       (transactions db)))%Q.
Proof.
  intros rows. split.
  - assert (CategorySpending.category <$> rows
            = (AnalyticsService.categoryTotals db userId startDate endDate).*1)
      as ->.
    { unfold rows, AnalyticsService.getCategorySpending. cbv zeta.
      by rewrite <- list_fmap_compose. }
    rewrite (categoryTotals_perm db userId startDate endDate),
      <- list_fmap_compose.
    apply (groupStage_NoDup Transaction.category).
  - apply getCategorySpending_total.
Qed.

(** ** One user's view *)

Section Isolation.

Lemma filter_owned {A : Type} (owner : A → ObjectId) (userId : ObjectId)
    (R : A → Prop) `{∀ x, Decision (R x)} (l : list A) :
  (∀ x, R x → owner x = userId) →
  filter R (filter (λ x, owner x = userId) l) = filter R l.
Proof.
  intros Hown. rewrite list_filter_filter. apply list_filter_iff.
  intros x. split; [tauto|]. intros Hr. split; [exact Hr|by apply Hown].
Qed.

Lemma find_owned (userId : ObjectId) (P : Budget.t → Prop)
    `{∀ b, Decision (P b)} (l : list Budget.t) :
  List.find (λ b, bool_decide (Budget.userId b = userId ∧ P b))
            (filter (λ b, Budget.userId b = userId) l)
  = List.find (λ b, bool_decide (Budget.userId b = userId ∧ P b)) l.
Proof.
  induction l as [|b l IH]; [reflexivity|].
  rewrite filter_cons. simpl.
  destruct (decide (Budget.userId b = userId)) as [Hu|Hn]; simpl.
  - by rewrite IH.
  - rewrite bool_decide_eq_false_2 by tauto. exact IH.
Qed.

End Isolation.

(** X5: every report of the analytics service, and the current budget
    of the budget service, is computed from the documents of the asking
    user alone: it is the same on the store and on the store cut down to
    that user's transactions, categories and budgets. *)
Theorem X5_reports_read_own_documents_only (db : Store) (now : JSDate.t)
    (userId : ObjectId) :
  (∀ months,
     AnalyticsService.getMonthlySummary (ownedBy userId db) now userId months
     = AnalyticsService.getMonthlySummary db now userId months)
  ∧ (∀ startDate endDate,
       AnalyticsService.getCategorySpending (ownedBy userId db) userId
         startDate endDate
       = AnalyticsService.getCategorySpending db userId startDate endDate)
  ∧ (∀ period,
       AnalyticsService.getSpendingTrends (ownedBy userId db) now userId period
       = AnalyticsService.getSpendingTrends db now userId period)
  ∧ (∀ month,
       AnalyticsService.getBudgetProgress (ownedBy userId db) now userId month
       = AnalyticsService.getBudgetProgress db now userId month)
  ∧ AnalyticsService.getFinancialOverview (ownedBy userId db) now userId
    = AnalyticsService.getFinancialOverview db now userId
  ∧ BudgetService.getCurrentBudget (ownedBy userId db) now userId
    = BudgetService.getCurrentBudget db now userId.
Proof.
  split; [|split; [|split; [|split; [|split]]]].
  - intros months. unfold AnalyticsService.getMonthlySummary. cbv zeta.
    cbn [transactions ownedBy].
    rewrite filter_owned by (intros ? Hown; apply Hown). reflexivity.
  - intros startDate endDate.
    unfold AnalyticsService.getCategorySpending,
      AnalyticsService.categoryTotals. cbv zeta.
    cbn [transactions categories ownedBy].
    rewrite filter_owned by (intros ? Hown; apply Hown).
    replace (filter (λ c, Category.userId c = userId)
               (filter (λ c, Category.userId c = userId) (categories db)))
      with (filter (λ c, Category.userId c = userId) (categories db));
      [reflexivity|].
    rewrite list_filter_filter. apply list_filter_iff. intros c. tauto.
  - intros period.
    unfold AnalyticsService.getSpendingTrends, AnalyticsService.trendTotals.
    cbv zeta. cbn [transactions ownedBy].
    rewrite filter_owned by (intros ? Hown; apply Hown). reflexivity.
  - intros month. unfold AnalyticsService.getBudgetProgress, spendingOf.
    cbv zeta. cbn [transactions budgets ownedBy].
    rewrite find_owned, filter_owned by (intros ? Hown; apply Hown).
    reflexivity.
  - unfold AnalyticsService.getFinancialOverview,
      AnalyticsService.totalsByType, spendingOf.
    cbv zeta. cbn [transactions ownedBy].
    rewrite !filter_owned by (intros ? Hown; apply Hown). reflexivity.
  - unfold BudgetService.getCurrentBudget.
    assert (BudgetService.latestBudget (ownedBy userId db) now userId
            = BudgetService.latestBudget db now userId) as ->.
    { unfold BudgetService.latestBudget. cbv zeta. cbn [budgets ownedBy].
      rewrite filter_owned by (intros ? Hown; apply Hown). reflexivity. }
    destruct (BudgetService.latestBudget db now userId); [|reflexivity].
    unfold spendingOf. cbn [transactions ownedBy].
    rewrite filter_owned by (intros ? Hown; apply Hown). reflexivity.
Qed.

(** ** Reconciliation rows *)

Section Reconciliation.

Lemma jsgt_iff (a b : Q) : jsgt a b = true ↔ (b < a)%Q.
Proof.
  unfold jsgt. rewrite negb_true_iff, <- not_true_iff_false, Qle_bool_iff.
  split; [apply Qnot_le_lt|apply Qlt_not_le].
Qed.

Lemma guarded_ratio (n d : Q) :
  let r := if jsgt d 0 then jsscale (jsdiv n d) 100 else Fin 0 in
  ((0 < d)%Q → r = Fin (n / d * 100))
  ∧ ((d <= 0)%Q → r = Fin 0).
Proof.
  cbv zeta. destruct (jsgt d 0) eqn:Hg.
  - apply jsgt_zero in Hg. rewrite ratio_pos by done.
    split; [done|]. intros Hle. lra.
  - apply jsgt_zero_false in Hg. split; [|done]. intros Hpos. lra.
Qed.

End Reconciliation.

(** X6: a result of [getBudgetProgress] is for a budget of the user
    stored under the target month; it has one row per category budget of
    that budget, in the same order, with the category and the budget of
    the entry, [spent] the summed magnitude of the user's expenses of
    the category in the window of the target month, [remaining = budget
    - spent] and [percentage = spent / budget * 100] for a positive
    budget and 0 otherwise; [totalSpent] is the sum of the rows' [spent],
    [totalRemaining = totalBudget - totalSpent], and [totalPercentage]
    is guarded in the same way. *)
Theorem X6_budget_progress_reconciles (db : Store) (now : JSDate.t)
    (userId : ObjectId) (month : option JSDate.t) (r : BudgetResponse.t) :
  AnalyticsService.getBudgetProgress db now userId month = Some r →
  let targetMonth :=
    default (JSDate.mk (JSDate.getFullYear now) (JSDate.getMonth now) 1)
            month in
  let window :=
    filter (λ t, Transaction.userId t = userId
                 ∧ Transaction.type t = expense
                 ∧ JSDate.mk (JSDate.getFullYear targetMonth)
                             (JSDate.getMonth targetMonth) 1
                   ≤ Transaction.date t
                 ∧ Transaction.date t
                   ≤ JSDate.mk (JSDate.getFullYear targetMonth)
                               (JSDate.getMonth targetMonth + 1) 0)
           (transactions db) in
  ∃ b, b ∈ budgets db ∧ Budget.userId b = userId
       ∧ Budget.month b = targetMonth
       ∧ Forall2
           (λ cb row,
              CategoryProgress.category row = CategoryBudget.category cb
              ∧ CategoryProgress.budget row = CategoryBudget.budget cb
              ∧ CategoryProgress.spent row
                = sumAbs (filter (λ t, Transaction.category t
                                       = CategoryBudget.category cb) window)
              ∧ CategoryProgress.remaining row
                = (CategoryBudget.budget cb - CategoryProgress.spent row)%Q
              ∧ ((0 < CategoryBudget.budget cb)%Q →
                 CategoryProgress.percentage row
                 = Fin (CategoryProgress.spent row
                        / CategoryBudget.budget cb * 100))
              ∧ ((CategoryBudget.budget cb <= 0)%Q →
                 CategoryProgress.percentage row = Fin 0))
           (Budget.categoryBudgets b) (BudgetResponse.categoryBudgets r)
       ∧ BudgetResponse.totalBudget r = Budget.totalBudget b
       ∧ (BudgetResponse.totalSpent r
          == sumQ (CategoryProgress.spent
                     <$> BudgetResponse.categoryBudgets r))%Q
       ∧ BudgetResponse.totalRemaining r
         = (Budget.totalBudget b - BudgetResponse.totalSpent r)%Q
       ∧ ((0 < Budget.totalBudget b)%Q →
          BudgetResponse.totalPercentage r
          = Fin (BudgetResponse.totalSpent r / Budget.totalBudget b * 100))
       ∧ ((Budget.totalBudget b <= 0)%Q →
          BudgetResponse.totalPercentage r = Fin 0).
Proof.
  intros Hres targetMonth window. subst targetMonth.
  unfold AnalyticsService.getBudgetProgress in Hres. cbv zeta in Hres.
  destruct (List.find _ (budgets db)) as [b|] eqn:Hf; [|discriminate].
  apply find_Some_elem in Hf as (Hin & Hu & Hm).
  injection Hres as <-. exists b.
  split; [exact Hin|]. split; [exact Hu|]. split; [exact Hm|].
  cbn [BudgetResponse.categoryBudgets BudgetResponse.totalBudget
       BudgetResponse.totalSpent BudgetResponse.totalRemaining
       BudgetResponse.totalPercentage].
  split.
  { apply Forall2_fmap_r, Forall_Forall2_diag, Forall_forall.
    intros cb _. unfold compose, AnalyticsService.progressRow. cbv beta.
    cbn [CategoryProgress.category CategoryProgress.budget
         CategoryProgress.spent CategoryProgress.remaining
         CategoryProgress.percentage].
    rewrite spendingOf_lookup. fold window.
    split; [reflexivity|]. split; [reflexivity|]. split; [reflexivity|].
    split; [reflexivity|]. apply guarded_ratio. }
  split; [reflexivity|]. split; [apply reduceSum_sumQ|].
  split; [reflexivity|]. apply guarded_ratio.
Qed.

Lemma X6_budget_progress_reconciles_witness :
  ∃ r, AnalyticsService.getBudgetProgress Sample.overspentFood Sample.now
         Sample.user None = Some r
       ∧ (BudgetResponse.totalSpent r
          == sumQ (CategoryProgress.spent
                     <$> BudgetResponse.categoryBudgets r))%Q.
Proof.
  destruct (AnalyticsService.getBudgetProgress Sample.overspentFood
              Sample.now Sample.user None) as [r|] eqn:Hr.
  - exists r. split; [reflexivity|].
    destruct (X6_budget_progress_reconciles _ _ _ _ _ Hr)
      as (b & _ & _ & _ & _ & _ & Hsum & _).
    exact Hsum.
  - exfalso. vm_compute in Hr. discriminate.
Defined.

(** X7: in a result of [getCurrentBudget], each row has [remaining =
    budget - spent], a percentage that is [spent / budget * 100] for a
    positive budget and 0 otherwise, and [overspent] set, true exactly
    when [spent] exceeds the budget; [totalSpent] is the sum of the rows'
    [spent], [totalRemaining = totalBudget - totalSpent], and the total
    [overspent] is set, true exactly when [totalSpent] exceeds
    [totalBudget]. *)
Theorem X7_current_budget_flags (db : Store) (now : JSDate.t)
    (userId : ObjectId) (r : BudgetResponse.t) :
  BudgetService.getCurrentBudget db now userId = Some r →
  Forall (λ row,
            (0 <= CategoryProgress.spent row)%Q
            ∧ CategoryProgress.remaining row
              = (CategoryProgress.budget row - CategoryProgress.spent row)%Q
            ∧ ((0 < CategoryProgress.budget row)%Q →
               CategoryProgress.percentage row
               = Fin (CategoryProgress.spent row
                      / CategoryProgress.budget row * 100))
            ∧ ((CategoryProgress.budget row <= 0)%Q →
               CategoryProgress.percentage row = Fin 0)
            ∧ ∃ flag, CategoryProgress.overspent row = Some flag
                      ∧ (flag = true ↔
                         (CategoryProgress.budget row
                          < CategoryProgress.spent row)%Q))
         (BudgetResponse.categoryBudgets r)
  ∧ (BudgetResponse.totalSpent r
     == sumQ (CategoryProgress.spent <$> BudgetResponse.categoryBudgets r))%Q
  ∧ BudgetResponse.totalRemaining r
    = (BudgetResponse.totalBudget r - BudgetResponse.totalSpent r)%Q
  ∧ ((0 < BudgetResponse.totalBudget r)%Q →
     BudgetResponse.totalPercentage r
     = Fin (BudgetResponse.totalSpent r / BudgetResponse.totalBudget r * 100))
  ∧ ((BudgetResponse.totalBudget r <= 0)%Q →
     BudgetResponse.totalPercentage r = Fin 0)
  ∧ ∃ flag, BudgetResponse.overspent r = Some flag
            ∧ (flag = true ↔
               (BudgetResponse.totalBudget r < BudgetResponse.totalSpent r)%Q).
Proof.
  intros Hres. unfold BudgetService.getCurrentBudget in Hres.
  destruct (BudgetService.latestBudget db now userId) as [b|]; [|discriminate].
  injection Hres as <-.
  cbn [BudgetResponse.categoryBudgets BudgetResponse.totalBudget
       BudgetResponse.totalSpent BudgetResponse.totalRemaining
       BudgetResponse.totalPercentage BudgetResponse.overspent].
  split.
  { apply Forall_fmap, Forall_forall. intros cb _.
    unfold compose, BudgetService.currentRow. cbv beta.
    cbn [CategoryProgress.budget CategoryProgress.spent
         CategoryProgress.remaining CategoryProgress.percentage
         CategoryProgress.overspent].
    split; [rewrite spendingOf_lookup; apply sumAbs_nonneg|].
    split; [reflexivity|].
    destruct (guarded_ratio
                (orZero (newMap (spendingOf (transactions db) userId
                   (JSDate.mk (JSDate.getFullYear (Budget.month b))
                              (JSDate.getMonth (Budget.month b)) 1)
                   (JSDate.mk (JSDate.getFullYear (Budget.month b))
                              (JSDate.getMonth (Budget.month b) + 1) 0))
                 !! CategoryBudget.category cb))
                (CategoryBudget.budget cb)) as (Hp & Hz).
    split; [exact Hp|]. split; [exact Hz|].
    eexists. split; [reflexivity|]. apply jsgt_iff. }
  split; [apply reduceSum_sumQ|]. split; [reflexivity|].
  match goal with
  | |- context [jsscale (jsdiv ?n ?d) 100] =>
      destruct (guarded_ratio n d) as (Hp & Hz)
  end.
  split; [exact Hp|]. split; [exact Hz|].
  eexists. split; [reflexivity|]. apply jsgt_iff.
Qed.

Lemma X7_current_budget_flags_witness :
  ∃ r, BudgetService.getCurrentBudget Sample.overspentFood Sample.now
         Sample.user = Some r
       ∧ BudgetResponse.totalRemaining r
         = (BudgetResponse.totalBudget r - BudgetResponse.totalSpent r)%Q.
Proof.
  destruct (BudgetService.getCurrentBudget Sample.overspentFood Sample.now
              Sample.user) as [r|] eqn:Hr.
  - exists r. split; [reflexivity|].
    apply (X7_current_budget_flags _ _ _ _ Hr).
  - exfalso. vm_compute in Hr. discriminate.
Defined.

(** X8: when no two budgets share a user and a month and the user has a
    budget stored under the first day of the current month,
    [getBudgetProgress] without a month argument and [getCurrentBudget]
    report that same budget with the same figures: month, totals,
    currency, and per row the category, budget, spent, remaining and
    percentage. *)
Theorem X8_progress_and_current_budget_agree (db : Store) (now : JSDate.t)
    (userId : ObjectId) (b : Budget.t) :
  uniqueMonths (budgets db) →
  b ∈ budgets db → Budget.userId b = userId →
  Budget.month b
  = JSDate.mk (JSDate.getFullYear now) (JSDate.getMonth now) 1 →
  ∃ p c,
    AnalyticsService.getBudgetProgress db now userId None = Some p
    ∧ BudgetService.getCurrentBudget db now userId = Some c
    ∧ BudgetResponse.id c = Some (Budget._id b)
    ∧ BudgetResponse.month p = BudgetResponse.month c
    ∧ BudgetResponse.totalBudget p = BudgetResponse.totalBudget c
    ∧ BudgetResponse.totalSpent p = BudgetResponse.totalSpent c
    ∧ BudgetResponse.totalRemaining p = BudgetResponse.totalRemaining c
    ∧ BudgetResponse.totalPercentage p = BudgetResponse.totalPercentage c
    ∧ BudgetResponse.currency p = BudgetResponse.currency c
    ∧ Forall2
        (λ rp rc,
           CategoryProgress.category rp = CategoryProgress.category rc
           ∧ CategoryProgress.budget rp = CategoryProgress.budget rc
           ∧ CategoryProgress.spent rp = CategoryProgress.spent rc
           ∧ CategoryProgress.remaining rp = CategoryProgress.remaining rc
           ∧ CategoryProgress.percentage rp = CategoryProgress.percentage rc)
        (BudgetResponse.categoryBudgets p) (BudgetResponse.categoryBudgets c).
Proof.
  intros Huniq Hin Hu Hm.
  set (cm := JSDate.mk (JSDate.getFullYear now) (JSDate.getMonth now) 1) in *.
  assert (∀ b', b' ∈ budgets db → Budget.userId b' = userId →
                Budget.month b' = cm → b' = b) as Hsame.
  { intros b' Hin' Hu' Hm'.
    apply list_elem_of_lookup in Hin as [i Hi].
    apply list_elem_of_lookup in Hin' as [j Hj].
    assert (j = i) as -> by (apply (Huniq j i b' b); congruence).
    congruence. }
  unfold AnalyticsService.getBudgetProgress, BudgetService.getCurrentBudget.
  cbv zeta. cbn [default]. fold cm.
  destruct (List.find _ (budgets db)) as [b1|] eqn:Hf.
  2:{ exfalso.
      pose proof (find_None_iff
        (λ b, Budget.userId b = userId ∧ Budget.month b = cm)
        (budgets db)) as [Hnone _].
      apply (Hnone Hf b Hin). split; [exact Hu|exact Hm]. }
  apply find_Some_elem in Hf as (Hin1 & Hu1 & Hm1).
  assert (b1 = b) as -> by (by apply Hsame).
  destruct (BudgetService.latestBudget db now userId) as [b2|] eqn:Hl.
  2:{ exfalso.
      pose proof (proj1 (latestBudget_None db now userId) Hl) as Hnone.
      apply (Hnone b Hin). split; [exact Hu|]. fold cm. lia. }
  pose proof (latestBudget_Some db now userId b2 Hl)
    as (Hin2 & Hu2 & Hle2 & Hmax).
  fold cm in Hle2, Hmax.
  assert (b2 = b) as ->.
  { apply Hsame; [exact Hin2|exact Hu2|].
    specialize (Hmax b Hin Hu). lia. }
  eexists _, _. split; [reflexivity|]. split; [reflexivity|].
  cbn [BudgetResponse.id BudgetResponse.month BudgetResponse.totalBudget
       BudgetResponse.totalSpent BudgetResponse.totalRemaining
       BudgetResponse.totalPercentage BudgetResponse.currency
       BudgetResponse.categoryBudgets].
  rewrite Hm.
  assert (∀ (m : gmap string Q) (cbs : list CategoryBudget.t),
            reduceSum CategoryProgress.spent
              (AnalyticsService.progressRow m <$> cbs)
            = reduceSum CategoryProgress.spent
                (BudgetService.currentRow m <$> cbs)) as Htotal.
  { intros m cbs. unfold reduceSum.
    induction cbs as [|cb cbs IH] using rev_ind; [reflexivity|].
    rewrite !fmap_app, !foldl_app. simpl. by rewrite IH. }
  rewrite Htotal.
  split; [reflexivity|]. split; [reflexivity|]. split; [reflexivity|].
  split; [reflexivity|]. split; [reflexivity|]. split; [reflexivity|].
  split; [reflexivity|].
  apply Forall2_fmap, Forall_Forall2_diag, Forall_forall.
  intros cb _. repeat split.
Qed.

Lemma X8_progress_and_current_budget_agree_witness :
  ∃ p c,
    AnalyticsService.getBudgetProgress Sample.overspentFood Sample.now
      Sample.user None = Some p
    ∧ BudgetService.getCurrentBudget Sample.overspentFood Sample.now
        Sample.user = Some c
    ∧ BudgetResponse.totalSpent p = BudgetResponse.totalSpent c.
Proof.
  destruct (X8_progress_and_current_budget_agree Sample.overspentFood
              Sample.now Sample.user Sample.foodBudget)
    as (p & c & Hp & Hc & _ & _ & _ & Hs & _).
  - intros i j b b' Hi Hj _ _.
    destruct i as [|i], j as [|j]; try reflexivity;
      simpl in Hi, Hj; try discriminate;
      rewrite lookup_nil in *; discriminate.
  - left.
  - reflexivity.
  - vm_compute. reflexivity.
  - exists p, c. auto.
Defined.

Section SignedSums.

Lemma sumCond_nonneg_abs (ty : TxType) (g : list Transaction.t) :
  Forall (λ t, (0 <= Transaction.amount t)%Q) g →
  (sumCond ty g == sumAbs (filter (λ t, Transaction.type t = ty) g))%Q
  ∧ (0 <= sumCond ty g)%Q.
Proof.
  induction 1 as [|t g Ht _ [IH IHnn]].
  - split; [reflexivity|apply Qle_refl].
  - rewrite filter_cons. unfold sumCond in *. csimpl.
    change (sumQ (?x :: ?l)) with (x + sumQ l)%Q.
    destruct (decide (Transaction.type t = ty)).
    + rewrite sumAbs_cons, <- IH, (Qabs.Qabs_pos _ Ht).
      split; [reflexivity|lra].
    + rewrite <- IH. split; [ring|lra].
Qed.

End SignedSums.

(** X9: when no stored amount is negative, the monthly summary follows
    the rule of magnitudes: a row's income is the summed magnitude of the
    income transactions of its month, and its expenses the summed
    magnitude of the expense transactions of its month, among the user's
    transactions between the start date and now. *)
Theorem X9_monthly_summary_of_nonnegative_amounts (db : Store)
    (now : JSDate.t) (userId : ObjectId) (months : option Z) :
  Forall (λ t, (0 <= Transaction.amount t)%Q) (transactions db) →
  let startDate :=
    JSDate.setMonth now (JSDate.getMonth now - default 6 months) in
  ∀ row, row ∈ AnalyticsService.getMonthlySummary db now userId months →
    ∃ y m,
      let bucket := λ ty,
        filter (λ t, Transaction.type t = ty)
          (filter (λ t, (JSDate.year (Transaction.date t),
                         JSDate.month (Transaction.date t)) = (y, m))
             (filter (λ t, Transaction.userId t = userId
                           ∧ startDate ≤ Transaction.date t
                           ∧ Transaction.date t ≤ now)
                     (transactions db))) in
      MonthlyData.month row = AnalyticsService.monthLabel y m
      ∧ (MonthlyData.income row == sumAbs (bucket income))%Q
      ∧ (MonthlyData.expenses row == sumAbs (bucket expense))%Q
      ∧ (MonthlyData.net row
         == sumAbs (bucket income) - sumAbs (bucket expense))%Q.
Proof.
  intros Hnn startDate row Hrow.
  rewrite getMonthlySummary_sorted in Hrow.
  apply list_elem_of_fmap in Hrow as ([[y m] s] & -> & Hin).
  apply elem_of_sorted in Hin as [-> _].
  exists y, m. cbv zeta.
  cbn [fst snd MonthlyData.month MonthlyData.income MonthlyData.expenses
       MonthlyData.net].
  fold startDate.
  set (g := filter (λ t, (JSDate.year (Transaction.date t),
                          JSDate.month (Transaction.date t)) = (y, m)) _).
  assert (Forall (λ t, (0 <= Transaction.amount t)%Q) g) as Hg.
  { apply Forall_forall. intros t Ht.
    apply list_elem_of_filter in Ht as [_ Ht].
    apply list_elem_of_filter in Ht as [_ Ht].
    rewrite Forall_forall in Hnn. by apply Hnn. }
  destruct (sumCond_nonneg_abs income g Hg) as [Hi _].
  destruct (sumCond_nonneg_abs expense g Hg) as [He Hepos].
  split; [reflexivity|]. split; [exact Hi|].
  rewrite (Qabs.Qabs_pos _ Hepos). split; [exact He|].
  rewrite Hi, He. reflexivity.
Qed.

Lemma X9_monthly_summary_of_nonnegative_amounts_witness :
  ∃ row,
    AnalyticsService.getMonthlySummary Sample.oneMonth Sample.now
      Sample.user None = [row]
    ∧ ∃ y m, MonthlyData.month row = AnalyticsService.monthLabel y m.
Proof.
  eexists. split; [vm_compute; reflexivity|].
  destruct (X9_monthly_summary_of_nonnegative_amounts Sample.oneMonth
              Sample.now Sample.user None)
    with (row := MonthlyData.mk "2024-03" 300%Q 100%Q 200%Q)
    as (y & m & Hlabel & _).
  - repeat constructor; vm_compute; discriminate.
  - replace (AnalyticsService.getMonthlySummary Sample.oneMonth Sample.now
               Sample.user None)
      with [MonthlyData.mk "2024-03" 300%Q 100%Q 200%Q]
      by (vm_compute; reflexivity).
    left.
  - exists y, m. exact Hlabel.
Defined.

(** X10: when no stored amount is 0, every point of [getSpendingTrends]
    has a positive amount, so the change of a later point never divides
    by 0. *)
Theorem X10_trend_amounts_are_positive (db : Store) (now : JSDate.t)
    (userId : ObjectId) (period : Period) :
  Forall (λ t, ¬ (Transaction.amount t == 0)%Q) (transactions db) →
  Forall (λ p, (0 < SpendingTrend.amount p)%Q)
    (AnalyticsService.getSpendingTrends db now userId period).
Proof.
  intros Hnz.
  assert (∀ k a,
            (k, a) ∈ AnalyticsService.trendTotals db now userId period →
            (0 < a)%Q) as Hpos.
  { intros k a Hin.
    apply elem_of_trendTotals in Hin as [-> (t & Ht & Hk)].
    apply sumAbs_pos.
    - intros Hnil.
      assert (t ∈ filter (λ t, AnalyticsService.groupFormat period
                                 (Transaction.date t) = k)
                    (filter (λ t, Transaction.userId t = userId
                                  ∧ Transaction.type t = expense
                                  ∧ JSDate.mk (JSDate.getFullYear now)
                                              (JSDate.getMonth now - 11) 1
                                    ≤ Transaction.date t)
                            (transactions db))) as Hin
        by (apply list_elem_of_filter; split; [exact Hk|exact Ht]).
      rewrite Hnil in Hin. by apply elem_of_nil in Hin.
    - apply Forall_forall. intros t' Ht'.
      apply list_elem_of_filter in Ht' as [_ Ht'].
      apply list_elem_of_filter in Ht' as [_ Ht'].
      rewrite Forall_forall in Hnz. by apply Hnz. }
  apply Forall_forall. intros p Hp.
  apply list_elem_of_lookup in Hp as [i Hi].
  rewrite getSpendingTrends_lookup in Hi.
  destruct (AnalyticsService.trendTotals db now userId period !! i)
    as [[k a]|] eqn:Hcur; [|discriminate].
  injection Hi as <-.
  cbn [SpendingTrend.amount fst snd].
  apply (Hpos k). by apply list_elem_of_lookup_2 in Hcur.
Qed.

Lemma X10_trend_amounts_are_positive_witness :
  Forall (λ p, (0 < SpendingTrend.amount p)%Q)
    (AnalyticsService.getSpendingTrends Sample.twoMonths Sample.now
       Sample.user month).
Proof.
  apply X10_trend_amounts_are_positive.
  repeat constructor; vm_compute; discriminate.
Defined.

(** ** Budget documents *)

Section BudgetDocuments.

Lemma elem_of_deleteById (budgetId : ObjectId) (docs : list Budget.t)
    (b : Budget.t) :
  Budget._id b ≠ budgetId →
  b ∈ BudgetService.deleteById budgetId docs ↔ b ∈ docs.
Proof.
  intros Hne. induction docs as [|d docs IH]; simpl; [done|].
  destruct (bool_decide_reflect (Budget._id d = budgetId)) as [Hid|Hid].
  - rewrite elem_of_cons. split; [by right|].
    intros [->|Hin]; [done|exact Hin].
  - rewrite !elem_of_cons, IH. done.
Qed.

Lemma length_deleteById (budgetId : ObjectId) (docs : list Budget.t) :
  (∃ d, d ∈ docs ∧ Budget._id d = budgetId) →
  S (length (BudgetService.deleteById budgetId docs)) = length docs.
Proof.
  induction docs as [|d docs IH]; simpl.
  - intros (d & Hd & _). by apply elem_of_nil in Hd.
  - intros (d' & Hd' & Hid').
    destruct (bool_decide_reflect (Budget._id d = budgetId)) as [Hid|Hid];
      [reflexivity|].
    simpl. f_equal. apply IH.
    apply elem_of_cons in Hd' as [->|Hd']; [done|eauto].
Qed.

Lemma deleteById_no_id (budgetId : ObjectId) (docs : list Budget.t) :
  NoDup (Budget._id <$> docs) →
  ∀ b, b ∈ BudgetService.deleteById budgetId docs → Budget._id b ≠ budgetId.
Proof.
  induction docs as [|d docs IH]; simpl; intros Hnd b Hb.
  - by apply elem_of_nil in Hb.
  - apply NoDup_cons in Hnd as [Hd Hnd].
    destruct (bool_decide_reflect (Budget._id d = budgetId)) as [Hid|Hid].
    + intros Hb'. apply Hd. rewrite Hid, <- Hb'.
      apply list_elem_of_fmap. eauto.
    + apply elem_of_cons in Hb as [->|Hb]; [done|]. by apply IH.
Qed.

Lemma length_updateById (budgetId : ObjectId) (u : PartialBudget.t)
    (docs : list Budget.t) :
  length (BudgetService.updateById budgetId u docs) = length docs.
Proof.
  induction docs as [|d docs IH]; simpl; [done|].
  destruct (bool_decide (Budget._id d = budgetId)); simpl; [done|].
  by rewrite IH.
Qed.

Lemma updateById_others (budgetId : ObjectId) (u : PartialBudget.t)
    (docs : list Budget.t) (b : Budget.t) :
  Budget._id b ≠ budgetId →
  b ∈ BudgetService.updateById budgetId u docs ↔ b ∈ docs.
Proof.
  intros Hne. induction docs as [|d docs IH]; simpl; [done|].
  destruct (bool_decide_reflect (Budget._id d = budgetId)) as [Hid|Hid].
  - rewrite !elem_of_cons. split.
    + intros [->|Hin]; [done|by right].
    + intros [->|Hin]; [done|by right].
  - rewrite !elem_of_cons, IH. done.
Qed.

Lemma findOwned_None (db : Store) (budgetId userId : ObjectId) :
  BudgetService.findOwned db budgetId userId = None ↔
  ∀ b, b ∈ budgets db →
       ¬ (Budget._id b = budgetId ∧ Budget.userId b = userId).
Proof. apply find_None_iff. Qed.

Lemma findOwned_Some (db : Store) (budgetId userId : ObjectId)
    (b : Budget.t) :
  BudgetService.findOwned db budgetId userId = Some b →
  b ∈ budgets db ∧ Budget._id b = budgetId ∧ Budget.userId b = userId.
Proof. intros Hf. by apply find_Some_elem in Hf. Qed.

End BudgetDocuments.

(** X11: a budget that the user does not own is out of reach: when no
    stored budget has both the identifier and the user, [getBudgetById],
    [updateBudget] and [deleteBudget] all throw "Budget not found", and
    the two writes leave the store as it was; and what [getBudgetById]
    returns is a stored budget with that identifier and that user. *)
Theorem X11_budgets_of_other_users_are_out_of_reach (db : Store)
    (budgetId userId : ObjectId) :
  ((∀ b, b ∈ budgets db →
         ¬ (Budget._id b = budgetId ∧ Budget.userId b = userId)) →
   BudgetService.getBudgetById db budgetId userId = Throw "Budget not found"
   ∧ (∀ u, BudgetService.updateBudget db budgetId u userId
           = (Throw "Budget not found", db))
   ∧ BudgetService.deleteBudget db budgetId userId
     = (Throw "Budget not found", db))
  ∧ (∀ b, BudgetService.getBudgetById db budgetId userId = Ok b →
          b ∈ budgets db ∧ Budget._id b = budgetId
          ∧ Budget.userId b = userId).
Proof.
  split.
  - intros Hnone. apply findOwned_None in Hnone.
    unfold BudgetService.getBudgetById, BudgetService.updateBudget,
      BudgetService.deleteBudget.
    rewrite Hnone. done.
  - intros b. unfold BudgetService.getBudgetById.
    destruct (BudgetService.findOwned db budgetId userId) as [b'|] eqn:Hf;
      [|discriminate].
    intros [= <-]. by apply findOwned_Some.
Qed.

Lemma X11_budgets_of_other_users_are_out_of_reach_witness :
  BudgetService.deleteBudget Sample.balancedStore 9%N 2%N
  = (Throw "Budget not found", Sample.balancedStore).
Proof.
  apply (X11_budgets_of_other_users_are_out_of_reach Sample.balancedStore
           9%N 2%N).
  intros b Hb [_ Hu].
  apply list_elem_of_singleton in Hb as ->. vm_compute in Hu. discriminate.
Defined.

(** X12: [deleteBudget] either throws "Budget not found" and leaves the
    store as it was, or returns true and removes exactly one budget, one
    with the given identifier: every budget with another identifier is
    kept, the transactions and categories are untouched, and when
    identifiers are unique no budget with that identifier is left. *)
Theorem X12_delete_budget_removes_one (db : Store)
    (budgetId userId : ObjectId) :
  match BudgetService.deleteBudget db budgetId userId with
  | (Ok flag, db') =>
      flag = true
      ∧ S (length (budgets db')) = length (budgets db)
      ∧ (∀ b, Budget._id b ≠ budgetId → b ∈ budgets db' ↔ b ∈ budgets db)
      ∧ transactions db' = transactions db
      ∧ categories db' = categories db
      ∧ (NoDup (Budget._id <$> budgets db) →
         BudgetService.getBudgetById db' budgetId userId
         = Throw "Budget not found")
  | (Throw msg, db') => msg = "Budget not found" ∧ db' = db
  end.
Proof.
  unfold BudgetService.deleteBudget.
  destruct (BudgetService.findOwned db budgetId userId) as [b|] eqn:Hf;
    [|done].
  apply findOwned_Some in Hf as (Hin & Hid & Hu). rewrite Hid.
  cbn [budgets transactions categories].
  split; [done|]. split; [apply length_deleteById; eauto|].
  split; [intros b' Hne; by apply elem_of_deleteById|].
  split; [done|]. split; [done|].
  intros Hnd. unfold BudgetService.getBudgetById.
  replace (BudgetService.findOwned _ budgetId userId) with (@None Budget.t);
    [done|].
  symmetry. apply findOwned_None. cbn [budgets].
  intros b' Hb' [Hid' _]. by apply (deleteById_no_id budgetId _ Hnd b').
Qed.

(** X13: [createBudget] keeps one budget per user and month: when the
    user already has a budget stored under the month of the request it
    throws "Budget already exists for this month" and leaves the store as
    it was, and a store in which no two budgets share a user and a month
    is still such a store after a create that succeeds. *)
Theorem X13_create_budget_keeps_months_unique (db : Store)
    (newId : ObjectId) (data : PartialBudget.t) (userId : ObjectId) :
  ((∃ b, b ∈ budgets db ∧ Budget.userId b = userId
         ∧ Some (Budget.month b) = PartialBudget.month data) →
   BudgetService.createBudget db newId data userId
   = (Throw "Budget already exists for this month", db))
  ∧ (∀ b db',
       BudgetService.createBudget db newId data userId = (Ok b, db') →
       uniqueMonths (budgets db) → uniqueMonths (budgets db')).
Proof.
  unfold BudgetService.createBudget.
  destruct (List.find _ (budgets db)) as [dup|] eqn:Hf.
  - split; [done|]. intros b db' [=].
  - pose proof (proj1 (find_None_iff
        (λ b, Budget.userId b = userId
              ∧ Some (Budget.month b) = PartialBudget.month data)
        (budgets db)) Hf) as Hnone.
    split.
    { intros (b & Hin & Hu & Hm). exfalso. by apply (Hnone b Hin). }
    intros b db'.
    destruct (BudgetService.strictNe _ _); [intros [=]|].
    destruct (BudgetService.create newId userId data) as [b'|] eqn:Hc;
      [|intros [=]].
    intros [= <- <-] Huniq. cbn [budgets].
    apply create_fields in Hc as (_ & Hu & Hm & _).
    intros i j x y Hi Hj Hux Hmx.
    apply lookup_app_Some in Hi as [Hi|[Hil Hi]];
      apply lookup_app_Some in Hj as [Hj|[Hjl Hj]].
    + by apply (Huniq i j x y).
    + apply list_lookup_singleton_Some in Hj as [Hj0 <-].
      exfalso. apply (Hnone x); [by apply list_elem_of_lookup_2 in Hi|].
      split; congruence.
    + apply list_lookup_singleton_Some in Hi as [Hi0 <-].
      exfalso. apply (Hnone y); [by apply list_elem_of_lookup_2 in Hj|].
      split; congruence.
    + apply list_lookup_singleton_Some in Hi as [Hi0 _].
      apply list_lookup_singleton_Some in Hj as [Hj0 _]. lia.
Qed.

Lemma X13_create_budget_keeps_months_unique_witness :
  BudgetService.createBudget Sample.balancedStore 10%N
    (PartialBudget.mk None (Some (JSDate.mk 2024 2 1)) (Some 0%Q) None
       (Some "USD")) Sample.user
  = (Throw "Budget already exists for this month", Sample.balancedStore).
Proof.
  apply X13_create_budget_keeps_months_unique.
  exists Sample.balancedBudget. split; [left|]. split; reflexivity.
Defined.

(** X14: a budget that [createBudget] accepts is stored with the
    identifier the store assigns, the asking user, the month, total and
    currency of the request and its category budgets (none when the
    request has none); when that identifier is not yet in use,
    [getBudgetById] then returns this budget to the user. *)
Theorem X14_created_budget_can_be_read_back (db : Store) (newId : ObjectId)
    (data : PartialBudget.t) (userId : ObjectId) (b : Budget.t)
    (db' : Store) :
  BudgetService.createBudget db newId data userId = (Ok b, db') →
  Budget._id b = newId ∧ Budget.userId b = userId
  ∧ PartialBudget.month data = Some (Budget.month b)
  ∧ PartialBudget.totalBudget data = Some (Budget.totalBudget b)
  ∧ Budget.categoryBudgets b = default [] (PartialBudget.categoryBudgets data)
  ∧ PartialBudget.currency data = Some (Budget.currency b)
  ∧ (0 <= Budget.totalBudget b)%Q
  ∧ ((∀ old, old ∈ budgets db → Budget._id old ≠ newId) →
     BudgetService.getBudgetById db' newId userId = Ok b).
Proof.
  unfold BudgetService.createBudget.
  destruct (List.find _ (budgets db)); [intros [=]|].
  destruct (BudgetService.strictNe _ _); [intros [=]|].
  destruct (BudgetService.create newId userId data) as [b'|] eqn:Hc;
    [|intros [=]].
  intros [= <- <-].
  assert (0 <= Budget.totalBudget b')%Q as Hnn.
  { unfold BudgetService.create in Hc.
    destruct (PartialBudget.month data), (PartialBudget.totalBudget data),
      (PartialBudget.currency data); try discriminate.
    destruct (BudgetService.validTotal q) eqn:Hv; [|discriminate].
    simpl in Hc. destruct (_ && _); [|discriminate].
    injection Hc as <-. simpl. by apply Qle_bool_iff. }
  apply create_fields in Hc as (Hid & Hu & Hm & Ht & Hcbs & Hcur).
  repeat (split; [assumption|]).
  intros Hfresh. unfold BudgetService.getBudgetById, BudgetService.findOwned.
  cbn [budgets].
  assert (List.find (λ b, bool_decide (Budget._id b = newId
                                       ∧ Budget.userId b = userId))
            (budgets db ++ [b']) = Some b') as ->; [|done].
  induction (budgets db) as [|d docs IH]; simpl.
  - by rewrite bool_decide_eq_true_2.
  - rewrite bool_decide_eq_false_2.
    + apply IH. intros old Hold. apply Hfresh. by right.
    + intros [Hd _]. apply (Hfresh d); [left|done].
Qed.

Lemma X14_created_budget_can_be_read_back_witness :
  ∃ b db',
    BudgetService.createBudget Sample.balancedStore 10%N
      (PartialBudget.mk None (Some (JSDate.mk 2024 3 1)) (Some 0%Q) None
         (Some "USD")) Sample.user = (Ok b, db')
    ∧ BudgetService.getBudgetById db' 10%N Sample.user = Ok b.
Proof.
  destruct (BudgetService.createBudget Sample.balancedStore 10%N
              (PartialBudget.mk None (Some (JSDate.mk 2024 3 1)) (Some 0%Q)
                 None (Some "USD")) Sample.user) as [[b|msg] db'] eqn:Hc.
  - exists b, db'. split; [reflexivity|].
    apply (X14_created_budget_can_be_read_back _ _ _ _ _ _ Hc).
    intros old Hold. apply list_elem_of_singleton in Hold as ->.
    vm_compute. discriminate.
  - exfalso. vm_compute in Hc. discriminate.
Defined.

(** ** Updates of one budget *)

Section BudgetUpdates.

Lemma same_id (docs : list Budget.t) (x y : Budget.t) :
  NoDup (Budget._id <$> docs) →
  x ∈ docs → y ∈ docs → Budget._id x = Budget._id y → x = y.
Proof.
  intros Hnd [i Hi]%list_elem_of_lookup [j Hj]%list_elem_of_lookup Hid.
  assert (i = j) as ->.
  { apply (NoDup_lookup _ i j (Budget._id x) Hnd).
    - by rewrite list_lookup_fmap, Hi.
    - by rewrite list_lookup_fmap, Hj, Hid. }
  congruence.
Qed.

Lemma updateById_ids (budgetId : ObjectId) (u : PartialBudget.t)
    (docs : list Budget.t) :
  Budget._id <$> BudgetService.updateById budgetId u docs
  = Budget._id <$> docs.
Proof.
  induction docs as [|d docs IH]; csimpl; [done|].
  destruct (bool_decide (Budget._id d = budgetId)); csimpl; [done|].
  by rewrite IH.
Qed.

Lemma lookup_updateById (budgetId : ObjectId) (u : PartialBudget.t)
    (docs : list Budget.t) (i : nat) (d : Budget.t) :
  NoDup (Budget._id <$> docs) →
  docs !! i = Some d →
  BudgetService.updateById budgetId u docs !! i
  = Some (if decide (Budget._id d = budgetId)
          then BudgetService.applyUpdate u d else d).
Proof.
  revert i. induction docs as [|d0 docs IH]; intros i Hnd Hi; [done|].
  rewrite fmap_cons in Hnd. apply NoDup_cons in Hnd as [Hfresh Hnd].
  simpl.
  destruct (bool_decide_reflect (Budget._id d0 = budgetId)) as [Hid|Hid].
  - destruct i as [|i]; simpl in *.
    + injection Hi as <-. by rewrite decide_True.
    + rewrite Hi. f_equal. rewrite decide_False; [done|].
      intros Hd. apply Hfresh. rewrite Hid, <- Hd.
      apply list_elem_of_fmap. exists d. split; [done|].
      by apply list_elem_of_lookup_2 in Hi.
  - destruct i as [|i]; simpl in *.
    + injection Hi as <-. by rewrite decide_False.
    + by apply IH.
Qed.

Lemma find_unique {A : Type} (P : A → Prop) `{∀ x, Decision (P x)}
    (l : list A) (x : A) :
  x ∈ l → P x → (∀ y, y ∈ l → P y → y = x) →
  List.find (λ y, bool_decide (P y)) l = Some x.
Proof.
  intros Hx HP Huniq.
  destruct (List.find _ l) as [y|] eqn:Hf.
  - apply find_Some_elem in Hf as [Hy HPy]. f_equal. by apply Huniq.
  - exfalso. by apply (proj1 (find_None_iff P l) Hf x).
Qed.

Lemma violatesIndex_false (b : Budget.t) (docs : list Budget.t) :
  BudgetService.violatesIndex b docs = false →
  ∀ d, d ∈ docs → Budget.userId d = Budget.userId b →
       Budget.month d = Budget.month b → Budget._id d = Budget._id b.
Proof.
  unfold BudgetService.violatesIndex. intros Hv d Hd Hu Hm.
  destruct (decide (Budget._id d = Budget._id b)) as [|Hne]; [done|].
  exfalso.
  assert (existsb
            (λ d, bool_decide (Budget._id d ≠ Budget._id b
                               ∧ Budget.userId d = Budget.userId b
                               ∧ Budget.month d = Budget.month b)) docs
          = true) as Ht; [|congruence].
  apply existsb_exists. exists d. split; [by apply list_elem_of_In|].
  by apply bool_decide_eq_true_2.
Qed.

End BudgetUpdates.

(** X15: with unique identifiers, [updateBudget] either throws and leaves
    the store as it was, or changes one stored budget, the one of the
    asking user with the given identifier.  The number of budgets is the
    same, every budget with another identifier is kept as it was,
    transactions and categories are untouched, and a store in which no
    two budgets share a user and a month is still such a store.  The
    update is applied with a [userId] it may carry: the budget it returns
    belongs to that user, or to the asking user when the update has
    none; [getBudgetById] returns it to its new owner, and an asking user
    who gave it away gets "Budget not found". *)
Theorem X15_update_budget_changes_one (db : Store) (budgetId : ObjectId)
    (u : PartialBudget.t) (userId : ObjectId) :
  NoDup (Budget._id <$> budgets db) →
  match BudgetService.updateBudget db budgetId u userId with
  | (Ok r, db') =>
      ∃ old new,
        old ∈ budgets db ∧ Budget._id old = budgetId
        ∧ Budget.userId old = userId
        ∧ r = Some new ∧ new ∈ budgets db' ∧ Budget._id new = budgetId
        ∧ Budget.userId new = default userId (PartialBudget.userId u)
        ∧ length (budgets db') = length (budgets db)
        ∧ (∀ b, Budget._id b ≠ budgetId → b ∈ budgets db' ↔ b ∈ budgets db)
        ∧ transactions db' = transactions db
        ∧ categories db' = categories db
        ∧ (uniqueMonths (budgets db) → uniqueMonths (budgets db'))
        ∧ BudgetService.getBudgetById db' budgetId (Budget.userId new)
          = Ok new
        ∧ (Budget.userId new ≠ userId →
           BudgetService.getBudgetById db' budgetId userId
           = Throw "Budget not found")
  | (Throw msg, db') => db' = db
  end.
Proof.
  intros Hnd. unfold BudgetService.updateBudget.
  destruct (BudgetService.findOwned db budgetId userId) as [existing|]
    eqn:Hfind; [|reflexivity].
  destruct (match PartialBudget.month u with
            | Some m => List.find _ (budgets db)
            | None => None
            end); [reflexivity|].
  destruct (match PartialBudget.categoryBudgets u with
            | Some cbs => _
            | None => false
            end); [reflexivity|].
  destruct (BudgetService.validUpdate u); simpl; [|reflexivity].
  apply findOwned_Some in Hfind as (Hin & Hid & Hown).
  destruct (find_updateById budgetId u (budgets db))
    as (old & Hold & Hoid & Hf); [eauto|].
  assert (old = existing) as ->
    by (apply (same_id (budgets db)); [done|done|done|congruence]).
  rewrite Hf. simpl.
  set (new := BudgetService.applyUpdate u existing) in *.
  set (docs := BudgetService.updateById budgetId u (budgets db)) in *.
  destruct (BudgetService.violatesIndex new (budgets db)) eqn:Hindex;
    [reflexivity|].
  pose proof (violatesIndex_false _ _ Hindex) as Hfree.
  assert (Budget._id new = budgetId) as Hnid by exact Hid.
  assert (new ∈ docs) as Hnew by (by apply find_Some_elem in Hf as [? _]).
  assert (NoDup (Budget._id <$> docs)) as Hnd'
    by (unfold docs; by rewrite updateById_ids).
  assert (∀ y, y ∈ docs → Budget._id y = budgetId → y = new) as Honly.
  { intros y Hy Hyid. apply (same_id docs); [done|done|done|congruence]. }
  exists existing, new.
  split; [exact Hin|]. split; [exact Hid|]. split; [exact Hown|].
  split; [reflexivity|]. split; [exact Hnew|]. split; [exact Hnid|].
  split; [unfold new; simpl; by rewrite Hown|].
  split; [apply length_updateById|].
  split; [intros b Hne; by apply updateById_others|].
  split; [reflexivity|]. split; [reflexivity|].
  split; [|split].
  - intros Huniq i j x y Hi Hj Hu Hm.
    assert (∀ k z, docs !! k = Some z →
              ∃ d, budgets db !! k = Some d
                   ∧ z = if decide (Budget._id d = budgetId)
                         then BudgetService.applyUpdate u d else d)
      as Hsrc.
    { intros k z Hk.
      destruct (budgets db !! k) as [d|] eqn:Hd.
      - exists d. split; [done|].
        pose proof (lookup_updateById budgetId u _ k d Hnd Hd) as Hk'.
        fold docs in Hk'. congruence.
      - exfalso. apply lookup_ge_None in Hd. apply lookup_lt_Some in Hk.
        unfold docs in Hk. rewrite length_updateById in Hk. lia. }
    destruct (Hsrc i x Hi) as (di & Hdi & ->).
    destruct (Hsrc j y Hj) as (dj & Hdj & ->).
    assert (∀ d, d ∈ budgets db → Budget._id d = budgetId → d = existing)
      as Hexisting.
    { intros d Hd Hdid.
      apply (same_id (budgets db)); [done|done|done|congruence]. }
    destruct (decide (Budget._id di = budgetId)) as [Hi'|Hi'];
      destruct (decide (Budget._id dj = budgetId)) as [Hj'|Hj'].
    + apply (NoDup_lookup _ i j budgetId Hnd).
      * by rewrite list_lookup_fmap, Hdi, <- Hi'.
      * by rewrite list_lookup_fmap, Hdj, <- Hj'.
    + exfalso. apply Hj'.
      rewrite (Hexisting di) in Hu, Hm
        by (by apply list_elem_of_lookup_2 in Hdi).
      fold new in Hu, Hm. rewrite <- Hnid.
      apply Hfree; [by apply list_elem_of_lookup_2 in Hdj|done|done].
    + exfalso. apply Hi'.
      rewrite (Hexisting dj) in Hu, Hm
        by (by apply list_elem_of_lookup_2 in Hdj).
      fold new in Hu, Hm. rewrite <- Hnid.
      apply Hfree; [by apply list_elem_of_lookup_2 in Hdi|done|done].
    + by apply (Huniq i j di dj).
  - unfold BudgetService.getBudgetById, BudgetService.findOwned.
    cbn [budgets].
    rewrite (find_unique
               (λ b, Budget._id b = budgetId
                     ∧ Budget.userId b = Budget.userId new) docs new);
      [reflexivity|exact Hnew|by split|].
    intros y Hy [Hyid _]. by apply Honly.
  - intros Hgone.
    unfold BudgetService.getBudgetById.
    replace (BudgetService.findOwned _ budgetId userId) with (@None Budget.t);
      [reflexivity|].
    symmetry. apply findOwned_None. cbn [budgets].
    intros y Hy [Hyid Hyu]. apply Hgone.
    by rewrite <- (Honly y Hy Hyid).
Qed.

Lemma X15_update_budget_changes_one_witness :
  ∃ new db',
    BudgetService.updateBudget Sample.balancedStore 9%N Sample.handOver
      Sample.user = (Ok (Some new), db')
    ∧ Budget.userId new = 2%N
    ∧ BudgetService.getBudgetById db' 9%N 2%N = Ok new
    ∧ BudgetService.getBudgetById db' 9%N Sample.user
      = Throw "Budget not found".
Proof.
  assert (NoDup (Budget._id <$> budgets Sample.balancedStore)) as Hnd
    by (apply NoDup_singleton).
  pose proof (X15_update_budget_changes_one Sample.balancedStore 9%N
                Sample.handOver Sample.user Hnd) as H.
  destruct (BudgetService.updateBudget Sample.balancedStore 9%N
              Sample.handOver Sample.user) as [[r|msg] db'] eqn:Hres.
  - destruct H as (old & new & _ & _ & _ & -> & _ & _ & Hu & _ & _ & _ & _
                   & _ & Hread & Hgone).
    exists new, db'. split; [reflexivity|].
    assert (Budget.userId new = 2%N) as Hu2 by exact Hu.
    split; [exact Hu2|]. rewrite Hu2 in Hread. split; [exact Hread|].
    apply Hgone. rewrite Hu2. discriminate.
  - exfalso. vm_compute in Hres. discriminate.
Defined.

(** ** Pages of budgets *)

Section Pages.

Lemma ceil_ratio (total limit : Z) :
  0 < limit →
  jsceil (jsdiv (inject_Z total) (inject_Z limit))
  = Fin (inject_Z (- ((- total) / limit))).
Proof.
  intros Hl. unfold jsdiv.
  destruct (Qeq_bool (inject_Z limit) 0) eqn:Hz.
  { apply Qeq_bool_iff in Hz. unfold Qeq in Hz. simpl in Hz. lia. }
  destruct limit as [|p|p]; try lia.
  simpl. unfold Qceiling, Qfloor. simpl.
  do 2 f_equal. rewrite Z.mul_1_r. reflexivity.
Qed.

Lemma newestFirst_sorted (bs : list Budget.t) :
  StronglySorted BudgetService.newestFirst
    (merge_sort BudgetService.newestFirst bs).
Proof.
  apply StronglySorted_merge_sort.
  - intros a b c. unfold BudgetService.newestFirst. lia.
  - intros a b. unfold BudgetService.newestFirst. lia.
Qed.

Lemma StronglySorted_sublist {A : Type} (R : relation A) (l k : list A) :
  l `sublist_of` k → StronglySorted R k → StronglySorted R l.
Proof.
  induction 1 as [|x l k Hs IH|x l k Hs IH]; intros Hk.
  - constructor.
  - apply StronglySorted_inv in Hk as [Hk Hall].
    constructor; [by apply IH|].
    apply Forall_forall. intros y Hy. rewrite Forall_forall in Hall.
    apply Hall. by eapply elem_of_sublist.
  - apply StronglySorted_inv in Hk as [Hk _]. by apply IH.
Qed.

End Pages.

(** X16: for a page number and a page size from 1 on, [getBudgets]
    returns the budgets of the user, newest month first, cut to the page:
    the [limit] budgets after the first [(page - 1) * limit].  The page
    holds at most [limit] budgets, all of the user; [total] is the number
    of budgets of the user, [pages] is [total / limit] rounded up, and a
    page after the last one is empty.  A page number below 1 makes the
    store reject the negative skip. *)
Theorem X16_get_budgets_pages (db : Store) (userId : ObjectId)
    (page limit : Z) :
  1 ≤ limit →
  let owned := filter (λ b, Budget.userId b = userId) (budgets db) in
  let sorted := merge_sort BudgetService.newestFirst owned in
  (1 ≤ page →
   ∃ pg,
     BudgetService.getBudgets db userId page limit = Ok pg
     ∧ BudgetService.Page.budgets pg
       = take (Z.to_nat limit) (drop (Z.to_nat ((page - 1) * limit)) sorted)
     ∧ Z.of_nat (length (BudgetService.Page.budgets pg)) ≤ limit
     ∧ Forall (λ b, b ∈ budgets db ∧ Budget.userId b = userId)
         (BudgetService.Page.budgets pg)
     ∧ StronglySorted BudgetService.newestFirst
         (BudgetService.Page.budgets pg)
     ∧ BudgetService.Page.total pg = Z.of_nat (length owned)
     ∧ BudgetService.Page.pages pg
       = Fin (inject_Z (- ((- Z.of_nat (length owned)) / limit)))
     ∧ (- ((- Z.of_nat (length owned)) / limit) < page →
        BudgetService.Page.budgets pg = []))
  ∧ (page < 1 →
     BudgetService.getBudgets db userId page limit
     = Throw "Skip value must be non-negative").
Proof.
  intros Hl owned sorted.
  unfold BudgetService.getBudgets, skipStage, limitStage. cbv zeta.
  fold owned. fold sorted.
  split.
  - intros Hp.
    destruct (Z.ltb_spec ((page - 1) * limit) 0) as [Hneg|Hpos]; [nia|].
    destruct (Z.eqb_spec limit 0) as [->|_]; [lia|].
    eexists. split; [reflexivity|].
    cbn [BudgetService.Page.budgets BudgetService.Page.total
         BudgetService.Page.pages].
    replace (Z.abs_nat limit) with (Z.to_nat limit) by lia.
    split; [reflexivity|].
    split; [rewrite length_take; lia|].
    assert (take (Z.to_nat limit)
              (drop (Z.to_nat ((page - 1) * limit)) sorted)
            `sublist_of` sorted) as Hsub.
    { etrans; [apply sublist_take|apply sublist_drop]. }
    split.
    { apply Forall_forall. intros b Hb.
      apply (elem_of_sublist _ _ _ Hb) in Hsub as Hb'. clear Hb.
      rename Hb' into Hb.
      unfold sorted in Hb.
      rewrite merge_sort_Permutation in Hb.
      apply list_elem_of_filter in Hb as [Hu Hb]. done. }
    split.
    { eapply StronglySorted_sublist; [exact Hsub|].
      apply newestFirst_sorted. }
    split; [reflexivity|].
    split; [apply ceil_ratio; lia|].
    intros Hlast. rewrite drop_ge; [apply take_nil|].
    unfold sorted.
    rewrite (Permutation_length (merge_sort_Permutation _ _)).
    assert (Z.of_nat (length owned) ≤ (page - 1) * limit); [|lia].
    assert (Z.of_nat (length owned)
            ≤ - (- Z.of_nat (length owned) / limit) * limit)
      by (Z.div_mod_to_equations; nia).
    nia.
  - intros Hp.
    destruct (Z.ltb_spec ((page - 1) * limit) 0) as [Hneg|Hpos];
      [reflexivity|nia].
Qed.

Lemma X16_get_budgets_pages_witness :
  ∃ pg,
    BudgetService.getBudgets Sample.balancedStore Sample.user 1 10 = Ok pg
    ∧ BudgetService.Page.total pg = 1.
Proof.
  destruct (X16_get_budgets_pages Sample.balancedStore Sample.user 1 10)
    as [Hok _]; [lia|].
  destruct Hok as (pg & Hpg & _ & _ & _ & _ & Htotal & _); [lia|].
  exists pg. split; [exact Hpg|]. rewrite Htotal. reflexivity.
Defined.

(** ** Month labels *)

Section Labels.

Lemma append_inj_length (s1 s2 t1 t2 : string) :
  String.length t1 = String.length t2 →
  s1 +:+ t1 = s2 +:+ t2 → s1 = s2 ∧ t1 = t2.
Proof.
  intros Hlen. revert s2. induction s1 as [|c s1 IH]; intros [|c' s2] Heq;
    simpl in Heq.
  - done.
  - exfalso. apply (f_equal String.length) in Heq.
    simpl in Heq. rewrite !length_append in Heq. simpl in Heq. lia.
  - exfalso. apply (f_equal String.length) in Heq.
    simpl in Heq. rewrite !length_append in Heq. simpl in Heq. lia.
  - injection Heq as -> Heq. apply IH in Heq as [-> ->]. done.
Qed.

Lemma twoDigits_inj (m m' : Z) :
  1 ≤ m ≤ 12 → 1 ≤ m' ≤ 12 → twoDigits m = twoDigits m' → m = m'.
Proof.
  intros Hm Hm'.
  assert (m = 1 ∨ m = 2 ∨ m = 3 ∨ m = 4 ∨ m = 5 ∨ m = 6 ∨ m = 7 ∨ m = 8
          ∨ m = 9 ∨ m = 10 ∨ m = 11 ∨ m = 12) as Hc by lia.
  assert (m' = 1 ∨ m' = 2 ∨ m' = 3 ∨ m' = 4 ∨ m' = 5 ∨ m' = 6 ∨ m' = 7
          ∨ m' = 8 ∨ m' = 9 ∨ m' = 10 ∨ m' = 11 ∨ m' = 12) as Hc' by lia.
  clear Hm Hm'.
  repeat (destruct Hc as [->|Hc]);
    try subst m;
    repeat (destruct Hc' as [->|Hc']);
    try subst m';
    vm_compute; intros Heq; (reflexivity || discriminate Heq).
Qed.

(** Different months have different labels. *)
Lemma monthLabel_inj (y m y' m' : Z) :
  1 ≤ m ≤ 12 → 1 ≤ m' ≤ 12 →
  AnalyticsService.monthLabel y m = AnalyticsService.monthLabel y' m' →
  y = y' ∧ m = m'.
Proof.
  intros Hm Hm'. unfold AnalyticsService.monthLabel.
  rewrite !padStart_month by done.
  change (toString y +:+ "-" +:+ twoDigits m)
    with (toString y +:+ ("-" +:+ twoDigits m)).
  change (toString y' +:+ "-" +:+ twoDigits m')
    with (toString y' +:+ ("-" +:+ twoDigits m')).
  intros Heq.
  apply append_inj_length in Heq as [Hy Hmm].
  - split.
    + unfold toString in Hy. by apply (inj pretty) in Hy.
    + apply append_inj_length in Hmm as [_ Hmm];
        [by apply twoDigits_inj|by rewrite !twoDigits_length].
  - by rewrite !length_append, !twoDigits_length.
Qed.

End Labels.

(** ** The budget overview *)

Section TrendRecords.

Implicit Types (trends : list (Z * Z * TxType * Q)).

Lemma trendRecords_snoc trends (x : Z * Z * TxType * Q) :
  trendRecords (trends ++ [x])
  = match x.1.2 with
    | income =>
        (<[AnalyticsService.monthLabel x.1.1.1 x.1.1.2 := x.2]>
           (trendRecords trends).1, (trendRecords trends).2)
    | expense =>
        ((trendRecords trends).1,
         <[AnalyticsService.monthLabel x.1.1.1 x.1.1.2 := x.2]>
           (trendRecords trends).2)
    end.
Proof. unfold trendRecords. by rewrite foldl_app. Qed.

Lemma trendRecords_lookup trends (ty : TxType) (label : string) (a : Q) :
  NoDup trends.*1 →
  Forall (λ x, 1 ≤ x.1.1.2 ≤ 12) trends →
  recordOf ty (trendRecords trends) !! label = Some a ↔
  ∃ y m, (y, m, ty, a) ∈ trends ∧ AnalyticsService.monthLabel y m = label.
Proof.
  induction trends as [|x trends IH] using rev_ind; intros Hnd Hrange.
  - unfold trendRecords. simpl. destruct ty; simpl;
      rewrite lookup_empty; split; [done| |done|];
      intros (y & m & Hin & _); by apply elem_of_nil in Hin.
  - rewrite fmap_app in Hnd. apply NoDup_app in Hnd as (Hnd & Hfresh & _).
    apply Forall_app in Hrange as [Hrange Hx].
    rewrite Forall_singleton in Hx.
    specialize (IH Hnd Hrange).
    rewrite trendRecords_snoc.
    destruct x as [[[yx mx] tx] ax]. cbn [fst snd] in *.
    assert (∀ y m a', (y, m, ty, a') ∈ trends →
                      (y, m, ty) ≠ (yx, mx, tx)) as Hother.
    { intros y m a' Hin Heq. apply (Hfresh (yx, mx, tx)).
      - rewrite <- Heq. apply list_elem_of_fmap. exists (y, m, ty, a').
        split; [reflexivity|exact Hin].
      - left. }
    assert (∀ y m, (y, m, ty, a) ∈ trends ++ [(yx, mx, tx, ax)] ↔
                   (y, m, ty, a) ∈ trends
                   ∨ (y, m, ty, a) = (yx, mx, tx, ax)) as Hsnoc.
    { intros y m. rewrite elem_of_app, list_elem_of_singleton. done. }
    assert (∀ y m, (y, m, ty, a) ∈ trends → 1 ≤ m ≤ 12) as Hm.
    { intros y m Hin. rewrite Forall_forall in Hrange.
      by apply (Hrange _ Hin). }
    destruct (decide (tx = ty)) as [->|Hty].
    + assert (recordOf ty
                (match ty with
                 | income =>
                     (<[AnalyticsService.monthLabel yx mx := ax]>
                        (trendRecords trends).1, (trendRecords trends).2)
                 | expense =>
                     ((trendRecords trends).1,
                      <[AnalyticsService.monthLabel yx mx := ax]>
                        (trendRecords trends).2)
                 end)
              = <[AnalyticsService.monthLabel yx mx := ax]>
                  (recordOf ty (trendRecords trends))) as ->
        by (by destruct ty).
      destruct (decide (AnalyticsService.monthLabel yx mx = label))
        as [<-|Hne].
      * rewrite lookup_insert_eq. split.
        -- intros [= <-]. exists yx, mx. split; [|done].
           apply Hsnoc. by right.
        -- intros (y & m & [Hin|Heq]%Hsnoc & Hlabel).
           ++ exfalso. apply monthLabel_inj in Hlabel as [-> ->];
                [|by eapply Hm|exact Hx].
              by apply (Hother yx mx a).
           ++ congruence.
      * rewrite lookup_insert_ne by done. rewrite IH. split.
        -- intros (y & m & Hin & Hlabel). exists y, m.
           split; [apply Hsnoc; by left|done].
        -- intros (y & m & [Hin|Heq]%Hsnoc & Hlabel).
           ++ by exists y, m.
           ++ congruence.
    + assert (recordOf ty
                (match tx with
                 | income =>
                     (<[AnalyticsService.monthLabel yx mx := ax]>
                        (trendRecords trends).1, (trendRecords trends).2)
                 | expense =>
                     ((trendRecords trends).1,
                      <[AnalyticsService.monthLabel yx mx := ax]>
                        (trendRecords trends).2)
                 end)
              = recordOf ty (trendRecords trends)) as ->
        by (by destruct ty, tx).
      rewrite IH. split.
      * intros (y & m & Hin & Hlabel). exists y, m.
        split; [apply Hsnoc; by left|done].
      * intros (y & m & [Hin|Heq]%Hsnoc & Hlabel).
        -- by exists y, m.
        -- congruence.
Qed.

End TrendRecords.

Section OverviewTrends.

Lemma filter_nonempty {A : Type} (P : A → Prop) `{∀ x, Decision (P x)}
    (l : list A) :
  filter P l ≠ [] ↔ ∃ x, x ∈ l ∧ P x.
Proof.
  split.
  - destruct (filter P l) as [|x k] eqn:Hf; [done|]. intros _.
    assert (x ∈ filter P l) as Hx by (rewrite Hf; left).
    apply list_elem_of_filter in Hx as [HP Hx]. eauto.
  - intros (x & Hx & HP) Hnil.
    assert (x ∈ filter P l) as Hin by (by apply list_elem_of_filter).
    rewrite Hnil in Hin. exact (proj1 (elem_of_nil _) Hin).
Qed.

(** The records built from the sorted buckets of any list of
    transactions. *)
Lemma trendRecords_buckets (matched : list Transaction.t) (ty : TxType)
    (label : string) (a : Q) :
  let key := λ t, (JSDate.year (Transaction.date t),
                   JSDate.month (Transaction.date t),
                   Transaction.type t) in
  recordOf ty
    (trendRecords
       (merge_sort (λ a b, ymLe a.1.1 b.1.1)
          ((λ kg, (kg.1, sumAbs kg.2)) <$> groupStage key matched)))
    !! label = Some a ↔
  ∃ y m, label = AnalyticsService.monthLabel y m
         ∧ filter (λ t, key t = (y, m, ty)) matched ≠ []
         ∧ a = sumAbs (filter (λ t, key t = (y, m, ty)) matched).
Proof.
  intros key.
  set (buckets := (λ kg, (kg.1, sumAbs kg.2)) <$> groupStage key matched).
  assert (∀ y m, (y, m, ty, a) ∈ buckets ↔
                 filter (λ t, key t = (y, m, ty)) matched ≠ []
                 ∧ a = sumAbs (filter (λ t, key t = (y, m, ty)) matched))
    as Hbucket.
  { intros y m. unfold buckets. rewrite list_elem_of_fmap. split.
    - intros ([k g] & Heq & Hin). cbn [fst snd] in Heq.
      injection Heq as <- ->.
      apply elem_of_groupStage in Hin as (-> & d & Hd & Hk).
      split; [|reflexivity].
      apply filter_nonempty. exists d. split; [exact Hd|exact Hk].
    - intros ((d & Hd & Hk)%filter_nonempty & ->).
      exists ((y, m, ty), filter (λ t, key t = (y, m, ty)) matched).
      split; [reflexivity|].
      apply elem_of_groupStage. split; [reflexivity|]. eauto. }
  rewrite trendRecords_lookup.
  - split.
    + intros (y & m & Hin & <-). exists y, m.
      rewrite merge_sort_Permutation in Hin.
      apply Hbucket in Hin as [Hne Ha]. done.
    + intros (y & m & -> & Hne & Ha). exists y, m. split; [|reflexivity].
      rewrite merge_sort_Permutation. apply Hbucket. done.
  - rewrite merge_sort_Permutation. unfold buckets.
    rewrite <- list_fmap_compose. apply (groupStage_NoDup key).
  - rewrite merge_sort_Permutation. unfold buckets.
    apply Forall_fmap, Forall_forall. intros [k g] Hin.
    apply elem_of_groupStage in Hin as (_ & d & _ & <-).
    unfold compose, key. cbn [fst snd]. apply month_range.
Qed.

End OverviewTrends.

(** X17: the income and expense records of [getBudgetOverview].  Among
    the user's transactions in the window of the aggregation, from
    [new Date(y, m - 5, 1)] to [new Date(y, m + 1, 0)] for the year [y]
    and the month [m] of the current month, each calendar month with an
    income has one entry in the income record, under the label
    year-month with the month on two digits, holding the summed magnitude
    of the incomes of that month; the record has no other entry.  The
    expense record holds the expenses in the same way. *)
Theorem X17_budget_overview_trends (db : Store) (now : JSDate.t)
    (userId : ObjectId) (label : string) (a : Q) :
  let currentMonth :=
    JSDate.mk (JSDate.getFullYear now) (JSDate.getMonth now) 1 in
  let window :=
    filter (λ t, Transaction.userId t = userId
                 ∧ JSDate.mk (JSDate.getFullYear currentMonth)
                             (JSDate.getMonth currentMonth - 5) 1
                   ≤ Transaction.date t
                 ∧ Transaction.date t
                   ≤ JSDate.mk (JSDate.getFullYear currentMonth)
                               (JSDate.getMonth currentMonth + 1) 0)
           (transactions db) in
  let bucket := λ ty y m,
    filter (λ t, (JSDate.year (Transaction.date t),
                  JSDate.month (Transaction.date t),
                  Transaction.type t) = (y, m, ty)) window in
  let overview := getBudgetOverview db now userId in
  (BudgetOverview.incomeTrends overview !! label = Some a ↔
   ∃ y m, label = AnalyticsService.monthLabel y m
          ∧ bucket income y m ≠ []
          ∧ a = sumAbs (bucket income y m))
  ∧ (BudgetOverview.expenseTrends overview !! label = Some a ↔
     ∃ y m, label = AnalyticsService.monthLabel y m
            ∧ bucket expense y m ≠ []
            ∧ a = sumAbs (bucket expense y m)).
Proof.
  intros currentMonth window bucket overview.
  split.
  - exact (trendRecords_buckets window income label a).
  - exact (trendRecords_buckets window expense label a).
Qed.

(** X18: the recent budgets of [getBudgetOverview] are the first page of
    three of [getBudgets]: at most three budgets, all of the user, newest
    month first, and no budget of the user that is left out has a later
    month than one that is listed. *)
Theorem X18_budget_overview_recent_budgets (db : Store) (now : JSDate.t)
    (userId : ObjectId) :
  let recent := BudgetOverview.recentBudgets (getBudgetOverview db now userId) in
  let owned := filter (λ b, Budget.userId b = userId) (budgets db) in
  (∃ pg, BudgetService.getBudgets db userId 1 3 = Ok pg
         ∧ BudgetService.Page.budgets pg = recent)
  ∧ length recent = Nat.min 3 (length owned)
  ∧ Forall (λ b, b ∈ budgets db ∧ Budget.userId b = userId) recent
  ∧ StronglySorted BudgetService.newestFirst recent
  ∧ ∀ b b', b ∈ recent → b' ∈ owned → b' ∉ recent →
            Budget.month b' ≤ Budget.month b.
Proof.
  intros recent owned.
  set (sorted := merge_sort BudgetService.newestFirst owned).
  assert (recent = take 3 sorted) as Hrecent by reflexivity.
  clearbody recent. subst recent.
  split; [eexists; split; reflexivity|].
  split.
  { rewrite length_take. unfold sorted.
    by rewrite (Permutation_length (merge_sort_Permutation _ _)). }
  split.
  { apply Forall_forall. intros b Hb.
    pose proof (elem_of_sublist _ _ _ Hb (sublist_take sorted 3)) as Hb'.
    unfold sorted in Hb'. rewrite merge_sort_Permutation in Hb'.
    apply list_elem_of_filter in Hb' as [Hu Hb']. done. }
  split.
  { eapply StronglySorted_sublist; [apply sublist_take|].
    apply newestFirst_sorted. }
  intros b b' Hb Hb' Hout.
  assert (b' ∈ drop 3 sorted) as Hrest.
  { assert (b' ∈ take 3 sorted ++ drop 3 sorted) as Hin.
    { rewrite take_drop. unfold sorted.
      by rewrite merge_sort_Permutation. }
    apply elem_of_app in Hin as [Hin|Hin]; [by destruct Hout|exact Hin]. }
  pose proof (newestFirst_sorted owned) as Hs. fold sorted in Hs.
  rewrite <- (take_drop 3 sorted) in Hs.
  exact (StronglySorted_app_1_elem_of _ _ _ _ _ Hs Hb Hrest).
Qed.

(** ** The transaction summary *)

Section Summary.

Lemma groupStage_unit {A : Type} (docs : list A) :
  groupStage (λ _ : A, ()) docs
  = match docs with [] => [] | _ => [((), docs)] end.
Proof.
  destruct docs as [|d docs]; [reflexivity|].
  assert (NoDup (groupStage (λ _ : A, ()) (d :: docs)).*1) as Hnd
    by apply groupStage_NoDup.
  assert (∀ g, ((), g) ∈ groupStage (λ _ : A, ()) (d :: docs) →
               g = d :: docs) as Hg.
  { intros g (-> & _)%elem_of_groupStage. generalize (d :: docs).
    intros l. induction l as [|x l IH]; [reflexivity|].
    rewrite filter_cons_True by reflexivity. by rewrite IH. }
  destruct (groupStage (λ _ : A, ()) (d :: docs)) as [|[[] g] rest] eqn:Hgs.
  - apply groupStage_nil in Hgs. discriminate Hgs.
  - rewrite (Hg g) by left.
    destruct rest as [|[[] g'] rest]; [reflexivity|].
    exfalso. apply NoDup_cons in Hnd as [Hnotin _]. apply Hnotin. left.
Qed.

End Summary.

(** X19: [getTransactionSummary] counts the user's transactions and adds
    up the stored amounts of the user's incomes and of the user's
    expenses, sign included; a user with no transaction gets zeros.  When
    none of the user's amounts is negative, the total of expenses is the
    sum of the rows of [getCategorySpending] over all dates. *)
Theorem X19_transaction_summary (db : Store) (userId : ObjectId) :
  let owned := filter (λ t, Transaction.userId t = userId) (transactions db) in
  let summary := TransactionService.getTransactionSummary db userId in
  TransactionService.Summary.count summary = Z.of_nat (length owned)
  ∧ TransactionService.Summary.totalIncome summary = sumCond income owned
  ∧ TransactionService.Summary.totalExpenses summary = sumCond expense owned
  ∧ (Forall (λ t, (0 <= Transaction.amount t)%Q) owned →
     (TransactionService.Summary.totalExpenses summary
      == sumQ (CategorySpending.amount
                 <$> AnalyticsService.getCategorySpending db userId
                       None None))%Q).
Proof.
  intros owned summary.
  assert (summary
          = TransactionService.Summary.mk (sumCond income owned)
              (sumCond expense owned) (Z.of_nat (length owned))) as ->.
  { unfold summary, TransactionService.getTransactionSummary. cbv zeta.
    fold owned. rewrite groupStage_unit. by destruct owned. }
  cbn [TransactionService.Summary.count
       TransactionService.Summary.totalIncome
       TransactionService.Summary.totalExpenses].
  split; [reflexivity|]. split; [reflexivity|]. split; [reflexivity|].
  intros Hnn.
  rewrite getCategorySpending_total.
  destruct (sumCond_nonneg_abs expense owned Hnn) as [-> _].
  unfold owned. rewrite list_filter_filter.
  erewrite (list_filter_iff _
              (λ t, Transaction.userId t = userId
                    ∧ Transaction.type t = expense
                    ∧ gteBound None (Transaction.date t)
                    ∧ lteBound None (Transaction.date t)));
    [reflexivity|].
  intros t. unfold gteBound, lteBound. tauto.
Qed.

Lemma X19_transaction_summary_witness :
  (TransactionService.Summary.totalExpenses
     (TransactionService.getTransactionSummary Sample.twoCategories
        Sample.user)
   == sumQ (CategorySpending.amount
              <$> AnalyticsService.getCategorySpending Sample.twoCategories
                    Sample.user None None))%Q.
Proof.
  apply (X19_transaction_summary Sample.twoCategories Sample.user).
  repeat constructor; vm_compute; discriminate.
Defined.
